(** * dojo/cli-export-project: the export pipeline of [src/exportProject.ts]

    A shallow embedding of [src/exportProject.ts] and [src/log.ts].

    - JavaScript strings are [string]; the regular expressions of the source
      only look at ASCII characters.
    - A [StringMap] (a JavaScript object used as a map from package names to
      versions) is the association list of its own properties in the order
      of their creation.  [for .. in] and [Object.keys] enumerate the keys
      that are array indices first, in ascending order, and then the others
      in the order of their creation; an assignment to the key [__proto__] of
      a plain object reaches the accessor of [Object.prototype] and stores
      nothing.
    - The process (the verbosity flag, the console, the working directory,
      the bundle under construction, the files written) is an explicit state;
      a rejected promise or a thrown error is the outcome [Throw].
    - The functions of Node and of the npm libraries the source calls
      ([path], [JSON], [chalk]) are the fields of a [Host]; the file system,
      the glob matcher and the module resolver are the fields of a [World]. *)

From Stdlib Require Import Ascii String.
From stdpp Require Import base strings list gmap sets.

(* The solvers of stdpp clear hypotheses that are not always there. *)
#[global] Set Warnings "-clear-no-such-hyp".

(** ** Strings of the JavaScript runtime *)

Module JS.

Definition dquote : string := String (ascii_of_nat 34) EmptyString.
Definition newline : string := String (ascii_of_nat 10) EmptyString.
Definition backslash : ascii := ascii_of_nat 92.
Definition dollar : ascii := ascii_of_nat 36.

(** A string is truthy when it is not empty. *)
Definition truthy (s : string) : bool :=
  match s with EmptyString => false | String _ _ => true end.

(** [a || b] on values that are a string or [undefined]. *)
Definition or_else (a b : option string) : option string :=
  match a with
  | Some s => if truthy s then Some s else b
  | None => b
  end.

(** The truthiness test of [if (x)] on a string or [undefined]: the string
    when it is truthy. *)
Definition truthy_value (a : option string) : option string :=
  match a with
  | Some s => if truthy s then Some s else None
  | None => None
  end.

(** [parts.join(sep)]. *)
Definition join (sep : string) (parts : list string) : string :=
  String.concat sep parts.

(** [/<suffix>$/.test(s)] for a literal suffix. *)
Fixpoint endsWith (suffix s : string) : bool :=
  if String.eqb s suffix then true
  else match s with
       | EmptyString => false
       | String _ s' => endsWith suffix s'
       end.

(** [s.split('\n')]: never empty, so the first line and the others. *)
Fixpoint splitLines (s : string) : string * list string :=
  match s with
  | EmptyString => (EmptyString, [])
  | String c s' =>
      let '(h, t) := splitLines s' in
      if Ascii.eqb c (ascii_of_nat 10) then (EmptyString, h :: t)
      else (String c h, t)
  end.

(** [GetSubstitution] of [String.prototype.replace] for a pattern with one
    capture group: [$$], [$&], [$`], [$'], [$1] and [$01] are expanded, any
    other [$] stands for itself. *)
Fixpoint getSubstitution (matched before after cap1 : string)
    (replacement : string) : string :=
  let go := getSubstitution matched before after cap1 in
  match replacement with
  | EmptyString => EmptyString
  | String c r1 =>
      if Ascii.eqb c dollar then
        match r1 with
        | String d r2 =>
            if Ascii.eqb d dollar then String dollar (go r2)
            else if Ascii.eqb d "&" then matched +:+ go r2
            else if Ascii.eqb d "`" then before +:+ go r2
            else if Ascii.eqb d "'" then after +:+ go r2
            else if Ascii.eqb d "1" then cap1 +:+ go r2
            else if Ascii.eqb d "0" then
              match r2 with
              | String e r3 =>
                  if Ascii.eqb e "1" then cap1 +:+ go r3
                  else String dollar (go r1)
              | EmptyString => String dollar (go r1)
              end
            else String dollar (go r1)
        | EmptyString => String dollar EmptyString
        end
      else String c (go r1)
  end.

(** The leftmost match of [/(\.d)?\.ts$/] in [s]: the text before it and
    the matched text. *)
Fixpoint matchTsSuffix (s : string) : option (string * string) :=
  if String.eqb s ".d.ts" then Some (EmptyString, s)
  else if String.eqb s ".ts" then Some (EmptyString, s)
  else match s with
       | EmptyString => None
       | String c s' =>
           match matchTsSuffix s' with
           | Some (p, m) => Some (String c p, m)
           | None => None
           end
       end.

(** [s.replace(/(\.d)?\.ts$/, replacement)]. *)
Definition replaceTsSuffix (s replacement : string) : string :=
  match matchTsSuffix s with
  | None => s
  | Some (p, m) =>
      let cap1 := if String.eqb m ".d.ts" then ".d" else EmptyString in
      p +:+ getSubstitution m p EmptyString cap1 replacement
  end.

(** The number a decimal digit stands for. *)
Definition digitValue (c : ascii) : option N :=
  let n := N_of_ascii c in
  if (N.leb 48 n && N.leb n 57)%bool then Some (N.sub n 48) else None.

(** The number a string of decimal digits stands for, after the digits that
    gave [value]. *)
Fixpoint decimal (value : N) (s : string) : option N :=
  match s with
  | EmptyString => Some value
  | String c s' =>
      match digitValue c with
      | Some d => decimal (N.add (N.mul 10 value) d) s'
      | None => None
      end
  end.

(** A property key is an array index when it is the canonical numeral of an
    integer from 0 to 2^32 - 2: decimal digits without a leading zero. *)
Definition arrayIndex (s : string) : option N :=
  match s with
  | EmptyString => None
  | String c s' =>
      if (Ascii.eqb c "0" && negb (String.eqb s' EmptyString))%bool then None
      else match decimal 0 s with
           | Some n => if N.leb n 4294967294 then Some n else None
           | None => None
           end
  end.

(** The array index of [k] is below that of [k']. *)
Definition indexBelow (k k' : string) : bool :=
  match arrayIndex k, arrayIndex k' with
  | Some n, Some n' => N.ltb n n'
  | _, _ => false
  end.

(** Keys put in ascending order of their array indices. *)
Fixpoint insertKey (k : string) (sorted : list string) : list string :=
  match sorted with
  | [] => [k]
  | k' :: rest =>
      if indexBelow k k' then k :: sorted else k' :: insertKey k rest
  end.
Definition ascending (names : list string) : list string :=
  foldr insertKey [] names.

(** [s.replace(/[\/\\]/, '-')]: the pattern is not global, so the first
    slash or backslash only. *)
Fixpoint replaceFirstSeparator (s : string) : string :=
  match s with
  | EmptyString => EmptyString
  | String c s' =>
      if Ascii.eqb c "/" || Ascii.eqb c backslash then String "-" s'
      else String c (replaceFirstSeparator s')
  end.

End JS.

(** ** Data model *)

(** [StringMap]: package name to version, the own properties in the order
    of their creation. *)
Definition StringMap : Type := list (string * string).

Module StringMap.

(** The key of the accessor that [Object.prototype] defines. *)
Definition proto : string := "__proto__".

(** [m[k]] for an own property. *)
Fixpoint get (k : string) (m : StringMap) : option string :=
  match m with
  | [] => None
  | (k', v) :: m' => if decide (k' = k) then Some v else get k m'
  end.

(** An own property is written: an existing key keeps its place, a new key
    goes last. *)
Fixpoint define (k v : string) (m : StringMap) : StringMap :=
  match m with
  | [] => [(k, v)]
  | (k', v') :: m' =>
      if decide (k' = k) then (k, v) :: m' else (k', v') :: define k v m'
  end.

(** [m[k] = v] for a string [v].  Where [m] has no own property
    [__proto__], that key is the accessor of [Object.prototype], whose
    setter does nothing with a value that is not an object. *)
Definition set (k v : string) (m : StringMap) : StringMap :=
  if decide (k = proto ∧ get k m = None) then m else define k v m.

(** [Object.keys(m)], also the order of [for (k in m)]: the keys that are
    array indices in ascending order, then the other keys in the order of
    their creation. *)
Definition keys (m : StringMap) : list string :=
  JS.ascending (filter (λ k, is_Some (JS.arrayIndex k)) m.*1)
  ++ filter (λ k, ¬ is_Some (JS.arrayIndex k)) m.*1.

(** [Object.assign(target, source)]: [target[k] = source[k]] for the keys
    of the source, in their order; [source] may be [undefined]. *)
Definition assign (target : StringMap) (source : option StringMap) : StringMap :=
  match source with
  | None => target
  | Some s =>
      foldl (λ t k, match get k s with
                    | Some v => set k v t
                    | None => t
                    end) target (keys s)
  end.

(** [m && Object.keys(m).length]. *)
Definition nonEmpty (m : option StringMap) : bool :=
  match m with
  | Some (_ :: _) => true
  | _ => false
  end.

End StringMap.

(** Modelled from the spec: the declarations of [src/interfaces], which the
    source imports, are the manifest ([package.json.d.ts]) and the bundle
    with its files and file kinds ([project.json.d.ts]).  They are given here
    with the fields the source reads and the kinds the spec lists. *)

(** The manifest, as far as the source reads it. *)
Module PackageJson.
Record t : Type := mk {
  name : option string;
  dependencies : option StringMap;
  peerDependencies : option StringMap;
  devDependencies : option StringMap;
  typings : option string;
  types : option string
}.
Definition empty : t := mk None None None None None None.
End PackageJson.

(** The compiler configuration, as far as the source reads it. *)
Module Tsconfig.
Record compilerOptions_t : Type := mkOptions {
  lib : option (list string);
  types : option (list string)
}.
Record t : Type := mk {
  compilerOptions : option compilerOptions_t;
  include : option (list string)
}.
Definition empty : t := mk None None.
End Tsconfig.

(** [ProjectFileType]: the kinds of the spec. *)
Module ProjectFileType.
Inductive t : Type :=
| TypeScript | HTML | CSS | JSON | XML | Markdown | Definition_ | Lib
| PlainText.
#[global] Instance eq_dec : EqDecision t.
Proof. solve_decision. Defined.
End ProjectFileType.

Module ProjectFile.
Record t : Type := mk {
  name : string;
  text : string;
  type : ProjectFileType.t
}.
#[global] Instance eq_dec : EqDecision t.
Proof. solve_decision. Defined.
End ProjectFile.

(** An opaque JSON value (the contents of [.dojorc]). *)
Definition JsonValue : Type := string.

Module ProjectJson.
Record dependencies_t : Type := mkDependencies {
  production : StringMap;
  development : StringMap
}.
Record t : Type := mk {
  dependencies : dependencies_t;
  environmentFiles : list ProjectFile.t;
  files : list ProjectFile.t;
  index : string;
  package : PackageJson.t;
  tsconfig : Tsconfig.t;
  dojorc : option JsonValue
}.

Definition withProduction (f : StringMap → StringMap) (p : t) : t :=
  mk (mkDependencies (f (production (dependencies p)))
                     (development (dependencies p)))
     (environmentFiles p) (files p) (index p) (package p) (tsconfig p)
     (dojorc p).
Definition withDevelopment (f : StringMap → StringMap) (p : t) : t :=
  mk (mkDependencies (production (dependencies p))
                     (f (development (dependencies p))))
     (environmentFiles p) (files p) (index p) (package p) (tsconfig p)
     (dojorc p).
Definition pushEnvironmentFile (x : ProjectFile.t) (p : t) : t :=
  mk (dependencies p) (environmentFiles p ++ [x]) (files p) (index p)
     (package p) (tsconfig p) (dojorc p).
Definition pushFile (x : ProjectFile.t) (p : t) : t :=
  mk (dependencies p) (environmentFiles p) (files p ++ [x]) (index p)
     (package p) (tsconfig p) (dojorc p).
Definition setIndex (i : string) (p : t) : t :=
  mk (dependencies p) (environmentFiles p) (files p) i (package p)
     (tsconfig p) (dojorc p).
End ProjectJson.

(** ** Errors, the host and the world *)

(** A thrown [Error], as the handler of [exportProject] reads it: its
    [stack]. *)
Definition JsError : Type := string.

Inductive result (A : Type) : Type :=
| Returns (a : A)
| Throws (e : JsError).
Arguments Returns {A} a.
Arguments Throws {A} e.

Inductive Style : Type := BoldBlue | BoldYellow | BoldRed | BoldGreen | Underline.

(** The library functions the source calls. *)
Record Host : Type := {
  (** [path.join], [path.normalize], [path.relative], [path.extname] *)
  path_join : list string → string;
  path_normalize : string → string;
  path_relative : string → string → string;
  path_extname : string → string;
  (** [JSON.parse] at the type the source gives its result *)
  parsePackageJson : string → result PackageJson.t;
  parseTsconfig : string → result Tsconfig.t;
  parseJson : string → result JsonValue;
  (** [JSON.stringify] *)
  stringifyPackageJson : PackageJson.t → string;
  stringifyProject : ProjectJson.t → string;
  (** [chalk]: [bold.blue], [bold.yellow], [bold.red], [bold.green],
      [underline] *)
  chalk : Style → string → string;
  (** what the engine appends to the headline in the [stack] of a
      [new Error] *)
  stackTrace : string
}.

(** The file system and the module resolver, seen from the project root
    (the working directory after [chdir]). *)
Record World : Type := {
  (** [process.chdir(dir)] from a working directory: the new one *)
  chdir : string → string → result string;
  (** [fs.access(_, R_OK)] succeeds *)
  access : string → bool;
  (** [fs.readFile]: the readable files and their contents *)
  fileData : gmap string string;
  readError : string → JsError;
  (** [glob] *)
  glob : string → result (list string);
  (** [resolve-cwd] *)
  requireResolve : string → result string;
  (** [fs.writeFile]: the error, if it fails *)
  writeFile : string → string → option JsError
}.

(** ** The process state and its monad *)

Record State : Type := mkState {
  (** [verboseFlag] of [log.ts] *)
  verboseFlag : bool;
  (** the lines given to [console.log], oldest first *)
  console : list string;
  (** [process.cwd()] *)
  cwd : string;
  (** the bundle under construction *)
  project : ProjectJson.t;
  (** the files written, oldest first: name and contents *)
  written : list (string * string);
  (** instrumentation, not program state: the package names whose manifest
      [getDependencies] has looked up, oldest first *)
  lookups : list string
}.

Inductive outcome (A : Type) : Type :=
| Ok (a : A)
| Throw (e : JsError)
| OutOfFuel.
Arguments Ok {A} a.
Arguments Throw {A} e.
Arguments OutOfFuel {A}.

Definition M (A : Type) : Type := State → outcome A * State.

#[global] Instance M_ret : MRet M := λ A a st, (Ok a, st).
#[global] Instance M_bind : MBind M := λ A B f m st,
  match m st with
  | (Ok a, st') => f a st'
  | (Throw e, st') => (Throw e, st')
  | (OutOfFuel, st') => (OutOfFuel, st')
  end.

Definition throw {A} (e : JsError) : M A := λ st, (Throw e, st).
Definition outOfFuel {A} : M A := λ st, (OutOfFuel, st).
Definition gets {A} (f : State → A) : M A := λ st, (Ok (f st), st).
Definition modify (f : State → State) : M unit := λ st, (Ok tt, f st).
Definition lift {A} (r : result A) : M A :=
  match r with
  | Returns a => mret a
  | Throws e => throw e
  end.

(** [try { m } catch (e) { handler e }] *)
Definition tryCatch {A} (m : M A) (handler : JsError → M A) : M A := λ st,
  match m st with
  | (Throw e, st') => handler e st'
  | r => r
  end.

(** [Promise.all(tasks)]: every task runs, whatever the others do, and the
    result is the list of their values, in the order of the tasks, or a
    failure.  In the source the tasks are started together and the steps
    that follow their reads interleave as the reads complete; the model
    runs one schedule of them, each task to its end in the order of the
    list.  The theorems about a phase that awaits several tasks state what
    does not depend on the schedule: what the tasks append and print up to
    its order, and of a rejection that there is one.  The runs at concrete
    inputs follow the schedule of the model. *)
Fixpoint promiseAll {A} (tasks : list (M A)) : M (list A) :=
  match tasks with
  | [] => mret []
  | task :: tasks' => λ st,
      let '(r, st1) := task st in
      let '(rs, st2) := promiseAll tasks' st1 in
      (match r, rs with
       | Ok a, Ok l => Ok (a :: l)
       | Ok _, Throw e => Throw e
       | Ok _, OutOfFuel => OutOfFuel
       | Throw e, _ => Throw e
       | OutOfFuel, _ => OutOfFuel
       end, st2)
  end.

Definition notedLookup (packageName : string) (st : State) : State :=
  mkState (verboseFlag st) (console st) (cwd st) (project st) (written st)
          (lookups st ++ [packageName]).
Definition setProject (p : ProjectJson.t) (st : State) : State :=
  mkState (verboseFlag st) (console st) (cwd st) p (written st) (lookups st).
Definition updateProject (f : ProjectJson.t → ProjectJson.t) : M unit :=
  modify (λ st, setProject (f (project st)) st).
Definition appendConsole (lines : list string) (st : State) : State :=
  mkState (verboseFlag st) (console st ++ lines) (cwd st) (project st)
          (written st) (lookups st).
Definition consoleLog (line : string) : M unit :=
  modify (appendConsole [line]).

(** ** [src/log.ts] *)

Definition log (text : list string) : M unit :=
  consoleLog (JS.join EmptyString text).

Definition verbose (text : list string) : M unit :=
  flag ← gets verboseFlag;
  if negb flag then mret tt else log text.

(** [indent(num, message)]; the source's defaults are [1] and the empty
    string. *)
Fixpoint indent (num : nat) (message : string) : string :=
  match num with
  | 0 => message
  | S num' => indent num' ("  " +:+ message)
  end.

Definition setVerbose (flag : bool) : M unit :=
  modify (λ st, mkState flag (console st) (cwd st) (project st) (written st)
                        (lookups st)).

(** ** [src/main.ts]: the arguments *)

Module ExportArgs.
Record t : Type := mk {
  content : option string;
  out : string;
  index : option string;
  project : string;
  verbose : bool
}.
End ExportArgs.

(** ** [src/exportProject.ts] *)

(** The names a manifest declares as peer or regular dependencies. *)
Definition declared (packageJson : PackageJson.t) : list string :=
  StringMap.keys (default [] (PackageJson.peerDependencies packageJson))
  ++ StringMap.keys (default [] (PackageJson.dependencies packageJson)).

(** ["s"] between double quotes, as the messages of the source write it. *)
Definition quoted (s : string) : string := JS.dquote +:+ s +:+ JS.dquote.

(** [x || fallback] evaluated to a string. *)
Definition orDefault (x : option string) (fallback : string) : string :=
  default fallback (JS.or_else x None).

(** [DOJO_EXCLUDE.test(filename)] *)
Definition DOJO_EXCLUDE (filename : string) : bool :=
  JS.endsWith "@dojo/loader/interfaces.d.ts" filename.

Definition createProjectFile (name text : string) (type : ProjectFileType.t)
  : ProjectFile.t :=
  ProjectFile.mk name text type.

Section Program.

Context (h : Host) (w : World).

(** [new Error(message)], that is its [stack]. *)
Definition newError (message : string) : JsError :=
  "Error: " +:+ message +:+ stackTrace h.

Definition getGlob (pattern : string) : M (list string) :=
  lift (glob w pattern).

Definition getFile (filename : string) : M string :=
  match fileData w !! filename with
  | Some data => mret data
  | None => throw (readError w filename)
  end.

Definition exists_ (filename : string) : M bool :=
  mret (access w filename).

Definition setFile (filename contents : string) : M string :=
  match writeFile w filename contents with
  | Some err => throw err
  | None =>
      modify (λ st, mkState (verboseFlag st) (console st) (cwd st) (project st)
                            (written st ++ [(filename, contents)]) (lookups st));;
      mret filename
  end.

(** [process.chdir(dir)] *)
Definition processChdir (dir : string) : M unit :=
  from ← gets cwd;
  to ← lift (chdir w from dir);
  modify (λ st, mkState (verboseFlag st) (console st) to (project st)
                        (written st) (lookups st)).

Definition emptyProject : ProjectJson.t :=
  ProjectJson.mk (ProjectJson.mkDependencies [] []) [] [] EmptyString
                 PackageJson.empty Tsconfig.empty None.

Definition missingFilesMessage (dir : string) : string :=
  "Path " +:+ quoted dir +:+ " does not contain a " +:+ quoted "tsconfig.json"
  +:+ " and " +:+ quoted "package.json" +:+ ".".

Definition createProject : M ProjectJson.t :=
  hasPackage ← exists_ "package.json";
  hasBoth ← (if hasPackage : bool then exists_ "tsconfig.json" else mret false);
  if negb hasBoth then
    dir ← gets cwd;
    throw (newError (missingFilesMessage dir))
  else
    verbose [indent 1 EmptyString; chalk h BoldBlue "reading";
             " " +:+ quoted "package.json"];;
    packageText ← getFile "package.json";
    package ← lift (parsePackageJson h packageText);
    verbose [indent 1 EmptyString; chalk h BoldBlue "reading";
             " " +:+ quoted "tsconfig.json"];;
    tsconfigText ← getFile "tsconfig.json";
    tsconfig ← lift (parseTsconfig h tsconfigText);
    hasDojorc ← exists_ ".dojorc";
    dojorc ← (if hasDojorc : bool then
                verbose [indent 1 EmptyString; chalk h BoldBlue "reading";
                         " " +:+ quoted ".dojorc"];;
                dojorcText ← getFile ".dojorc";
                value ← lift (parseJson h dojorcText);
                mret (Some value)
              else mret None);
    mret (ProjectJson.mk (ProjectJson.mkDependencies [] []) [] [] EmptyString
                         package tsconfig dojorc).

Definition addLibFiles : M (list unit) :=
  p ← gets project;
  match Tsconfig.compilerOptions (ProjectJson.tsconfig p) ≫= Tsconfig.lib with
  | Some libs =>
      promiseAll
        ((λ lib,
            let filename := "lib." +:+ lib +:+ ".d.ts" in
            text ← getFile (path_join h ["node_modules"; "typescript"; "lib";
                                         filename]);
            updateProject (ProjectJson.pushEnvironmentFile
              (createProjectFile filename text ProjectFileType.Lib));;
            verbose [indent 1 EmptyString; chalk h BoldBlue "adding";
                     " lib " +:+ quoted lib]) <$> libs)
  | None => promiseAll []
  end.

Definition getProjectFileType (name : string) : ProjectFileType.t :=
  let ext := path_extname h name in
  if String.eqb ext ".ts" then
    if JS.endsWith ".d.ts" name then ProjectFileType.Definition_
    else ProjectFileType.TypeScript
  else if String.eqb ext ".html" then ProjectFileType.HTML
  else if String.eqb ext ".css" then ProjectFileType.CSS
  else if String.eqb ext ".json" then ProjectFileType.JSON
  else if String.eqb ext ".xml" then ProjectFileType.XML
  else if String.eqb ext ".md" then ProjectFileType.Markdown
  else ProjectFileType.PlainText.

(** The [try] block of [getDependencies]: resolve, read and parse the
    manifest of a package. *)
Definition readManifest (packageName : string) : M PackageJson.t :=
  packageJsonFileName ←
    lift (requireResolve w (path_join h [packageName; "package.json"]));
  text ← getFile packageJsonFileName;
  lift (parsePackageJson h text).

(** What the [try] block evaluates to; it reads the world only
    (lemma [readManifest_manifestOf]). *)
Definition manifestOf (packageName : string) : result PackageJson.t :=
  match requireResolve w (path_join h [packageName; "package.json"]) with
  | Throws e => Throws e
  | Returns packageJsonFileName =>
      match fileData w !! packageJsonFileName with
      | None => Throws (readError w packageJsonFileName)
      | Some text => parsePackageJson h text
      end
  end.

Definition noteLookup (packageName : string) : M unit :=
  modify (notedLookup packageName).

(** The [for (const packageName in packages)] loop of [getDependencies],
    over the keys still to come. *)
Fixpoint forIn (names : list string) (dependencies : StringMap)
    (parsedPackages : gset string) : M (StringMap * gset string) :=
  match names with
  | [] => mret (dependencies, parsedPackages)
  | packageName :: names' =>
      if decide (packageName ∈ parsedPackages) then
        verbose [indent 2 EmptyString; chalk h BoldBlue "skipping";
                 " dependencies for package " +:+ quoted packageName
                 +:+ ", already seen"];;
        forIn names' dependencies parsedPackages
      else
        let parsedPackages := {[packageName]} ∪ parsedPackages in
        verbose [indent 2 EmptyString; chalk h BoldBlue "resolving";
                 " dependencies for package " +:+ quoted packageName];;
        noteLookup packageName;;
        found ← tryCatch
          (packageJson ← readManifest packageName; mret (Some packageJson))
          (λ e,
             verbose [indent 2 EmptyString; chalk h BoldYellow "missing";
                      " " +:+ quoted (path_join h [packageName; "package.json"])];;
             mret None);
        match found with
        | None => forIn names' dependencies parsedPackages
        | Some packageJson =>
            let dependencies := StringMap.assign dependencies
                                  (PackageJson.peerDependencies packageJson) in
            let dependencies := StringMap.assign dependencies
                                  (PackageJson.dependencies packageJson) in
            (if StringMap.nonEmpty (PackageJson.dependencies packageJson) then
               verbose [indent 3 EmptyString; chalk h BoldBlue "depends";
                        " on packages " +:+
                        quoted (JS.join (quoted ", ")
                          (StringMap.keys (default []
                            (PackageJson.dependencies packageJson))))]
             else mret tt);;
            (if StringMap.nonEmpty (PackageJson.peerDependencies packageJson) then
               verbose [indent 3 EmptyString; chalk h BoldBlue "depends";
                        " on peer packages " +:+
                        quoted (JS.join (quoted ", ")
                          (StringMap.keys (default []
                            (PackageJson.peerDependencies packageJson))))]
             else mret tt);;
            forIn names' dependencies parsedPackages
        end
  end.

(** [getDependencies], with the depth of its recursion bounded by [fuel].
    The set [parsedPackages], which the source shares between the calls, is
    passed in and returned. *)
Fixpoint getDependenciesFuel (fuel : nat) (packages : StringMap)
    (parsedPackages : gset string) : M (StringMap * gset string) :=
  match fuel with
  | 0 => outOfFuel
  | S fuel' =>
      '(dependencies, parsedPackages) ←
        forIn (StringMap.keys packages) [] parsedPackages;
      if StringMap.nonEmpty (Some dependencies) then
        '(deeper, parsedPackages) ←
          getDependenciesFuel fuel' dependencies parsedPackages;
        mret (StringMap.assign dependencies (Some deeper), parsedPackages)
      else mret (dependencies, parsedPackages)
  end.

(** The names a manifest text declares as peer or regular dependencies. *)
Definition declaredNames (text : string) : list string :=
  match parsePackageJson h text with
  | Returns packageJson => declared packageJson
  | Throws _ => []
  end.

(** Every name a resolution that starts from [packages] can meet: the keys
    of [packages] and the names declared by the readable files. *)
Definition knownNames (packages : StringMap) : list string :=
  StringMap.keys packages
  ++ concat ((λ kv, declaredNames kv.2) <$> map_to_list (fileData w)).

(** [getDependencies]: the recursion is at most one level deeper than there
    are known names, so this fuel is enough. *)
Definition getDependencies (packages : StringMap)
    (parsedPackages : gset string) : M (StringMap * gset string) :=
  getDependenciesFuel (S (length (knownNames packages))) packages
                      parsedPackages.

(** The two statements of [addDependencies] that seed the production set
    from the project's own manifest. *)
Definition seedProduction : M unit :=
  p ← gets project;
  updateProject (ProjectJson.withProduction (λ production,
    StringMap.assign production
      (PackageJson.peerDependencies (ProjectJson.package p))));;
  updateProject (ProjectJson.withProduction (λ production,
    StringMap.assign production
      (PackageJson.dependencies (ProjectJson.package p)))).

Definition addDependencies : M unit :=
  let packageSet : gset string := ∅ in
  verbose [indent 1 EmptyString; chalk h BoldBlue "resolving";
           " production dependecies:"];;
  seedProduction;;
  p ← gets project;
  '(resolved, packageSet) ←
    getDependencies (ProjectJson.production (ProjectJson.dependencies p))
                    packageSet;
  updateProject (ProjectJson.withProduction (λ production,
    StringMap.assign production (Some resolved)));;
  verbose [indent 1 EmptyString; chalk h BoldBlue "resolving";
           " development dependecies:"];;
  let packageSet : gset string := ∅ in
  p ← gets project;
  updateProject (ProjectJson.withDevelopment (λ development,
    StringMap.assign development
      (PackageJson.devDependencies (ProjectJson.package p))));;
  p ← gets project;
  '(resolved, packageSet) ←
    getDependencies (ProjectJson.development (ProjectJson.dependencies p))
                    packageSet;
  updateProject (ProjectJson.withDevelopment (λ development,
    StringMap.assign development (Some resolved))).

(** The pattern [addProjectFiles] gives to [glob] for an include pattern. *)
Definition includeGlob (includeExtensions pattern : string) : string :=
  JS.replaceTsSuffix pattern (".{" +:+ includeExtensions +:+ "}").

(** The task of [addProjectFiles] for one matched file. *)
Definition addProjectFile (name : string) : M unit :=
  text ← getFile name;
  verbose [indent 1 EmptyString; chalk h BoldBlue "adding";
           " project file " +:+ quoted name];;
  updateProject (ProjectJson.pushFile
    (ProjectFile.mk name text (getProjectFileType name))).

Definition addProjectFiles (includeExtensions : option string) : M (list unit) :=
  let includeExtensions := default "ts,html,css,json,xml,md" includeExtensions in
  p ← gets project;
  match Tsconfig.include (ProjectJson.tsconfig p) with
  | Some include =>
      globs ← promiseAll
        ((λ pattern, getGlob (includeGlob includeExtensions pattern))
           <$> include);
      let files := concat globs in
      promiseAll (addProjectFile <$> files)
  | None => promiseAll []
  end.

(** The task of [addTypesFiles] for one entry of [compilerOptions.types]. *)
Definition addTypesFile (packageName : string) : M unit :=
  verbose [indent 1 EmptyString; chalk h BoldBlue "resolving";
           " types for package " +:+ quoted packageName];;
  resolved ← lift (requireResolve w (path_join h [packageName; "package.json"]));
  dir ← gets cwd;
  let packageJsonFilename := path_relative h dir resolved in
  manifestText ← getFile packageJsonFilename;
  packageJson ← lift (parsePackageJson h manifestText);
  updateProject (ProjectJson.pushEnvironmentFile
    (createProjectFile packageJsonFilename (stringifyPackageJson h packageJson)
                       ProjectFileType.JSON));;
  match JS.truthy_value (JS.or_else (PackageJson.typings packageJson)
                                    (PackageJson.types packageJson)) with
  | Some typings =>
      resolved ← lift (requireResolve w
                         (path_normalize h (path_join h [packageName; typings])));
      dir ← gets cwd;
      let filename := path_relative h dir resolved in
      text ← getFile filename;
      updateProject (ProjectJson.pushEnvironmentFile
        (createProjectFile filename text ProjectFileType.Definition_));;
      verbose [indent 1 EmptyString; chalk h BoldBlue "adding";
               " type file " +:+ quoted filename]
  | None =>
      log [indent 1 EmptyString; chalk h BoldYellow "warn";
           " " +:+ quoted packageJsonFilename
           +:+ " does not contain type information"];;
      tryCatch
        (resolved ← lift (requireResolve w
                            (path_normalize h
                               (path_join h [packageName; "index.d.ts"])));
         dir ← gets cwd;
         let filename := path_relative h dir resolved in
         text ← getFile filename;
         updateProject (ProjectJson.pushEnvironmentFile
           (createProjectFile filename text ProjectFileType.Definition_));;
         verbose [indent 1 EmptyString; chalk h BoldBlue "adding";
                  " type file " +:+ quoted filename])
        (λ e, mret tt)
  end.

Definition addTypesFiles : M (list unit) :=
  p ← gets project;
  match Tsconfig.compilerOptions (ProjectJson.tsconfig p) ≫= Tsconfig.types with
  | Some types => promiseAll (addTypesFile <$> types)
  | None => promiseAll []
  end.

Definition addDefinitionFiles : M (list unit) :=
  files ← getGlob "node_modules/{@dojo,@types}/**/*.d.ts";
  promiseAll
    ((λ filename,
        if DOJO_EXCLUDE filename then mret tt
        else
          text ← getFile filename;
          updateProject (ProjectJson.pushEnvironmentFile
            (createProjectFile filename text ProjectFileType.Definition_));;
          verbose [indent 1 EmptyString; chalk h BoldBlue "adding";
                   " definition file " +:+ quoted filename]) <$> files).

(** [setProjectIndex(project, index)] on the bundle of the state. *)
Definition setProjectIndex (index : option string) : M unit :=
  let index := default "./src/index.html" index in
  p ← gets project;
  match List.find (λ f, bool_decide (ProjectFile.name f = index))
                  (ProjectJson.files p) with
  | None =>
      log [indent 1 EmptyString; chalk h BoldRed "error";
           " unable to find index " +:+ quoted index +:+ " in project."]
  | Some _ => updateProject (ProjectJson.setIndex index)
  end.

(** The name of the bundle file. *)
Definition outFilename (package : PackageJson.t) : string :=
  JS.replaceFirstSeparator (orDefault (PackageJson.name package) "bundle")
  +:+ ".project.json".

(** The five gathering phases, started in this order and awaited together.
    The model runs them one after the other; in the source their steps
    interleave as their reads complete. *)
Definition gather (content : option string) : M (list unit) :=
  promiseAll
    [ addLibFiles ;; mret tt;
      addTypesFiles ;; mret tt;
      addDefinitionFiles ;; mret tt;
      (if default false (JS.truthy <$> content) then
         verbose [indent 1 EmptyString; chalk h BoldBlue "setting";
                  " project file extensions to "
                  +:+ quoted (default EmptyString content)]
       else mret tt);;
      addProjectFiles content ;; mret tt;
      addDependencies ].

(** After the gathering: the index, the output file and the last line. *)
Definition finish (initialCwd : string) (args : ExportArgs.t) : M unit :=
  setProjectIndex (ExportArgs.index args);;
  p ← gets project;
  let outfilename := outFilename (ProjectJson.package p) in
  dir ← gets cwd;
  let outfile := path_relative h dir
                   (path_normalize h
                      (path_join h [initialCwd; ExportArgs.out args; outfilename])) in
  setFile outfile (stringifyProject h p);;
  log [indent 1 EmptyString; chalk h BoldGreen "exported";
       " to " +:+ quoted (path_relative h initialCwd outfile) +:+ JS.newline].

(** The start of the [try] block of [exportProject]: change to the project
    root and create the bundle.  The result is the initial working
    directory. *)
Definition enter (args : ExportArgs.t) : M string :=
  initialCwd ← gets cwd;
  processChdir (ExportArgs.project args);;
  dir ← gets cwd;
  (if bool_decide (dir ≠ initialCwd) then
     verbose [indent 1 EmptyString; chalk h BoldBlue "changing";
              " working directory to " +:+ quoted (ExportArgs.project args)]
   else mret tt);;
  created ← createProject;
  modify (setProject created);;
  mret initialCwd.

(** The [try] block of [exportProject]. *)
Definition pipeline (args : ExportArgs.t) : M unit :=
  initialCwd ← enter args;
  gather (ExportArgs.content args);;
  finish initialCwd args.

(** The [catch] block of [exportProject]. *)
Definition reportError (e : JsError) : M unit :=
  let '(headline, stack) := JS.splitLines e in
  log [indent 1 EmptyString; chalk h BoldRed "errored"; " "; headline];;
  log [JS.join JS.newline stack; JS.newline].

Definition exportProject (args : ExportArgs.t) : M unit :=
  setVerbose (ExportArgs.verbose args);;
  log [chalk h Underline (JS.newline +:+ "Export project bundle")];;
  tryCatch (pipeline args) reportError.

End Program.

(** The state in which the [try] block of [exportProject] starts. *)
Definition started (h : Host) (args : ExportArgs.t) (st : State) : State :=
  mkState (ExportArgs.verbose args)
          (console st ++ [chalk h Underline (JS.newline +:+ "Export project bundle")])
          (cwd st) (project st) (written st) (lookups st).

(** ** A host and worlds for the examples *)

Module Demo.

(** [path.join] on segments that need no other normalisation than dropping
    the segment [.]. *)
Definition join (parts : list string) : string :=
  String.concat "/" (filter (λ part, part ≠ ".") parts).

Fixpoint hasSlash (s : string) : bool :=
  match s with
  | EmptyString => false
  | String c s' => Ascii.eqb c "/" || hasSlash s'
  end.

(** [path.extname] on paths whose last component does not start with a dot:
    the text from the last dot of the last component on. *)
Fixpoint extname (s : string) : string :=
  match s with
  | EmptyString => EmptyString
  | String c s' =>
      match extname s' with
      | EmptyString =>
          if Ascii.eqb c "." && negb (hasSlash s') then s else EmptyString
      | e => e
      end
  end.

Fixpoint stripPrefix (p s : string) : option string :=
  match p, s with
  | EmptyString, _ => Some s
  | String a p', String b s' =>
      if Ascii.eqb a b then stripPrefix p' s' else None
  | _, _ => None
  end.

(** [path.relative] from a directory to a path below it. *)
Definition relative (from to : string) : string :=
  default to (stripPrefix (from +:+ "/") to).

(** [JSON.parse] on the texts of a table. *)
Definition parseWith {A} (table : list (string * A)) (text : string) : result A :=
  match list_find (λ kv, kv.1 = text) table with
  | Some (_, (_, a)) => Returns a
  | None => Throws ("SyntaxError: Unexpected token in JSON" +:+ JS.newline
                    +:+ "    at JSON.parse")
  end.

Definition showStringMap (m : StringMap) : string :=
  "{" +:+ JS.join ","
            ((λ k, k +:+ ":" +:+ default EmptyString (StringMap.get k m))
               <$> StringMap.keys m)
  +:+ "}".

Definition showProject (p : ProjectJson.t) : string :=
  "index=" +:+ ProjectJson.index p
  +:+ ";files=" +:+ JS.join "," (ProjectFile.name <$> ProjectJson.files p)
  +:+ ";environmentFiles="
  +:+ JS.join "," (ProjectFile.name <$> ProjectJson.environmentFiles p)
  +:+ ";production="
  +:+ showStringMap (ProjectJson.production (ProjectJson.dependencies p))
  +:+ ";development="
  +:+ showStringMap (ProjectJson.development (ProjectJson.dependencies p)).

Definition showPackage (p : PackageJson.t) : string :=
  "name=" +:+ default "undefined" (PackageJson.name p)
  +:+ ";typings=" +:+ default "undefined" (PackageJson.typings p)
  +:+ ";types=" +:+ default "undefined" (PackageJson.types p).

(** The host of the examples: manifests and configurations are parsed by
    table, styles leave the text as it is. *)
Definition host (packages : list (string * PackageJson.t))
    (tsconfigs : list (string * Tsconfig.t)) : Host :=
  {| path_join := join;
     path_normalize := id;
     path_relative := relative;
     path_extname := extname;
     parsePackageJson := parseWith packages;
     parseTsconfig := parseWith tsconfigs;
     parseJson := Returns;
     stringifyPackageJson := showPackage;
     stringifyProject := showProject;
     chalk := λ _ s, s;
     stackTrace := JS.newline +:+ "    at createProject" |}.

Definition root : string := "/var/projects/test-project".

Definition modulePath (mid : string) : string :=
  root +:+ "/node_modules/" +:+ mid.

(** A file of the project under its relative and under its absolute path. *)
Definition bothPaths (files : list (string * string)) : list (string * string) :=
  files ++ ((λ kv, (root +:+ "/" +:+ kv.1, kv.2)) <$> files).

(** The world of the examples: the given files (by their path relative to
    the root) and glob results; a module resolves when its file is there;
    every write succeeds. *)
Definition world (files : list (string * string))
    (globs : list (string * list string)) : World :=
  {| chdir := λ from dir, Returns from;
     access := λ f,
       bool_decide (is_Some ((list_to_map (bothPaths files)
                               : gmap string string) !! f));
     fileData := list_to_map (bothPaths files);
     readError := λ f,
       "Error: ENOENT: no such file or directory, open '" +:+ f +:+ "'";
     glob := λ pattern,
       Returns (default [] (snd <$> (snd <$> list_find (λ kv, kv.1 = pattern) globs)));
     requireResolve := λ mid,
       if bool_decide (is_Some ((list_to_map (bothPaths files)
                                  : gmap string string) !! modulePath mid))
       then Returns (modulePath mid)
       else Throws ("Error: Cannot find module '" +:+ mid +:+ "'");
     writeFile := λ f c, None |}.

Definition state0 : State := mkState false [] root emptyProject [] [].

Definition args0 : ExportArgs.t := ExportArgs.mk None "." None "." false.

(** A manifest with regular and peer dependencies only. *)
Definition manifest (dependencies peerDependencies : option StringMap)
  : PackageJson.t :=
  PackageJson.mk None dependencies peerDependencies None None None.

(** Two packages that declare the same dependency at different versions;
    the dependency itself is not installed. *)
Definition hostAB : Host :=
  host [("manifest of A", manifest (Some [("X", "1.0.0")]) None);
        ("manifest of B", manifest (Some [("X", "1.0.1")]) None)] [].
Definition worldAB : World :=
  world [("node_modules/A/package.json", "manifest of A");
         ("node_modules/B/package.json", "manifest of B")] [].



(** A cycle: A depends on B and B on A. *)
Definition hostCycle : Host :=
  host [("manifest of A", manifest (Some [("B", "1.0.0")]) None);
        ("manifest of B", manifest (Some [("A", "1.0.0")]) None)] [].
Definition worldCycle : World := worldAB.

(** A dependency whose manifest is not valid JSON, and one that is not
    installed. *)
Definition hostBroken : Host :=
  host [("manifest of A", manifest (Some [("broken", "1.0.0"); ("absent", "1.0.0")]) None)] [].
Definition worldBroken : World :=
  world [("node_modules/A/package.json", "manifest of A");
         ("node_modules/broken/package.json", "{ not json")] [].

(** The fixtures of two tests of the repository, "dual dependencies, first
    one wins" and "deep dependencies with duplicates". *)
Definition hostDual : Host :=
  host [("manifest of the project",
         PackageJson.mk (Some "test-package") (Some [("dep1", "1.0.0")])
                        (Some [("dep2", "2.0.0")]) (Some [("dep3", "0.1.0")])
                        None None);
        ("manifest of dep1", manifest (Some [("dep4", "1.0.0")]) None);
        ("manifest of dep2", manifest (Some [("dep4", "1.0.1")]) None);
        ("manifest of dep3", manifest (Some [("dep4", "2.0.0")]) None);
        ("manifest of dep4", manifest (Some []) None)]
       [("tsconfig", Tsconfig.mk (Some (Tsconfig.mkOptions None None)) None)].
Definition hostDeep : Host :=
  host [("manifest of the project",
         PackageJson.mk (Some "test-package") (Some [("dep1", "1.0.0")])
                        None None None None);
        ("manifest of dep1",
         manifest (Some [("dep2", "1.0.0"); ("dep3", "2.0.0"); ("dep4", "1.0.0")])
                  None);
        ("manifest of dep2",
         manifest (Some [("dep3", "1.0.0"); ("dep4", "1.0.0")]) None);
        ("manifest of dep3", manifest (Some [("dep4", "2.0.0")]) None);
        ("manifest of dep4", manifest (Some []) None)]
       [("tsconfig", Tsconfig.mk (Some (Tsconfig.mkOptions None None)) None)].
Definition worldDeps : World :=
  world [("package.json", "manifest of the project");
         ("tsconfig.json", "tsconfig");
         ("node_modules/dep1/package.json", "manifest of dep1");
         ("node_modules/dep2/package.json", "manifest of dep2");
         ("node_modules/dep3/package.json", "manifest of dep3");
         ("node_modules/dep4/package.json", "manifest of dep4")] [].

(** A project: its manifest, three compiler configurations, and the
    manifests of two types packages, [baz] without an entry point and [foo]
    with one. *)
Definition projectManifest : PackageJson.t :=
  PackageJson.mk (Some "test-package") None None None None None.
Definition fooManifest : PackageJson.t :=
  PackageJson.mk None None None None None (Some "foo.d.ts").
Definition hostProject : Host :=
  host [("manifest of the project", projectManifest);
        ("manifest of baz", PackageJson.empty);
        ("manifest of foo", fooManifest)]
       [("include src and typings",
         Tsconfig.mk (Some (Tsconfig.mkOptions None None))
                     (Some ["src/**/*.ts"; "typings/**/*.d.ts"]));
        ("types baz",
         Tsconfig.mk (Some (Tsconfig.mkOptions None (Some ["baz"]))) None);
        ("types foo",
         Tsconfig.mk (Some (Tsconfig.mkOptions None (Some ["foo"]))) None)].

(** The compiler configuration is there, the manifest is not. *)
Definition worldNoManifest : World :=
  world [("tsconfig.json", "include src and typings")] [].

(** Sources without [./src/index.html]; both patterns match
    [src/index.ts]. *)
Definition worldSources : World :=
  world [("package.json", "manifest of the project");
         ("tsconfig.json", "include src and typings");
         ("src/index.ts", "export {}");
         ("src/page.html", "<html>");
         ("typings/a.d.ts", "declare")]
        [("src/**/*.{ts,html,css,json,xml,md}", ["src/index.ts"; "src/page.html"]);
         ("typings/**/*.{ts,html,css,json,xml,md}",
          ["typings/a.d.ts"; "src/index.ts"])].

(** [baz] is requested and has neither an entry point nor an
    [index.d.ts]. *)
Definition worldBaz : World :=
  world [("package.json", "manifest of the project");
         ("tsconfig.json", "types baz");
         ("node_modules/baz/package.json", "manifest of baz")] [].

(** [foo] is requested and declares [foo.d.ts], which is not there. *)
Definition worldFoo : World :=
  world [("package.json", "manifest of the project");
         ("tsconfig.json", "types foo");
         ("node_modules/foo/package.json", "manifest of foo")] [].


(** Three types packages are requested: [foo] declares an entry point,
    [bar] and [baz] declare none; [bar] has an [index.d.ts], [baz] has
    not. *)
Definition hostTypes : Host :=
  host [("manifest of the project", projectManifest);
        ("manifest of foo", fooManifest);
        ("manifest of bar", PackageJson.empty);
        ("manifest of baz", PackageJson.empty)]
       [("types foo, bar and baz",
         Tsconfig.mk (Some (Tsconfig.mkOptions None (Some ["foo"; "bar"; "baz"])))
                     None)].
Definition worldTypes : World :=
  world [("package.json", "manifest of the project");
         ("tsconfig.json", "types foo, bar and baz");
         ("node_modules/foo/package.json", "manifest of foo");
         ("node_modules/foo/foo.d.ts", "declare foo");
         ("node_modules/bar/package.json", "manifest of bar");
         ("node_modules/bar/index.d.ts", "declare bar");
         ("node_modules/baz/package.json", "manifest of baz")] [].

(** A host for more projects: the manifests of an application whose
    dependency [dep2] declares [dep1] at another version than the
    application itself, and compiler configurations that name libraries, a
    types package, or nothing.  [hostStrict] is the same host with a
    [JSON.parse] that accepts the text of an empty object only. *)
Definition hostMore : Host :=
  host [("manifest of the project", projectManifest);
        ("manifest of foo", fooManifest);
        ("manifest of the application",
         PackageJson.mk (Some "application")
                        (Some [("dep1", "1.0.0"); ("dep2", "1.0.0")])
                        None None None None);
        ("manifest of dep1", manifest (Some []) None);
        ("manifest of dep2", manifest (Some [("dep1", "2.0.0")]) None)]
       [("libs es6 and dom",
         Tsconfig.mk (Some (Tsconfig.mkOptions (Some ["es6"; "dom"]) None)) None);
        ("types foo",
         Tsconfig.mk (Some (Tsconfig.mkOptions None (Some ["foo"]))) None);
        ("plain", Tsconfig.mk (Some (Tsconfig.mkOptions None None)) None)].
Definition hostStrict : Host :=
  {| path_join := path_join hostMore;
     path_normalize := path_normalize hostMore;
     path_relative := path_relative hostMore;
     path_extname := path_extname hostMore;
     parsePackageJson := parsePackageJson hostMore;
     parseTsconfig := parseTsconfig hostMore;
     parseJson := parseWith [("{}", "{}")];
     stringifyPackageJson := stringifyPackageJson hostMore;
     stringifyProject := stringifyProject hostMore;
     chalk := chalk hostMore;
     stackTrace := stackTrace hostMore |}.

(** Two libraries, both installed; and the same project with the second
    library missing. *)
Definition worldLibs : World :=
  world [("package.json", "manifest of the project");
         ("tsconfig.json", "libs es6 and dom");
         ("node_modules/typescript/lib/lib.es6.d.ts", "interface Map {}");
         ("node_modules/typescript/lib/lib.dom.d.ts", "interface Node {}")] [].
Definition worldLibMissing : World :=
  world [("package.json", "manifest of the project");
         ("tsconfig.json", "libs es6 and dom");
         ("node_modules/typescript/lib/lib.es6.d.ts", "interface Map {}")] [].

(** Three definition files match the glob; the excluded one cannot be
    read. *)
Definition worldDefinitions : World :=
  world [("package.json", "manifest of the project");
         ("tsconfig.json", "plain");
         ("node_modules/@dojo/loader/dojo-loader.d.ts", "declare loader");
         ("node_modules/@types/chai/index.d.ts", "declare chai")]
        [("node_modules/{@dojo,@types}/**/*.d.ts",
          ["node_modules/@dojo/loader/interfaces.d.ts";
           "node_modules/@dojo/loader/dojo-loader.d.ts";
           "node_modules/@types/chai/index.d.ts"])].

(** A project with a [.dojorc], well-formed and malformed. *)
Definition worldDojorc : World :=
  world [("package.json", "manifest of the project");
         ("tsconfig.json", "plain");
         (".dojorc", "{}")] [].
Definition worldDojorcBroken : World :=
  world [("package.json", "manifest of the project");
         ("tsconfig.json", "plain");
         (".dojorc", "{ not json")] [].

(** [foo] is requested and its entry point is there; [foo] is requested and
    not installed. *)
Definition worldFooTyped : World :=
  world [("package.json", "manifest of the project");
         ("tsconfig.json", "types foo");
         ("node_modules/foo/package.json", "manifest of foo");
         ("node_modules/foo/foo.d.ts", "declare foo")] [].
Definition worldFooMissing : World :=
  world [("package.json", "manifest of the project");
         ("tsconfig.json", "types foo")] [].

(** The application and its two dependencies. *)
Definition worldApplication : World :=
  world [("package.json", "manifest of the application");
         ("tsconfig.json", "plain");
         ("node_modules/dep1/package.json", "manifest of dep1");
         ("node_modules/dep2/package.json", "manifest of dep2")] [].

(** A world in which [chdir] has the given result, and one in which no
    file can be written. *)
Definition worldChdir (base : World) (r : result string) : World :=
  {| chdir := λ _ _, r;
     access := access base;
     fileData := fileData base;
     readError := readError base;
     glob := glob base;
     requireResolve := requireResolve base;
     writeFile := writeFile base |}.
Definition worldReadOnly (base : World) : World :=
  {| chdir := chdir base;
     access := access base;
     fileData := fileData base;
     readError := readError base;
     glob := glob base;
     requireResolve := requireResolve base;
     writeFile := λ f _,
       Some ("Error: EACCES: permission denied, open '" +:+ f +:+ "'") |}.

(** A process started outside the project. *)
Definition stateHome : State :=
  mkState false [] "/home/user" emptyProject [] [].

(** The states of a run from [state0]: when the gathering starts and when
    it is over. *)
Definition entered (h : Host) (w : World) (args : ExportArgs.t) : State :=
  (enter h w args (started h args state0)).2.
Definition gathered (h : Host) (w : World) (args : ExportArgs.t) : State :=
  (gather h w (ExportArgs.content args) (entered h w args)).2.

End Demo.

(** ** Vocabulary of the statements *)

(** Every run of [m] relates the state before to the state after. *)
Definition preserves {A} (R : relation State) (m : M A) : Prop :=
  ∀ st, R st (m st).2.

(** The states agree on an observation. *)
Definition sameOn {B} (f : State → B) : relation State :=
  λ st st', f st' = f st.

(** The outcome of a library call that returns or throws. *)
Definition toOutcome {A} (r : result A) : outcome A :=
  match r with
  | Returns a => Ok a
  | Throws e => Throw e
  end.

(** The state after [verbose] was given a line. *)
Definition verboseState (line : string) (st : State) : State :=
  if verboseFlag st then appendConsole [line] st else st.

(** The string contains a slash or a backslash. *)
Fixpoint hasSeparator (s : string) : bool :=
  match s with
  | EmptyString => false
  | String c s' =>
      Ascii.eqb c "/" || Ascii.eqb c JS.backslash || hasSeparator s'
  end.


(** The lines [getDependencies] gives to [verbose] for a package. *)
Definition resolvingLine (h : Host) (packageName : string) : string :=
  JS.join EmptyString
    [indent 2 EmptyString; chalk h BoldBlue "resolving";
     " dependencies for package " +:+ quoted packageName].
Definition missingLine (h : Host) (packageName : string) : string :=
  JS.join EmptyString
    [indent 2 EmptyString; chalk h BoldYellow "missing";
     " " +:+ quoted (path_join h [packageName; "package.json"])].
Definition skippingLine (h : Host) (packageName : string) : string :=
  JS.join EmptyString
    [indent 2 EmptyString; chalk h BoldBlue "skipping";
     " dependencies for package " +:+ quoted packageName +:+ ", already seen"].
Definition dependsLine (h : Host) (kind : string) (m : option StringMap)
  : string :=
  JS.join EmptyString
    [indent 3 EmptyString; chalk h BoldBlue "depends";
     kind +:+ quoted (JS.join (quoted ", ") (StringMap.keys (default [] m)))].

(** The state after [getDependencies] has merged a manifest it found. *)
Definition dependsState (h : Host) (packageJson : PackageJson.t) (st : State)
  : State :=
  let st :=
    if StringMap.nonEmpty (PackageJson.dependencies packageJson) then
      verboseState (dependsLine h " on packages "
                      (PackageJson.dependencies packageJson)) st
    else st in
  if StringMap.nonEmpty (PackageJson.peerDependencies packageJson) then
    verboseState (dependsLine h " on peer packages "
                    (PackageJson.peerDependencies packageJson)) st
  else st.

(** What a manifest adds to the accumulator of [getDependencies]. *)
Definition merged (dependencies : StringMap) (packageJson : PackageJson.t)
  : StringMap :=
  StringMap.assign
    (StringMap.assign dependencies (PackageJson.peerDependencies packageJson))
    (PackageJson.dependencies packageJson).

(** A set of names that holds what every manifest declares. *)
Definition closedNames (h : Host) (w : World) (U : gset string) : Prop :=
  ∀ name packageJson x,
    manifestOf h w name = Returns packageJson → x ∈ declared packageJson → x ∈ U.

(** The lines of the orchestrator. *)
Definition changingLine (h : Host) (root : string) : string :=
  JS.join EmptyString
    [indent 1 EmptyString; chalk h BoldBlue "changing";
     " working directory to " +:+ quoted root].
Definition indexErrorLine (h : Host) (index : string) : string :=
  JS.join EmptyString
    [indent 1 EmptyString; chalk h BoldRed "error";
     " unable to find index " +:+ quoted index +:+ " in project."].
Definition exportedLine (h : Host) (initialCwd outfile : string) : string :=
  JS.join EmptyString
    [indent 1 EmptyString; chalk h BoldGreen "exported";
     " to " +:+ quoted (path_relative h initialCwd outfile) +:+ JS.newline].

(** The two lines the handler of [exportProject] logs for an error. *)
Definition erroredLines (h : Host) (e : JsError) : list string :=
  [JS.join EmptyString
     [indent 1 EmptyString; chalk h BoldRed "errored"; " "; (JS.splitLines e).1];
   JS.join EmptyString [JS.join JS.newline (JS.splitLines e).2; JS.newline]].

(** The state with another working directory, and with one more file
    written. *)
Definition setCwd (dir : string) (st : State) : State :=
  mkState (verboseFlag st) (console st) dir (project st) (written st)
          (lookups st).
Definition addWritten (filename contents : string) (st : State) : State :=
  mkState (verboseFlag st) (console st) (cwd st) (project st)
          (written st ++ [(filename, contents)]) (lookups st).

(** The path of the bundle file. *)
Definition outfileOf (h : Host) (initialCwd dir out : string)
    (package : PackageJson.t) : string :=
  path_relative h dir
    (path_normalize h (path_join h [initialCwd; out; outFilename package])).

(** Whenever [m] returns, its result satisfies [P]. *)
Definition ensures {A} (P : A → Prop) (m : M A) : Prop :=
  ∀ st, match (m st).1 with Ok a => P a | _ => True end.

Definition pushedEnvironmentFile (file : ProjectFile.t) (st : State) : State :=
  setProject (ProjectJson.pushEnvironmentFile file (project st)) st.

Definition typesResolvingLine (h : Host) (packageName : string) : string :=
  JS.join EmptyString
    [indent 1 EmptyString; chalk h BoldBlue "resolving";
     " types for package " +:+ quoted packageName].
Definition typesWarnLine (h : Host) (packageJsonFilename : string) : string :=
  JS.join EmptyString
    [indent 1 EmptyString; chalk h BoldYellow "warn";
     " " +:+ quoted packageJsonFilename
     +:+ " does not contain type information"].
Definition typeFileLine (h : Host) (filename : string) : string :=
  JS.join EmptyString
    [indent 1 EmptyString; chalk h BoldBlue "adding";
     " type file " +:+ quoted filename].

(** The manifest of a types package as [addTypesFiles] loads it from the
    working directory [dir]: the path it is added under and its contents. *)
Definition typesManifest (h : Host) (w : World) (dir packageName : string)
  : option (string * PackageJson.t) :=
  match requireResolve w (path_join h [packageName; "package.json"]) with
  | Returns resolved =>
      let packageJsonFilename := path_relative h dir resolved in
      match fileData w !! packageJsonFilename with
      | Some text =>
          match parsePackageJson h text with
          | Returns packageJson => Some (packageJsonFilename, packageJson)
          | Throws _ => None
          end
      | None => None
      end
  | Throws _ => None
  end.

(** The definition file at a path below a types package, when the path
    resolves and the file can be read. *)
Definition typesDefinition (h : Host) (w : World)
    (dir packageName path : string) : option ProjectFile.t :=
  match requireResolve w (path_normalize h (path_join h [packageName; path])) with
  | Returns resolved =>
      let filename := path_relative h dir resolved in
      (λ text, createProjectFile filename text ProjectFileType.Definition_)
        <$> fileData w !! filename
  | Throws _ => None
  end.

(** The entry point a manifest declares: [typings || types], when that is
    truthy. *)
Definition entryPoint (packageJson : PackageJson.t) : option string :=
  JS.truthy_value (JS.or_else (PackageJson.typings packageJson)
                              (PackageJson.types packageJson)).

(** The environment files of a requested types package: its manifest, then
    the file of its entry point or, without one, its [index.d.ts] if there
    is one.  And its warning: one line if it declares no entry point. *)
Definition typesEntries (h : Host) (w : World) (dir packageName : string)
  : list ProjectFile.t :=
  match typesManifest h w dir packageName with
  | Some (packageJsonFilename, packageJson) =>
      createProjectFile packageJsonFilename (stringifyPackageJson h packageJson)
                        ProjectFileType.JSON
      :: option_list
           (typesDefinition h w dir packageName
              (default "index.d.ts" (entryPoint packageJson)))
  | None => []
  end.
Definition typesWarnings (h : Host) (w : World) (dir packageName : string)
  : list string :=
  match typesManifest h w dir packageName with
  | Some (packageJsonFilename, packageJson) =>
      match entryPoint packageJson with
      | Some _ => []
      | None => [typesWarnLine h packageJsonFilename]
      end
  | None => []
  end.

(** [m] never runs out of fuel. *)
Definition total {A} (m : M A) : Prop :=
  ∀ st, (m st).1 ≠ OutOfFuel.

(** An update of the bundle that leaves the index, the manifest and the
    compiler configuration as they are. *)
Definition additive (f : ProjectJson.t → ProjectJson.t) : Prop :=
  ∀ p, ProjectJson.index (f p) = ProjectJson.index p
       ∧ ProjectJson.package (f p) = ProjectJson.package p
       ∧ ProjectJson.tsconfig (f p) = ProjectJson.tsconfig p.

(** ** Vocabulary of the further properties *)

(** The string contains a line feed. *)
Fixpoint hasNewline (s : string) : bool :=
  match s with
  | EmptyString => false
  | String c s' => Ascii.eqb c (ascii_of_nat 10) || hasNewline s'
  end.

(** The lines of [createProject], [addLibFiles] and [addDefinitionFiles]. *)
Definition readingLine (h : Host) (name : string) : string :=
  JS.join EmptyString
    [indent 1 EmptyString; chalk h BoldBlue "reading"; " " +:+ quoted name].
Definition libLine (h : Host) (lib : string) : string :=
  JS.join EmptyString
    [indent 1 EmptyString; chalk h BoldBlue "adding"; " lib " +:+ quoted lib].
Definition definitionLine (h : Host) (filename : string) : string :=
  JS.join EmptyString
    [indent 1 EmptyString; chalk h BoldBlue "adding";
     " definition file " +:+ quoted filename].

(** The name under which [addLibFiles] adds a library, and the path it
    reads. *)
Definition libName (lib : string) : string := "lib." +:+ lib +:+ ".d.ts".
Definition libPath (h : Host) (lib : string) : string :=
  path_join h ["node_modules"; "typescript"; "lib"; libName lib].

(** The bundle with more environment files. *)
Definition addEnvironmentFiles (files : list ProjectFile.t) (p : ProjectJson.t)
  : ProjectJson.t :=
  ProjectJson.mk (ProjectJson.dependencies p)
                 (ProjectJson.environmentFiles p ++ files)
                 (ProjectJson.files p) (ProjectJson.index p)
                 (ProjectJson.package p) (ProjectJson.tsconfig p)
                 (ProjectJson.dojorc p).

(** The console after a run holds the lines it held before. *)
Definition consoleGrows : relation State :=
  λ st st', ∃ lines, console st' = console st ++ lines.

(** With the verbose flag off, the console stays as it is; the flag stays
    as it is in any case. *)
Definition quiet : relation State :=
  λ st st', verboseFlag st' = verboseFlag st
            ∧ (verboseFlag st = false → console st' = console st).

(** The names a resolution that starts from the frontier [packages] with
    the visited set [parsedPackages] comes to: the frontier, and what the
    manifests of the names it comes to declare, as long as they were not
    visited before.  A declared [__proto__] is not stored in the accumulator
    and so never becomes part of a frontier. *)
Inductive reaches (h : Host) (w : World) (parsedPackages : gset string)
    (packages : StringMap) : string → Prop :=
| reaches_frontier x :
    x ∈ StringMap.keys packages → reaches h w parsedPackages packages x
| reaches_declared name packageJson x :
    reaches h w parsedPackages packages name →
    name ∉ parsedPackages →
    manifestOf h w name = Returns packageJson →
    x ∈ declared packageJson →
    x ≠ StringMap.proto →
    reaches h w parsedPackages packages x.

(** A manifest declares a name at a version, as a peer or as a regular
    dependency. *)
Definition declares (packageJson : PackageJson.t) (x v : string) : Prop :=
  (x, v) ∈ default [] (PackageJson.peerDependencies packageJson)
  ∨ (x, v) ∈ default [] (PackageJson.dependencies packageJson).

(** The kinds of the entries of a bundle: a project file has the kind its
    name gives it, an environment file is a library, a manifest or a
    definition. *)
Definition kindsOk (h : Host) (p : ProjectJson.t) : Prop :=
  Forall (λ f, ProjectFile.type f = getProjectFileType h (ProjectFile.name f))
         (ProjectJson.files p)
  ∧ Forall (λ f, ProjectFile.type f = ProjectFileType.Lib
                 ∨ ProjectFile.type f = ProjectFileType.JSON
                 ∨ ProjectFile.type f = ProjectFileType.Definition_)
           (ProjectJson.environmentFiles p).

(** The first line [exportProject] prints. *)
Definition banner (h : Host) : string :=
  chalk h Underline (JS.newline +:+ "Export project bundle").

(** The lines that do not go through [verbose]: the banner, the warning of
    [addTypesFiles], the error of [setProjectIndex], the last line of a run
    and the two lines of the handler. *)
Definition alwaysVisible (h : Host) (line : string) : Prop :=
  line = banner h
  ∨ (∃ packageJsonFilename, line = typesWarnLine h packageJsonFilename)
  ∨ (∃ index, line = indexErrorLine h index)
  ∨ (∃ initialCwd outfile, line = exportedLine h initialCwd outfile)
  ∨ (∃ e, line ∈ erroredLines h e).

(** With the verbose flag off, the console gets warnings of [addTypesFiles]
    only; the flag stays as it is in any case. *)
Definition warnsOnly (h : Host) : relation State :=
  λ st st', verboseFlag st' = verboseFlag st
            ∧ (verboseFlag st = false →
               ∃ lines, console st' = console st ++ lines
                        ∧ Forall (λ line, ∃ packageJsonFilename,
                                    line = typesWarnLine h packageJsonFilename)
                                 lines).

(** The task of [addLibFiles] for one library and the task of
    [addDefinitionFiles] for one file, as these functions map them over
    their lists. *)
Definition addLibFile (h : Host) (w : World) (lib : string) : M unit :=
  let filename := "lib." +:+ lib +:+ ".d.ts" in
  text ← getFile w (path_join h ["node_modules"; "typescript"; "lib";
                                 filename]);
  updateProject (ProjectJson.pushEnvironmentFile
    (createProjectFile filename text ProjectFileType.Lib));;
  verbose [indent 1 EmptyString; chalk h BoldBlue "adding";
           " lib " +:+ quoted lib].
Definition addDefinitionFile (h : Host) (w : World) (filename : string)
  : M unit :=
  if DOJO_EXCLUDE filename then mret tt
  else
    text ← getFile w filename;
    updateProject (ProjectJson.pushEnvironmentFile
      (createProjectFile filename text ProjectFileType.Definition_));;
    verbose [indent 1 EmptyString; chalk h BoldBlue "adding";
             " definition file " +:+ quoted filename].

(** The pattern [addDefinitionFiles] gives to [glob]. *)
Definition definitionsGlob : string := "node_modules/{@dojo,@types}/**/*.d.ts".

(** Reading and parsing a file gives a value, or fails with an error: the
    file cannot be read, or its text cannot be parsed. *)
Definition readGives {A} (w : World) (parse : string → result A)
    (filename : string) (a : A) : Prop :=
  ∃ text, fileData w !! filename = Some text ∧ parse text = Returns a.
Definition readFails {A} (w : World) (parse : string → result A)
    (filename : string) (e : JsError) : Prop :=
  (fileData w !! filename = None ∧ e = readError w filename)
  ∨ ∃ text, fileData w !! filename = Some text ∧ parse text = Throws e.

(** The bundle [createProject] returns. *)
Definition createdProject (package : PackageJson.t) (tsconfig : Tsconfig.t)
    (dojorc : option JsonValue) : ProjectJson.t :=
  ProjectJson.mk (ProjectJson.mkDependencies [] []) [] [] EmptyString
                 package tsconfig dojorc.

(** A file that a collector phase reads cannot be read, or one of its globs
    fails: a library of [compilerOptions.lib], the glob of the definitions or
    one of its matches that is not excluded, the glob of an include pattern
    or one of the matches of the include patterns. *)
Definition collectorFails (h : Host) (w : World) (content : option string)
    (p : ProjectJson.t) : Prop :=
  (∃ libs lib,
     Tsconfig.compilerOptions (ProjectJson.tsconfig p) ≫= Tsconfig.lib
       = Some libs
     ∧ lib ∈ libs ∧ fileData w !! libPath h lib = None)
  ∨ (∃ e, glob w definitionsGlob = Throws e)
  ∨ (∃ found filename,
       glob w definitionsGlob = Returns found
       ∧ filename ∈ found ∧ DOJO_EXCLUDE filename = false
       ∧ fileData w !! filename = None)
  ∨ (∃ include pattern e,
       Tsconfig.include (ProjectJson.tsconfig p) = Some include
       ∧ pattern ∈ include
       ∧ glob w (includeGlob (default "ts,html,css,json,xml,md" content) pattern)
         = Throws e)
  ∨ (∃ include matches name,
       Tsconfig.include (ProjectJson.tsconfig p) = Some include
       ∧ Forall2 (λ pattern found,
                    glob w (includeGlob
                              (default "ts,html,css,json,xml,md" content) pattern)
                    = Returns found) include matches
       ∧ name ∈ concat matches ∧ fileData w !! name = None).

(** Two states that differ at most in the verbose flag and in the
    console. *)
Definition sameButConsole : relation State :=
  λ st1 st2, cwd st1 = cwd st2 ∧ project st1 = project st2
             ∧ written st1 = written st2 ∧ lookups st1 = lookups st2.

(** A computation that the verbose flag and the console do not influence:
    from two such states it has the same outcome and ends in two such
    states. *)
Definition respects {A} (m : M A) : Prop :=
  ∀ st1 st2, sameButConsole st1 st2 →
             (m st1).1 = (m st2).1 ∧ sameButConsole (m st1).2 (m st2).2.

(** * Properties *)

(** ** String maps *)

Section StringMapFacts.

Implicit Types (m target : StringMap) (k v : string).

Lemma insertKey_Permutation k (l : list string) : JS.insertKey k l ≡ₚ k :: l.
Proof.
  induction l as [|k' l IH]; cbn [JS.insertKey]; [done |].
  destruct (JS.indexBelow k k'); [done |]. rewrite IH. apply Permutation_swap.
Qed.

Lemma ascending_Permutation (l : list string) : JS.ascending l ≡ₚ l.
Proof.
  induction l as [|k l IH]; [done |]. cbn [JS.ascending foldr].
  rewrite insertKey_Permutation. by apply Permutation_skip.
Qed.

(** The keys are the first components, in the order of enumeration. *)
Lemma keys_Permutation m : StringMap.keys m ≡ₚ m.*1.
Proof.
  unfold StringMap.keys. rewrite ascending_Permutation.
  apply filter_app_complement.
Qed.

Lemma elem_of_keys x m : x ∈ StringMap.keys m ↔ x ∈ m.*1.
Proof. by rewrite keys_Permutation. Qed.

Lemma NoDup_keys m : NoDup (StringMap.keys m) ↔ NoDup m.*1.
Proof. by rewrite keys_Permutation. Qed.

Lemma elem_of_keys_cons x k v m :
  x ∈ StringMap.keys ((k, v) :: m) ↔ x = k ∨ x ∈ StringMap.keys m.
Proof. rewrite !elem_of_keys, fmap_cons. apply elem_of_cons. Qed.

Lemma get_define_eq k v m : StringMap.get k (StringMap.define k v m) = Some v.
Proof.
  induction m as [|[k' v'] m IH]; simpl.
  - by rewrite decide_True.
  - destruct (decide (k' = k)) as [->|Hne]; simpl.
    + by rewrite decide_True.
    + by rewrite decide_False.
Qed.

Lemma get_define_ne k k' v m :
  k ≠ k' → StringMap.get k' (StringMap.define k v m) = StringMap.get k' m.
Proof.
  intros Hne. induction m as [|[k0 v0] m IH]; simpl.
  - by rewrite decide_False.
  - destruct (decide (k0 = k)) as [->|Hk]; simpl.
    + by rewrite !decide_False.
    + destruct (decide (k0 = k')); [done | apply IH].
Qed.

Lemma get_set_eq k v m :
  k ≠ StringMap.proto → StringMap.get k (StringMap.set k v m) = Some v.
Proof.
  intros Hk. unfold StringMap.set. rewrite decide_False by naive_solver.
  apply get_define_eq.
Qed.

Lemma get_set_ne k k' v m :
  k ≠ k' → StringMap.get k' (StringMap.set k v m) = StringMap.get k' m.
Proof.
  intros Hne. unfold StringMap.set. case_decide; [done |].
  by apply get_define_ne.
Qed.

Lemma get_None_keys k m : StringMap.get k m = None ↔ k ∉ StringMap.keys m.
Proof.
  rewrite elem_of_keys. induction m as [|[k0 v0] m IH]; simpl.
  - split; [intros _; apply not_elem_of_nil | done].
  - rewrite not_elem_of_cons. destruct (decide (k0 = k)) as [->|Hk].
    + split; [done | intros [? _]; done].
    + rewrite IH. naive_solver.
Qed.

Lemma fst_define k v m :
  (StringMap.define k v m).*1 ≡ₚ
  if decide (k ∈ m.*1) then m.*1 else m.*1 ++ [k].
Proof.
  induction m as [|[k0 v0] m IH]; [done |].
  cbn [StringMap.define]. destruct (decide (k0 = k)) as [->|Hk].
  - rewrite decide_True; [done | apply list_elem_of_here].
  - rewrite !fmap_cons, IH. cbn [fst].
    destruct (decide (k ∈ m.*1)) as [Hin|Hin].
    + rewrite decide_True; [done | by apply list_elem_of_further].
    + rewrite decide_False; [done |].
      rewrite elem_of_cons. naive_solver.
Qed.

Lemma elem_of_keys_define x k v m :
  x ∈ StringMap.keys (StringMap.define k v m) ↔ x = k ∨ x ∈ StringMap.keys m.
Proof.
  rewrite !elem_of_keys, fst_define.
  case_decide; [|rewrite elem_of_app, list_elem_of_singleton]; naive_solver.
Qed.

(** A name is stored unless it is [__proto__]. *)
Lemma elem_of_keys_set x k v m :
  x ∈ StringMap.keys (StringMap.set k v m)
  ↔ (x = k ∧ k ≠ StringMap.proto) ∨ x ∈ StringMap.keys m.
Proof.
  unfold StringMap.set. case_decide as Hproto.
  - naive_solver.
  - rewrite elem_of_keys_define. split; [|naive_solver].
    intros [->|?]; [|by right].
    destruct (decide (k = StringMap.proto)) as [Hk|Hk]; [right | by left].
    destruct (decide (k ∈ StringMap.keys m)) as [|Hout]; [done |].
    apply get_None_keys in Hout. naive_solver.
Qed.

Lemma NoDup_keys_define k v m :
  NoDup (StringMap.keys m) → NoDup (StringMap.keys (StringMap.define k v m)).
Proof.
  rewrite !NoDup_keys, fst_define. intros Hnd. case_decide; [done |].
  apply NoDup_app. split_and!; [done | | apply NoDup_singleton].
  intros x Hx ->%list_elem_of_singleton. done.
Qed.

Lemma NoDup_keys_set k v m :
  NoDup (StringMap.keys m) → NoDup (StringMap.keys (StringMap.set k v m)).
Proof.
  intros Hnd. unfold StringMap.set. case_decide; [done |].
  by apply NoDup_keys_define.
Qed.

(** The loop of [Object.assign] over some of the keys of the source. *)
Lemma elem_of_keys_assigned x (s : StringMap) (l : list string) : ∀ target,
  (∀ k, k ∈ l → k ∈ StringMap.keys s) →
  x ∈ StringMap.keys
        (foldl (λ t k, match StringMap.get k s with
                       | Some v => StringMap.set k v t
                       | None => t
                       end) target l)
  ↔ x ∈ StringMap.keys target ∨ (x ∈ l ∧ x ≠ StringMap.proto).
Proof.
  induction l as [|k l IH]; intros target Hl; cbn [foldl].
  - rewrite elem_of_nil. naive_solver.
  - rewrite IH by (intros k' Hk'; by apply Hl, list_elem_of_further).
    destruct (StringMap.get k s) as [v|] eqn:Hget.
    + rewrite elem_of_keys_set, elem_of_cons. naive_solver.
    + apply get_None_keys in Hget. destruct Hget. apply Hl, list_elem_of_here.
Qed.

Lemma elem_of_keys_assign x target source :
  x ∈ StringMap.keys (StringMap.assign target (Some source))
  ↔ x ∈ StringMap.keys target
    ∨ (x ∈ StringMap.keys source ∧ x ≠ StringMap.proto).
Proof. unfold StringMap.assign. by apply elem_of_keys_assigned. Qed.

Lemma NoDup_keys_assign target source :
  NoDup (StringMap.keys target) →
  NoDup (StringMap.keys (StringMap.assign target source)).
Proof.
  destruct source as [s|]; [|done]. unfold StringMap.assign.
  generalize (StringMap.keys s). intros l. revert target.
  induction l as [|k l IH]; intros target Hnd; cbn [foldl]; [done |].
  apply IH. destruct (StringMap.get k s); [by apply NoDup_keys_set | done].
Qed.

Lemma assign_None target : StringMap.assign target None = target.
Proof. reflexivity. Qed.

Lemma get_assigned_absent k (s : StringMap) (l : list string) : ∀ target,
  k ∉ l →
  StringMap.get k
    (foldl (λ t k, match StringMap.get k s with
                   | Some v => StringMap.set k v t
                   | None => t
                   end) target l)
  = StringMap.get k target.
Proof.
  induction l as [|k0 l IH]; intros target Hk; cbn [foldl]; [done |].
  apply not_elem_of_cons in Hk as [Hne Hk]. rewrite IH by done.
  destruct (StringMap.get k0 s); [by apply get_set_ne | done].
Qed.

Lemma get_assign_absent k target source :
  k ∉ StringMap.keys source →
  StringMap.get k (StringMap.assign target (Some source)) = StringMap.get k target.
Proof. intros Hk. unfold StringMap.assign. by apply get_assigned_absent. Qed.

(** [Object.assign] overwrites: a key of the source other than [__proto__]
    has the source's value afterwards, whatever the target held. *)
Lemma get_assign_present k v target source :
  k ≠ StringMap.proto →
  StringMap.get k source = Some v →
  StringMap.get k (StringMap.assign target (Some source)) = Some v.
Proof.
  intros Hk Hget. unfold StringMap.assign.
  assert (k ∈ StringMap.keys source) as Hin.
  { destruct (decide (k ∈ StringMap.keys source)) as [|Hout]; [done |].
    apply get_None_keys in Hout. congruence. }
  revert Hin. generalize (StringMap.keys source). intros l. revert target.
  induction l as [|k0 l IH]; intros target Hin; [by apply elem_of_nil in Hin |].
  cbn [foldl]. destruct (decide (k0 = k)) as [->|Hne].
  - rewrite Hget. destruct (decide (k ∈ l)) as [Hl|Hl]; [by apply IH |].
    rewrite get_assigned_absent by done. by apply get_set_eq.
  - apply IH. apply elem_of_cons in Hin as [?|?]; [congruence | done].
Qed.

Lemma get_assign_None k target source :
  StringMap.get k target = None →
  (∀ s, source = Some s → StringMap.get k s = None) →
  StringMap.get k (StringMap.assign target source) = None.
Proof.
  intros Ht Hs. destruct source as [s|]; [|done].
  rewrite get_assign_absent; [done |]. by apply get_None_keys, Hs.
Qed.

(** [Object.assign] stores no [__proto__] in a plain object. *)
Lemma get_assign_proto target source :
  StringMap.get StringMap.proto target = None →
  StringMap.get StringMap.proto (StringMap.assign target source) = None.
Proof.
  intros Ht. destruct source as [s|]; [|done].
  apply get_None_keys. rewrite elem_of_keys_assign.
  apply get_None_keys in Ht. naive_solver.
Qed.

End StringMapFacts.

(** ** Running the monad *)

Section MonadFacts.

Context {A B : Type}.

Lemma run_bind (m : M A) (f : A → M B) st :
  (m ≫= f) st =
  match m st with
  | (Ok a, st') => f a st'
  | (Throw e, st') => (Throw e, st')
  | (OutOfFuel, st') => (OutOfFuel, st')
  end.
Proof. reflexivity. Qed.

Lemma run_bind_ok (m : M A) (f : A → M B) st a st' :
  m st = (Ok a, st') → (m ≫= f) st = f a st'.
Proof. intros H. by rewrite run_bind, H. Qed.

Lemma run_bind_throw (m : M A) (f : A → M B) st e st' :
  m st = (Throw e, st') → (m ≫= f) st = (Throw e, st').
Proof. intros H. by rewrite run_bind, H. Qed.

Lemma run_tryCatch_ok (m : M A) handler st a st' :
  m st = (Ok a, st') → tryCatch m handler st = (Ok a, st').
Proof. intros H. unfold tryCatch. by rewrite H. Qed.

Lemma run_tryCatch_throw (m : M A) handler st e st' :
  m st = (Throw e, st') → tryCatch m handler st = handler e st'.
Proof. intros H. unfold tryCatch. by rewrite H. Qed.

End MonadFacts.

(** ** Frames: what a computation leaves as it is *)

#[global] Instance sameOn_preorder {B} (f : State → B) : PreOrder (sameOn f).
Proof.
  split; [by intros st | intros s1 s2 s3 H1 H2; unfold sameOn in *; congruence].
Qed.

Section Frames.

Context (R : relation State) `{!PreOrder R}.

Lemma preserves_mret {A} (a : A) : preserves R (mret a).
Proof. intros st. reflexivity. Qed.

Lemma preserves_throw {A} e : preserves R (@throw A e).
Proof. intros st. reflexivity. Qed.

Lemma preserves_outOfFuel {A} : preserves R (@outOfFuel A).
Proof. intros st. reflexivity. Qed.

Lemma preserves_gets {A} (f : State → A) : preserves R (gets f).
Proof. intros st. reflexivity. Qed.

Lemma preserves_lift {A} (r : result A) : preserves R (lift r).
Proof. destruct r; [apply preserves_mret | apply preserves_throw]. Qed.

Lemma preserves_modify f : (∀ st, R st (f st)) → preserves R (modify f).
Proof. intros H st. apply H. Qed.

Lemma preserves_bind {A B} (m : M A) (f : A → M B) :
  preserves R m → (∀ a, preserves R (f a)) → preserves R (m ≫= f).
Proof.
  intros Hm Hf st. rewrite run_bind. specialize (Hm st).
  destruct (m st) as [[a|e|] st']; simpl in *; [|done..].
  etrans; [exact Hm | apply Hf].
Qed.

Lemma preserves_tryCatch {A} (m : M A) handler :
  preserves R m → (∀ e, preserves R (handler e)) →
  preserves R (tryCatch m handler).
Proof.
  intros Hm Hh st. unfold tryCatch. specialize (Hm st).
  destruct (m st) as [[a|e|] st']; simpl in *; [done | | done].
  etrans; [exact Hm | apply Hh].
Qed.

Lemma preserves_promiseAll {A} (tasks : list (M A)) :
  Forall (preserves R) tasks → preserves R (promiseAll tasks).
Proof.
  induction 1 as [|task tasks Htask _ IH]; [apply preserves_mret |].
  intros st. simpl. specialize (Htask st).
  destruct (task st) as [r st1]. specialize (IH st1).
  destruct (promiseAll tasks st1) as [rs st2]. simpl in *.
  by etrans.
Qed.

Lemma preserves_promiseAll_fmap {A C} (f : C → M A) (xs : list C) :
  (∀ x, preserves R (f x)) → preserves R (promiseAll (f <$> xs)).
Proof.
  intros H. apply preserves_promiseAll, Forall_fmap, Forall_forall.
  intros x _. apply H.
Qed.

End Frames.

(** ** Strings *)

Section StringFacts.

Implicit Types (s p a b : string) (c : ascii).

Lemma append_cons c s1 s2 : String c s1 +:+ s2 = String c (s1 +:+ s2).
Proof. reflexivity. Qed.

Lemma append_nil_l s : EmptyString +:+ s = s.
Proof. reflexivity. Qed.

Lemma append_nil_r s : s +:+ EmptyString = s.
Proof. induction s as [|c s IH]; [done |]. by rewrite append_cons, IH. Qed.

Lemma append_assoc s1 s2 s3 : (s1 +:+ s2) +:+ s3 = s1 +:+ s2 +:+ s3.
Proof.
  induction s1 as [|c s1 IH]; [done |]. by rewrite !append_cons, IH.
Qed.

Lemma length_append s1 s2 :
  String.length (s1 +:+ s2) = String.length s1 + String.length s2.
Proof.
  induction s1 as [|c s1 IH]; [done |]. rewrite append_cons. simpl.
  by rewrite IH.
Qed.


Lemma replaceFirstSeparator_none s :
  hasSeparator s = false → JS.replaceFirstSeparator s = s.
Proof.
  induction s as [|c s IH]; simpl; [done |].
  intros [Hc Hs]%orb_false_iff. rewrite Hc. f_equal. by apply IH.
Qed.

Lemma replaceFirstSeparator_first a c b :
  hasSeparator a = false → c = "/"%char ∨ c = JS.backslash →
  JS.replaceFirstSeparator (a +:+ String c b) = a +:+ String "-" b.
Proof.
  intros Ha Hc. induction a as [|x a IH].
  - rewrite !append_nil_l. simpl. by destruct Hc as [-> | ->].
  - rewrite !append_cons. simpl in *.
    apply orb_false_iff in Ha as [Hx Ha]. rewrite Hx. f_equal. by apply IH.
Qed.







End StringFacts.

(** ** The primitives *)

Section Primitives.

Context (h : Host) (w : World).

Lemma run_lift {A} (r : result A) st : lift r st = (toOutcome r, st).
Proof. by destruct r. Qed.

Lemma run_log text st :
  log text st = (Ok tt, appendConsole [JS.join EmptyString text] st).
Proof. reflexivity. Qed.

Lemma run_verbose text st :
  verbose text st = (Ok tt, verboseState (JS.join EmptyString text) st).
Proof.
  unfold verbose, verboseState. rewrite run_bind. simpl.
  by destruct (verboseFlag st).
Qed.

Lemma verboseFlag_verboseState line st :
  verboseFlag (verboseState line st) = verboseFlag st.
Proof. unfold verboseState. by destruct (verboseFlag st) eqn:E. Qed.

Lemma console_verboseState line st :
  console (verboseState line st)
  = console st ++ (if verboseFlag st then [line] else []).
Proof.
  unfold verboseState. destruct (verboseFlag st); [done |].
  by rewrite app_nil_r.
Qed.

Lemma cwd_verboseState line st : cwd (verboseState line st) = cwd st.
Proof. unfold verboseState. by destruct (verboseFlag st) eqn:E. Qed.

Lemma project_verboseState line st :
  project (verboseState line st) = project st.
Proof. unfold verboseState. by destruct (verboseFlag st) eqn:E. Qed.

Lemma written_verboseState line st :
  written (verboseState line st) = written st.
Proof. unfold verboseState. by destruct (verboseFlag st) eqn:E. Qed.

Lemma lookups_verboseState line st :
  lookups (verboseState line st) = lookups st.
Proof. unfold verboseState. by destruct (verboseFlag st) eqn:E. Qed.

Lemma run_getFile_Some filename data st :
  fileData w !! filename = Some data → getFile w filename st = (Ok data, st).
Proof. intros H. unfold getFile. by rewrite H. Qed.

Lemma run_getFile_None filename st :
  fileData w !! filename = None →
  getFile w filename st = (Throw (readError w filename), st).
Proof. intros H. unfold getFile. by rewrite H. Qed.

Lemma readManifest_manifestOf packageName st :
  readManifest h w packageName st = (toOutcome (manifestOf h w packageName), st).
Proof.
  unfold readManifest, manifestOf. rewrite run_bind, run_lift.
  destruct (requireResolve w _) as [f|e]; simpl; [|done].
  rewrite run_bind. unfold getFile.
  destruct (fileData w !! f) as [text|]; simpl; [|done].
  apply run_lift.
Qed.

Lemma exportProject_started args st :
  exportProject h w args st =
  tryCatch (pipeline h w args) (reportError h) (started h args st).
Proof. reflexivity. Qed.

End Primitives.

(** Symbolic execution of a computation on a state. *)
Ltac run :=
  repeat (progress
    (unfold mbind, M_bind;
     cbn [mret M_ret gets modify throw outOfFuel toOutcome fst snd];
     rewrite ?run_verbose, ?run_log, ?run_lift)).

(** ** Frames of the gathering phases *)

Create HintDb frames.

Ltac frame_step :=
  lazymatch goal with
  | |- PreOrder _ => exact _
  | |- preserves _ (mret _) => apply preserves_mret
  | |- preserves _ (throw _) => apply preserves_throw
  | |- preserves _ outOfFuel => apply preserves_outOfFuel
  | |- preserves _ (gets _) => apply preserves_gets
  | |- preserves _ (lift _) => apply preserves_lift
  | |- preserves _ (mbind _ _) => apply preserves_bind; [| | intros ?]
  | |- preserves _ (tryCatch _ _) => apply preserves_tryCatch; [| | intros ?]
  | |- preserves _ (promiseAll (_ <$> _)) =>
      apply preserves_promiseAll_fmap; [| intros ?]
  | |- preserves _ (promiseAll []) => apply preserves_mret
  | |- preserves _ (promiseAll _) =>
      apply preserves_promiseAll; [| repeat constructor]
  | |- preserves _ (match ?x with _ => _ end) => destruct x
  | |- preserves _ (let _ := _ in _) => cbv zeta
  | |- preserves _ ((λ _, _) _) => cbv beta
  end.

Section ProgramFrames.

Context (h : Host) (w : World).

(** A relation that the console, the instrumentation and the additive
    updates of the bundle respect. *)
Context (R : relation State) `{!PreOrder R}.
Context (R_console : ∀ lines st, R st (appendConsole lines st)).
Context (R_lookup : ∀ name st, R st (notedLookup name st)).
Context (R_project : ∀ f st,
  additive f → R st (setProject (f (project st)) st)).

Lemma preserves_log text : preserves R (log text).
Proof. intros st. apply R_console. Qed.

Lemma preserves_verbose text : preserves R (verbose text).
Proof.
  intros st. rewrite run_verbose. unfold verboseState. simpl.
  destruct (verboseFlag st); [apply R_console | reflexivity].
Qed.

Lemma preserves_getFile filename : preserves R (getFile w filename).
Proof. unfold getFile. repeat frame_step. Qed.

Lemma preserves_getGlob pattern : preserves R (getGlob w pattern).
Proof. unfold getGlob. repeat frame_step. Qed.

Lemma preserves_updateProject f :
  additive f → preserves R (updateProject f).
Proof. intros Hf st. by apply R_project. Qed.

#[local] Hint Resolve preserves_log preserves_verbose preserves_getFile
  preserves_getGlob : frames.

Ltac frames :=
  repeat first
    [ frame_step
    | solve [eauto with frames]
    | apply preserves_updateProject; intros ?; by split_and! ].

Lemma preserves_createProject : preserves R (createProject h w).
Proof. unfold createProject, exists_. frames. Qed.

Lemma preserves_addLibFiles : preserves R (addLibFiles h w).
Proof. unfold addLibFiles. frames. Qed.

Lemma preserves_addTypesFile packageName :
  preserves R (addTypesFile h w packageName).
Proof. unfold addTypesFile. frames. Qed.

Lemma preserves_addTypesFiles : preserves R (addTypesFiles h w).
Proof. unfold addTypesFiles. frames. apply preserves_addTypesFile. Qed.

Lemma preserves_addDefinitionFiles : preserves R (addDefinitionFiles h w).
Proof. unfold addDefinitionFiles. frames. Qed.

Lemma preserves_addProjectFile name : preserves R (addProjectFile h w name).
Proof. unfold addProjectFile. frames. Qed.

Lemma preserves_addProjectFiles content :
  preserves R (addProjectFiles h w content).
Proof. unfold addProjectFiles. frames. apply preserves_addProjectFile. Qed.

Lemma preserves_readManifest packageName :
  preserves R (readManifest h w packageName).
Proof. unfold readManifest. frames. Qed.

Lemma preserves_forIn names dependencies parsedPackages :
  preserves R (forIn h w names dependencies parsedPackages).
Proof.
  revert dependencies parsedPackages.
  induction names as [|name names IH]; intros dependencies parsedPackages;
    cbn [forIn]; [frames |].
  case_decide; frames; try apply IH; try apply preserves_readManifest.
  intros st. apply R_lookup.
Qed.

Lemma preserves_getDependenciesFuel fuel packages parsedPackages :
  preserves R (getDependenciesFuel h w fuel packages parsedPackages).
Proof.
  revert packages parsedPackages.
  induction fuel as [|fuel IH]; intros packages parsedPackages;
    cbn [getDependenciesFuel]; frames; try apply preserves_forIn; apply IH.
Qed.

Lemma preserves_getDependencies packages parsedPackages :
  preserves R (getDependencies h w packages parsedPackages).
Proof. apply preserves_getDependenciesFuel. Qed.

Lemma preserves_seedProduction : preserves R seedProduction.
Proof. unfold seedProduction. frames. Qed.

Lemma preserves_addDependencies : preserves R (addDependencies h w).
Proof.
  unfold addDependencies. frames;
    try apply preserves_getDependencies; apply preserves_seedProduction.
Qed.

Lemma preserves_gather content : preserves R (gather h w content).
Proof.
  unfold gather. frames;
    auto using preserves_addLibFiles, preserves_addTypesFiles,
      preserves_addDefinitionFiles, preserves_addProjectFiles,
      preserves_addDependencies.
Qed.

End ProgramFrames.

(** ** The loop of [getDependencies] *)

Section ForIn.

Context (h : Host) (w : World).

Implicit Types (names : list string) (acc : StringMap) (parsed : gset string).

Lemma forIn_skip name names acc parsed st :
  name ∈ parsed →
  forIn h w (name :: names) acc parsed st =
  forIn h w names acc parsed (verboseState (skippingLine h name) st).
Proof.
  intros Hin. cbn [forIn]. rewrite decide_True by done.
  by rewrite run_bind, run_verbose.
Qed.

Lemma forIn_missing name names acc parsed st e :
  name ∉ parsed →
  manifestOf h w name = Throws e →
  forIn h w (name :: names) acc parsed st =
  forIn h w names acc ({[name]} ∪ parsed)
    (verboseState (missingLine h name)
       (notedLookup name (verboseState (resolvingLine h name) st))).
Proof.
  intros Hin Hm. cbn [forIn]. rewrite decide_False by done.
  rewrite run_bind, run_verbose. rewrite run_bind. cbn [noteLookup modify].
  rewrite run_bind. unfold tryCatch at 1.
  rewrite run_bind, readManifest_manifestOf, Hm. cbn [toOutcome].
  by rewrite run_bind, run_verbose.
Qed.

Lemma forIn_found name names acc parsed st packageJson :
  name ∉ parsed →
  manifestOf h w name = Returns packageJson →
  forIn h w (name :: names) acc parsed st =
  forIn h w names (merged acc packageJson) ({[name]} ∪ parsed)
    (dependsState h packageJson
       (notedLookup name (verboseState (resolvingLine h name) st))).
Proof.
  intros Hin Hm. cbn [forIn]. rewrite decide_False by done.
  rewrite run_bind, run_verbose. rewrite run_bind. cbn [noteLookup modify].
  rewrite run_bind. unfold tryCatch at 1.
  rewrite run_bind, readManifest_manifestOf, Hm. cbn [toOutcome].
  cbn [mret M_ret]. unfold dependsState, merged.
  destruct (StringMap.nonEmpty (PackageJson.dependencies packageJson));
    destruct (StringMap.nonEmpty (PackageJson.peerDependencies packageJson));
    repeat (rewrite run_bind; first [rewrite run_verbose | cbn [mret M_ret]]);
    reflexivity.
Qed.

Lemma elem_of_declared x packageJson :
  x ∈ declared packageJson ↔
  (∃ m, PackageJson.peerDependencies packageJson = Some m ∧ x ∈ StringMap.keys m)
  ∨ (∃ m, PackageJson.dependencies packageJson = Some m ∧ x ∈ StringMap.keys m).
Proof.
  unfold declared. rewrite elem_of_app.
  destruct (PackageJson.peerDependencies packageJson) as [peer|],
    (PackageJson.dependencies packageJson) as [deps|]; simpl;
    unfold StringMap.keys; simpl; rewrite ?elem_of_nil; naive_solver.
Qed.

Lemma elem_of_keys_merged x acc packageJson :
  x ∈ StringMap.keys (merged acc packageJson) ↔
  x ∈ StringMap.keys acc ∨ (x ∈ declared packageJson ∧ x ≠ StringMap.proto).
Proof.
  unfold merged. rewrite elem_of_declared.
  destruct (PackageJson.peerDependencies packageJson) as [peer|],
    (PackageJson.dependencies packageJson) as [deps|];
    rewrite ?assign_None, ?elem_of_keys_assign; naive_solver.
Qed.

Lemma NoDup_keys_merged acc packageJson :
  NoDup (StringMap.keys acc) → NoDup (StringMap.keys (merged acc packageJson)).
Proof. intros H. unfold merged. by do 2 apply NoDup_keys_assign. Qed.

(** The loop never throws; it marks every name of the frontier, looks up the
    names that were not marked, each once, and collects what their manifests
    declare. *)
Lemma forIn_spec names : ∀ acc parsed st,
  ∃ acc' st' new,
    forIn h w names acc parsed st = (Ok (acc', list_to_set names ∪ parsed), st')
    ∧ lookups st' = lookups st ++ new
    ∧ NoDup new
    ∧ (∀ x, x ∈ new → x ∈ names ∧ x ∉ parsed)
    ∧ (NoDup (StringMap.keys acc) → NoDup (StringMap.keys acc'))
    ∧ (∀ x, x ∈ StringMap.keys acc' →
         x ∈ StringMap.keys acc
         ∨ ∃ name packageJson,
             name ∈ names ∧ (name ∉ parsed)
             ∧ manifestOf h w name = Returns packageJson
             ∧ x ∈ declared packageJson).
Proof.
  induction names as [|name names IH]; intros acc parsed st.
  - exists acc, st, []. rewrite app_nil_r.
    replace (list_to_set [] ∪ parsed) with parsed by set_solver.
    split_and!; [done | done | constructor | | done | by left].
    intros x Hx. by apply elem_of_nil in Hx.
  - destruct (decide (name ∈ parsed)) as [Hin|Hin].
    + rewrite forIn_skip by done.
      destruct (IH acc parsed (verboseState (skippingLine h name) st))
        as (acc' & st' & new & Hrun & Hlook & Hnd & Hnew & Hwf & Hkeys).
      exists acc', st', new. rewrite Hrun.
      replace (list_to_set (name :: names) ∪ parsed)
        with (list_to_set names ∪ parsed : gset string) by set_solver.
      split_and!; [done | | done | | done |].
      * rewrite Hlook. unfold verboseState. by destruct (verboseFlag st).
      * intros x Hx. destruct (Hnew x Hx). split; [set_solver | done].
      * intros x Hx. destruct (Hkeys x Hx) as [?|(n & pj & ? & ? & ? & ?)];
          [by left | right]. exists n, pj. split_and!; [set_solver | done..].
    + destruct (manifestOf h w name) as [packageJson|e] eqn:Hm.
      * rewrite (forIn_found _ _ _ _ _ packageJson) by done.
        match goal with |- context [forIn h w names ?a ?p ?s] =>
          destruct (IH a p s)
            as (acc' & st' & new & Hrun & Hlook & Hnd & Hnew & Hwf & Hkeys)
        end.
        exists acc', st', (name :: new). rewrite Hrun.
        replace (list_to_set (name :: names) ∪ parsed)
          with (list_to_set names ∪ ({[name]} ∪ parsed) : gset string)
          by set_solver.
        split_and!; [done | | | | |].
        -- rewrite Hlook. unfold dependsState, verboseState, notedLookup.
           repeat case_match; simpl; by rewrite <- app_assoc.
        -- constructor; [|done]. intros Hx. apply Hnew in Hx. set_solver.
        -- intros x [->|Hx]%elem_of_cons; [set_solver |].
           apply Hnew in Hx. set_solver.
        -- intros Hacc. by apply Hwf, NoDup_keys_merged.
        -- intros x Hx. destruct (Hkeys x Hx) as [Hm'|(n & pj & ? & ? & ? & ?)].
           ++ apply elem_of_keys_merged in Hm' as [?|[? _]]; [by left | right].
              exists name, packageJson. split_and!; [set_solver | done..].
           ++ right. exists n, pj. split_and!; [set_solver | set_solver | done..].
      * rewrite (forIn_missing _ _ _ _ _ e) by done.
        match goal with |- context [forIn h w names ?a ?p ?s] =>
          destruct (IH a p s)
            as (acc' & st' & new & Hrun & Hlook & Hnd & Hnew & Hwf & Hkeys)
        end.
        exists acc', st', (name :: new). rewrite Hrun.
        replace (list_to_set (name :: names) ∪ parsed)
          with (list_to_set names ∪ ({[name]} ∪ parsed) : gset string)
          by set_solver.
        split_and!; [done | | | | done |].
        -- rewrite Hlook. unfold verboseState, notedLookup.
           repeat case_match; simpl; by rewrite <- app_assoc.
        -- constructor; [|done]. intros Hx. apply Hnew in Hx. set_solver.
        -- intros x [->|Hx]%elem_of_cons; [set_solver |].
           apply Hnew in Hx. set_solver.
        -- intros x Hx. destruct (Hkeys x Hx) as [?|(n & pj & ? & ? & ? & ?)];
             [by left | right].
           exists n, pj. split_and!; [set_solver | set_solver | done..].
Qed.

End ForIn.

(** ** The recursion of [getDependencies] *)

Section Resolution.

Context (h : Host) (w : World).

Implicit Types (packages : StringMap) (parsed : gset string).

Lemma getDependenciesFuel_S fuel packages parsed st :
  getDependenciesFuel h w (S fuel) packages parsed st =
  match forIn h w (StringMap.keys packages) [] parsed st with
  | (Ok (acc, parsed1), st1) =>
      if StringMap.nonEmpty (Some acc) then
        match getDependenciesFuel h w fuel acc parsed1 st1 with
        | (Ok (deeper, parsed2), st2) =>
            (Ok (StringMap.assign acc (Some deeper), parsed2), st2)
        | (Throw e, st2) => (Throw e, st2)
        | (OutOfFuel, st2) => (OutOfFuel, st2)
        end
      else (Ok (acc, parsed1), st1)
  | (Throw e, st1) => (Throw e, st1)
  | (OutOfFuel, st1) => (OutOfFuel, st1)
  end.
Proof.
  cbn [getDependenciesFuel]. rewrite run_bind.
  destruct (forIn h w _ _ _ _) as [[[acc parsed1]|e|] st1]; try done.
  destruct (StringMap.nonEmpty (Some acc)); [|done].
  rewrite run_bind.
  by destruct (getDependenciesFuel h w _ _ _ _) as [[[deeper parsed2]|e|] st2].
Qed.

(** More fuel does not change a result. *)
Lemma getDependenciesFuel_more fuel : ∀ packages parsed st r st' k,
  getDependenciesFuel h w fuel packages parsed st = (Ok r, st') →
  getDependenciesFuel h w (fuel + k) packages parsed st = (Ok r, st').
Proof.
  induction fuel as [|fuel IH]; intros packages parsed st r st' k; [done |].
  rewrite Nat.add_succ_l, !getDependenciesFuel_S.
  destruct (forIn h w _ _ _ _) as [[[acc parsed1]|e|] st1]; try done.
  destruct (StringMap.nonEmpty (Some acc)); [|done].
  destruct (getDependenciesFuel h w fuel _ _ _) as [[[deeper parsed2]|e|] st2]
    eqn:Hdeep; try done.
  intros Heq. by rewrite (IH _ _ _ _ _ k Hdeep).
Qed.

Lemma size_list_to_set_le (l : list string) :
  size (list_to_set l : gset string) ≤ length l.
Proof.
  induction l as [|x l IH].
  - by rewrite list_to_set_nil, size_empty.
  - rewrite list_to_set_cons, size_union_alt, size_singleton.
    assert (list_to_set l ∖ {[x]} ⊆ (list_to_set l : gset string)) as Hsub
      by set_solver.
    apply subseteq_size in Hsub. simpl. lia.
Qed.

Lemma knownNames_closed packages :
  closedNames h w (list_to_set (knownNames h w packages)).
Proof.
  intros name packageJson x Hm Hx. apply elem_of_list_to_set.
  unfold knownNames. apply elem_of_app. right.
  unfold manifestOf in Hm.
  destruct (requireResolve w _) as [f|]; [|done].
  destruct (fileData w !! f) as [text|] eqn:Hf; [|done].
  apply list_elem_of_In, in_concat.
  exists (declaredNames h text). split.
  - apply list_elem_of_In, list_elem_of_fmap. exists (f, text).
    split; [done |]. by apply elem_of_map_to_list.
  - apply list_elem_of_In. unfold declaredNames. by rewrite Hm.
Qed.

(** With more fuel than there are names still to visit, the resolution
    returns; it looks up only names that were not marked, each once. *)
Lemma getDependenciesFuel_spec (U : gset string) :
  closedNames h w U →
  ∀ fuel packages parsed st,
    (∀ x, x ∈ StringMap.keys packages → x ∈ U) →
    size (U ∖ parsed) < fuel →
    ∃ result parsed' st' new,
      getDependenciesFuel h w fuel packages parsed st = (Ok (result, parsed'), st')
      ∧ parsed ⊆ parsed'
      ∧ lookups st' = lookups st ++ new
      ∧ NoDup new
      ∧ (∀ x, x ∈ new → (x ∉ parsed) ∧ x ∈ parsed')
      ∧ NoDup (StringMap.keys result)
      ∧ (∀ x, x ∈ StringMap.keys result →
           ∃ name packageJson,
             (name ∉ parsed) ∧ manifestOf h w name = Returns packageJson
             ∧ x ∈ declared packageJson).
Proof.
  intros Hclosed. induction fuel as [|fuel IH]; intros packages parsed st HU Hsize;
    [lia |].
  rewrite getDependenciesFuel_S.
  destruct (forIn_spec h w (StringMap.keys packages) [] parsed st)
    as (acc & st1 & new1 & Hrun & Hlook1 & Hnd1 & Hnew1 & Hwf1 & Hkeys1).
  rewrite Hrun.
  assert (NoDup (StringMap.keys acc)) as Hacc by (apply Hwf1; constructor).
  assert (∀ x, x ∈ StringMap.keys acc →
            ∃ name packageJson, name ∈ StringMap.keys packages ∧ (name ∉ parsed)
              ∧ manifestOf h w name = Returns packageJson
              ∧ x ∈ declared packageJson) as Hfrom.
  { intros x Hx. destruct (Hkeys1 x Hx) as [Hnil|?]; [|done].
    by apply elem_of_nil in Hnil. }
  destruct acc as [|[k v] acc]; cbn [StringMap.nonEmpty].
  { exists [], (list_to_set (StringMap.keys packages) ∪ parsed), st1, new1.
    split_and!; [done | set_solver | done | done | | constructor |].
    - intros x Hx. destruct (Hnew1 x Hx). set_solver.
    - intros x Hx. by apply elem_of_nil in Hx. }
  set (frontier := (k, v) :: acc) in *.
  set (parsed1 := list_to_set (StringMap.keys packages) ∪ parsed) in *.
  assert (size (U ∖ parsed1) < fuel) as Hsize1.
  { destruct (Hfrom k) as (name & pj & Hname & Hfresh & _ & _);
      [apply elem_of_keys_cons; by left |].
    assert (U ∖ parsed1 ⊂ U ∖ parsed) as Hsub.
    { split; [set_solver |]. intros Hsub. specialize (Hsub name).
      specialize (HU name Hname). set_solver. }
    apply subset_size in Hsub. lia. }
  assert (∀ x, x ∈ StringMap.keys frontier → x ∈ U) as HU1.
  { intros x Hx. destruct (Hfrom x Hx) as (name & pj & _ & _ & Hm & Hd).
    by eapply Hclosed. }
  destruct (IH frontier parsed1 st1 HU1 Hsize1)
    as (deeper & parsed2 & st2 & new2 & Hrun2 & Hsub2 & Hlook2 & Hnd2 & Hnew2
        & Hwf2 & Hkeys2).
  rewrite Hrun2.
  exists (StringMap.assign frontier (Some deeper)), parsed2, st2, (new1 ++ new2).
  split_and!; [done | set_solver | | | | |].
  - by rewrite Hlook2, Hlook1, app_assoc.
  - apply NoDup_app. split_and!; [done | | done].
    intros x Hx1 Hx2. destruct (Hnew1 x Hx1), (Hnew2 x Hx2). set_solver.
  - intros x [Hx|Hx]%elem_of_app.
    + destruct (Hnew1 x Hx). set_solver.
    + destruct (Hnew2 x Hx). set_solver.
  - by apply NoDup_keys_assign.
  - intros x [Hx|[Hx _]]%elem_of_keys_assign.
    + destruct (Hfrom x Hx) as (name & pj & _ & ? & ? & ?). by exists name, pj.
    + destruct (Hkeys2 x Hx) as (name & pj & ? & ? & ?). exists name, pj.
      split_and!; [set_solver | done..].
Qed.

Lemma getDependencies_spec packages parsed st :
  ∃ result parsed' st' new,
    getDependencies h w packages parsed st = (Ok (result, parsed'), st')
    ∧ parsed ⊆ parsed'
    ∧ lookups st' = lookups st ++ new
    ∧ NoDup new
    ∧ (∀ x, x ∈ new → (x ∉ parsed) ∧ x ∈ parsed')
    ∧ NoDup (StringMap.keys result)
    ∧ (∀ x, x ∈ StringMap.keys result →
         ∃ name packageJson,
           (name ∉ parsed) ∧ manifestOf h w name = Returns packageJson
           ∧ x ∈ declared packageJson).
Proof.
  unfold getDependencies.
  apply (getDependenciesFuel_spec (list_to_set (knownNames h w packages))).
  - apply knownNames_closed.
  - intros x Hx. apply elem_of_list_to_set. unfold knownNames.
    apply elem_of_app. by left.
  - pose proof (size_list_to_set_le (knownNames h w packages)).
    pose proof (subseteq_size
      (list_to_set (knownNames h w packages) ∖ parsed)
      (list_to_set (knownNames h w packages) : gset string)) as Hle.
    assert (list_to_set (knownNames h w packages) ∖ parsed
            ⊆ (list_to_set (knownNames h w packages) : gset string))
      by set_solver.
    specialize (Hle H0). lia.
Qed.

End Resolution.

(** ** What a resolution visits and returns *)

Section StringMapEntries.

Implicit Types (m target : StringMap) (k v x : string).

Lemma elem_of_define x v k v' m :
  (x, v) ∈ StringMap.define k v' m → (x = k ∧ v = v') ∨ (x, v) ∈ m.
Proof.
  induction m as [|[k0 v0] m IH]; cbn [StringMap.define].
  - intros ?%list_elem_of_singleton. left. by simplify_eq.
  - destruct (decide (k0 = k)) as [->|Hne].
    + intros [?|?]%elem_of_cons; [left; by simplify_eq |].
      right. by apply list_elem_of_further.
    + intros [?|Hin]%elem_of_cons.
      * right. simplify_eq. apply list_elem_of_here.
      * destruct (IH Hin) as [?|?]; [by left |].
        right. by apply list_elem_of_further.
Qed.

Lemma elem_of_set x v k v' m :
  (x, v) ∈ StringMap.set k v' m → (x = k ∧ v = v') ∨ (x, v) ∈ m.
Proof.
  unfold StringMap.set. case_decide; [by right | apply elem_of_define].
Qed.

Lemma get_Some_elem_of k v m : StringMap.get k m = Some v → (k, v) ∈ m.
Proof.
  induction m as [|[k0 v0] m IH]; cbn [StringMap.get]; [done |].
  destruct (decide (k0 = k)) as [->|Hne].
  - intros [= ->]. apply list_elem_of_here.
  - intros ?%IH. by apply list_elem_of_further.
Qed.

Lemma elem_of_assign x v target source :
  (x, v) ∈ StringMap.assign target (Some source) →
  (x, v) ∈ target ∨ (x, v) ∈ source.
Proof.
  unfold StringMap.assign. generalize (StringMap.keys source). intros l.
  revert target. induction l as [|k l IH]; intros target; cbn [foldl];
    [by left |].
  intros [Hin|?]%IH; [|by right].
  destruct (StringMap.get k source) as [v'|] eqn:Hget; [|by left].
  apply elem_of_set in Hin as [[-> ->]|?]; [right | by left].
  by apply get_Some_elem_of.
Qed.

Lemma elem_of_keys_entry k v m : (k, v) ∈ m → k ∈ StringMap.keys m.
Proof.
  intros Hin. apply elem_of_keys, list_elem_of_fmap. by exists (k, v).
Qed.

Lemma elem_of_keys_get x m :
  x ∈ StringMap.keys m → ∃ v, StringMap.get x m = Some v.
Proof.
  intros Hx. destruct (StringMap.get x m) as [v|] eqn:Hget; [by exists v |].
  by apply get_None_keys in Hget.
Qed.


Lemma elem_of_merged_entry x v acc packageJson :
  (x, v) ∈ merged acc packageJson → (x, v) ∈ acc ∨ declares packageJson x v.
Proof.
  unfold merged, declares.
  destruct (PackageJson.peerDependencies packageJson) as [peer|],
    (PackageJson.dependencies packageJson) as [deps|];
    rewrite ?assign_None; cbn [default from_option id].
  - intros [[?|?]%elem_of_assign|?]%elem_of_assign; auto.
  - intros [?|?]%elem_of_assign; auto.
  - intros [?|?]%elem_of_assign; auto.
  - auto.
Qed.

End StringMapEntries.

Section ForInClosure.

Context (h : Host) (w : World).

Implicit Types (names : list string) (acc : StringMap) (parsed : gset string).

(** The loop in full: which names it looks up, which names it collects and
    where their versions come from. *)
Lemma forIn_closure names : ∀ acc parsed st,
  ∃ acc' st' new,
    forIn h w names acc parsed st = (Ok (acc', list_to_set names ∪ parsed), st')
    ∧ lookups st' = lookups st ++ new
    ∧ (∀ x, x ∈ new ↔ x ∈ names ∧ x ∉ parsed)
    ∧ (∀ x, x ∈ StringMap.keys acc' ↔
         x ∈ StringMap.keys acc
         ∨ ∃ name packageJson,
             name ∈ names ∧ (name ∉ parsed)
             ∧ manifestOf h w name = Returns packageJson
             ∧ x ∈ declared packageJson ∧ x ≠ StringMap.proto)
    ∧ (∀ x v, (x, v) ∈ acc' →
         (x, v) ∈ acc
         ∨ ∃ name packageJson,
             name ∈ names ∧ (name ∉ parsed)
             ∧ manifestOf h w name = Returns packageJson
             ∧ declares packageJson x v).
Proof.
  induction names as [|name names IH]; intros acc parsed st.
  - exists acc, st, []. rewrite app_nil_r.
    replace (list_to_set [] ∪ parsed) with parsed by set_solver.
    split_and!; [done | done | | |].
    + intros x. rewrite !elem_of_nil. naive_solver.
    + intros x. split; [by left |].
      intros [?|(n & pj & Hn & _)]; [done | by apply elem_of_nil in Hn].
    + intros x v ?. by left.
  - destruct (decide (name ∈ parsed)) as [Hin|Hin].
    + rewrite forIn_skip by done.
      destruct (IH acc parsed (verboseState (skippingLine h name) st))
        as (acc' & st' & new & Hrun & Hlook & Hnew & Hkeys & Hentries).
      exists acc', st', new. rewrite Hrun.
      replace (list_to_set (name :: names) ∪ parsed)
        with (list_to_set names ∪ parsed : gset string) by set_solver.
      split_and!; [done | | | |].
      * by rewrite Hlook, lookups_verboseState.
      * intros x. rewrite Hnew, elem_of_cons. naive_solver.
      * intros x. rewrite Hkeys. setoid_rewrite elem_of_cons. naive_solver.
      * intros x v Hx. destruct (Hentries x v Hx) as [?|(n & pj & ? & ? & ? & ?)];
          [by left | right]. exists n, pj.
        split_and!; [by apply list_elem_of_further | done..].
    + destruct (manifestOf h w name) as [packageJson|e] eqn:Hm.
      * rewrite (forIn_found _ _ _ _ _ _ _ packageJson) by done.
        match goal with |- context [forIn h w names ?a ?p ?s] =>
          destruct (IH a p s)
            as (acc' & st' & new & Hrun & Hlook & Hnew & Hkeys & Hentries)
        end.
        exists acc', st', (name :: new). rewrite Hrun.
        replace (list_to_set (name :: names) ∪ parsed)
          with (list_to_set names ∪ ({[name]} ∪ parsed) : gset string)
          by set_solver.
        split_and!; [done | | | |].
        -- rewrite Hlook. unfold dependsState, verboseState, notedLookup.
           repeat case_match; simpl; by rewrite <- app_assoc.
        -- intros x. rewrite !elem_of_cons, Hnew.
           destruct (decide (x = name)) as [->|Hne]; [naive_solver |].
           set_solver.
        -- intros x. rewrite Hkeys, elem_of_keys_merged. split.
           ++ intros [[?|[? ?]]|(n & pj & ? & ? & ? & ? & ?)].
              ** by left.
              ** right. exists name, packageJson.
                 split_and!; [apply list_elem_of_here | done..].
              ** right. exists n, pj.
                 split_and!; [by apply list_elem_of_further | set_solver | done..].
           ++ intros [?|(n & pj & [->|Hn]%elem_of_cons & Hfresh & Hmn & Hx & Hp)].
              ** by left; left.
              ** left. right. split; congruence.
              ** destruct (decide (n = name)) as [->|Hne].
                 { left. right. split; congruence. }
                 right. exists n, pj. split_and!; [done | set_solver | done..].
        -- intros x v Hx.
           destruct (Hentries x v Hx) as [Hacc|(n & pj & ? & ? & ? & ?)].
           ++ apply elem_of_merged_entry in Hacc as [?|?]; [by left | right].
              exists name, packageJson.
              split_and!; [apply list_elem_of_here | done..].
           ++ right. exists n, pj.
              split_and!; [by apply list_elem_of_further | set_solver | done..].
      * rewrite (forIn_missing _ _ _ _ _ _ _ e) by done.
        match goal with |- context [forIn h w names ?a ?p ?s] =>
          destruct (IH a p s)
            as (acc' & st' & new & Hrun & Hlook & Hnew & Hkeys & Hentries)
        end.
        exists acc', st', (name :: new). rewrite Hrun.
        replace (list_to_set (name :: names) ∪ parsed)
          with (list_to_set names ∪ ({[name]} ∪ parsed) : gset string)
          by set_solver.
        split_and!; [done | | | |].
        -- rewrite Hlook. unfold verboseState, notedLookup.
           repeat case_match; simpl; by rewrite <- app_assoc.
        -- intros x. rewrite !elem_of_cons, Hnew.
           destruct (decide (x = name)) as [->|Hne]; [naive_solver |].
           set_solver.
        -- intros x. rewrite Hkeys. split.
           ++ intros [?|(n & pj & ? & ? & ? & ? & ?)]; [by left | right].
              exists n, pj.
              split_and!; [by apply list_elem_of_further | set_solver | done..].
           ++ intros [?|(n & pj & [->|Hn]%elem_of_cons & Hfresh & Hmn & Hx & Hp)].
              ** by left.
              ** congruence.
              ** destruct (decide (n = name)) as [->|Hne]; [congruence |].
                 right. exists n, pj. split_and!; [done | set_solver | done..].
        -- intros x v Hx.
           destruct (Hentries x v Hx) as [?|(n & pj & ? & ? & ? & ?)];
             [by left | right]. exists n, pj.
           split_and!; [by apply list_elem_of_further | set_solver | done..].
Qed.

End ForInClosure.

Section Closure.

Context (h : Host) (w : World).

Implicit Types (packages : StringMap) (parsed : gset string).

(** Going down one level: what is reached from the names the frontier
    declares is reached from the frontier. *)
Lemma reaches_deeper packages parsed acc parsed1 x :
  parsed ⊆ parsed1 →
  (∀ y, y ∈ StringMap.keys acc →
     ∃ name packageJson,
       name ∈ StringMap.keys packages ∧ (name ∉ parsed)
       ∧ manifestOf h w name = Returns packageJson ∧ y ∈ declared packageJson
       ∧ y ≠ StringMap.proto) →
  reaches h w parsed1 acc x → reaches h w parsed packages x.
Proof.
  intros Hsub Hacc. induction 1 as [y Hy|name pj y _ IH Hfresh Hm Hy Hp].
  - destruct (Hacc y Hy) as (name & pj & Hname & Hfresh & Hm & Hd & Hp).
    eapply reaches_declared; [by apply reaches_frontier | done..].
  - eapply reaches_declared; [exact IH | set_solver | done..].
Qed.

(** What a resolution that returns has done. *)
Lemma getDependenciesFuel_closure fuel :
  ∀ packages parsed st result parsed' st',
    getDependenciesFuel h w fuel packages parsed st
      = (Ok (result, parsed'), st') →
    ∃ new,
      lookups st' = lookups st ++ new
      ∧ parsed' = parsed ∪ list_to_set (StringMap.keys packages)
                  ∪ list_to_set (StringMap.keys result)
      ∧ (∀ x, x ∈ new ↔ x ∈ parsed' ∧ x ∉ parsed)
      ∧ (∀ name packageJson x,
           name ∈ parsed' → name ∉ parsed →
           manifestOf h w name = Returns packageJson →
           x ∈ declared packageJson → x ≠ StringMap.proto →
           x ∈ StringMap.keys result)
      ∧ (∀ x v, (x, v) ∈ result →
           x ≠ StringMap.proto
           ∧ ∃ name packageJson,
               name ∈ parsed' ∧ (name ∉ parsed)
               ∧ manifestOf h w name = Returns packageJson
               ∧ declares packageJson x v)
      ∧ (∀ name, name ∈ parsed' → name ∉ parsed →
           reaches h w parsed packages name).
Proof.
  induction fuel as [|fuel IH]; intros packages parsed st result parsed' st';
    [done |].
  rewrite getDependenciesFuel_S.
  destruct (forIn_closure h w (StringMap.keys packages) [] parsed st)
    as (acc & st1 & new1 & Hrun & Hlook1 & Hnew1 & Hkeys1 & Hentries1).
  rewrite Hrun.
  set (parsed1 := list_to_set (StringMap.keys packages) ∪ parsed) in *.
  assert (∀ y, y ∈ StringMap.keys acc ↔
            ∃ name packageJson,
              name ∈ StringMap.keys packages ∧ (name ∉ parsed)
              ∧ manifestOf h w name = Returns packageJson
              ∧ y ∈ declared packageJson ∧ y ≠ StringMap.proto) as Hfrom.
  { intros y. rewrite Hkeys1. split; [|by right].
    intros [Hnil|?]; [by apply elem_of_nil in Hnil | done]. }
  assert (∀ y v, (y, v) ∈ acc →
            y ≠ StringMap.proto
            ∧ ∃ name packageJson,
                name ∈ StringMap.keys packages ∧ (name ∉ parsed)
                ∧ manifestOf h w name = Returns packageJson
                ∧ declares packageJson y v) as Hversions.
  { intros y v Hy. split.
    - apply elem_of_keys_entry, Hfrom in Hy. naive_solver.
    - destruct (Hentries1 y v Hy) as [Hnil|?]; [|done].
      by apply elem_of_nil in Hnil. }
  destruct acc as [|[k v] acc]; cbn [StringMap.nonEmpty].
  { intros [= <- <- <-]. exists new1. split_and!.
    - done.
    - unfold parsed1. set_solver.
    - intros x. rewrite Hnew1. unfold parsed1. set_solver.
    - intros name pj x Hname Hfresh Hm Hx Hp. apply Hfrom.
      exists name, pj. split_and!; [|done..]. unfold parsed1 in Hname.
      set_solver.
    - intros x v Hx. by apply elem_of_nil in Hx.
    - intros name Hname Hfresh. apply reaches_frontier.
      unfold parsed1 in Hname. set_solver. }
  set (frontier := (k, v) :: acc) in *.
  destruct (getDependenciesFuel h w fuel frontier parsed1 st1)
    as [[[deeper parsed2]|e|] st2] eqn:Hdeep; [|done..].
  intros [= <- <- <-].
  destruct (IH _ _ _ _ _ _ Hdeep)
    as (new2 & Hlook2 & Hparsed2 & Hnew2 & Hcomplete2 & Hversions2 & Hreach2).
  assert (∀ x, x ∈ StringMap.keys (StringMap.assign frontier (Some deeper))
               ↔ x ∈ StringMap.keys frontier ∨ x ∈ StringMap.keys deeper)
    as Hresult.
  { intros x. rewrite elem_of_keys_assign. split; [naive_solver |].
    intros [?|Hx]; [by left | right]. split; [done |].
    apply elem_of_keys_get in Hx as [v' Hx%get_Some_elem_of].
    by destruct (Hversions2 x v' Hx). }
  assert (parsed ⊆ parsed1) as Hsub by (unfold parsed1; set_solver).
  assert (parsed1 ⊆ parsed2) as Hsub2 by (rewrite Hparsed2; set_solver).
  exists (new1 ++ new2). split_and!.
  - by rewrite Hlook2, Hlook1, app_assoc.
  - rewrite Hparsed2. unfold parsed1. apply set_eq. intros x.
    rewrite !elem_of_union, !elem_of_list_to_set, Hresult. naive_solver.
  - intros x. rewrite elem_of_app, Hnew1, Hnew2. unfold parsed1 in *.
    split.
    + intros [[? ?]|[? ?]]; split; set_solver.
    + intros [Hx Hfresh].
      destruct (decide (x ∈ StringMap.keys packages)); [by left |].
      right. split; [done | set_solver].
  - intros name pj x Hname Hfresh Hm Hx Hp. apply Hresult.
    destruct (decide (name ∈ parsed1)) as [Hin|Hout].
    + left. apply Hfrom. exists name, pj. split_and!; [|done..].
      unfold parsed1 in Hin. set_solver.
    + right. by eapply Hcomplete2.
  - intros x v' [Hx|Hx]%elem_of_assign.
    + destruct (Hversions x v' Hx) as (Hp & name & pj & Hname & ? & ? & ?).
      split; [done |]. exists name, pj. split_and!; [|done..].
      apply Hsub2. unfold parsed1. set_solver.
    + destruct (Hversions2 x v' Hx) as (Hp & name & pj & ? & ? & ? & ?).
      split; [done |]. exists name, pj.
      split_and!; [done | set_solver | done..].
  - intros name Hname Hfresh.
    destruct (decide (name ∈ parsed1)) as [Hin|Hout].
    + apply reaches_frontier. unfold parsed1 in Hin. set_solver.
    + eapply reaches_deeper; [exact Hsub | | by apply Hreach2].
      intros y Hy. by apply Hfrom.
Qed.

(** The resolution in terms of what the frontier reaches. *)
Lemma getDependencies_reaches packages parsed st :
  ∃ result parsed' st' new,
    getDependencies h w packages parsed st = (Ok (result, parsed'), st')
    ∧ lookups st' = lookups st ++ new
    ∧ NoDup new
    ∧ NoDup (StringMap.keys result)
    ∧ (∀ x, x ∈ parsed' ↔ x ∈ parsed ∨ reaches h w parsed packages x)
    ∧ (∀ x, x ∈ new ↔ reaches h w parsed packages x ∧ x ∉ parsed)
    ∧ (∀ x, x ∈ StringMap.keys result ↔
         ∃ name packageJson,
           reaches h w parsed packages name ∧ (name ∉ parsed)
           ∧ manifestOf h w name = Returns packageJson
           ∧ x ∈ declared packageJson ∧ x ≠ StringMap.proto)
    ∧ (∀ x v, (x, v) ∈ result →
         ∃ name packageJson,
           reaches h w parsed packages name ∧ (name ∉ parsed)
           ∧ manifestOf h w name = Returns packageJson
           ∧ declares packageJson x v).
Proof.
  destruct (getDependencies_spec h w packages parsed st)
    as (result & parsed' & st' & new & Hrun & Hsub & Hlook & Hnd & _ & Hwf
        & Hsound).
  destruct (getDependenciesFuel_closure _ _ _ _ _ _ _ Hrun)
    as (new' & Hlook' & Hparsed & Hnew & Hcomplete & Hversions & Hreach).
  assert (new' = new) as ->.
  { rewrite Hlook in Hlook'. by apply app_inv_head in Hlook'. }
  assert (∀ x, reaches h w parsed packages x → x ∈ parsed') as Hvisited.
  { induction 1 as [y Hy|name pj y _ IH Hfresh Hm Hy Hp].
    - rewrite Hparsed. set_solver.
    - rewrite Hparsed. apply elem_of_union. right. apply elem_of_list_to_set.
      by eapply Hcomplete. }
  exists result, parsed', st', new. split_and!; try done.
  - intros x. split.
    + intros Hx. destruct (decide (x ∈ parsed)); [by left | right].
      by apply Hreach.
    + intros [?|?]; [by apply Hsub | by apply Hvisited].
  - intros x. rewrite Hnew. split.
    + intros [? ?]. split; [by apply Hreach | done].
    + intros [? ?]. split; [by apply Hvisited | done].
  - intros x. split.
    + intros Hx. apply elem_of_keys_get in Hx as [v Hv%get_Some_elem_of].
      destruct (Hversions x v Hv) as (Hp & n & pj' & Hn & Hnf & Hmn & Hdecl).
      exists n, pj'. split_and!; [by apply Hreach | done | done | | done].
      apply elem_of_declared. unfold declares in Hdecl.
      destruct Hdecl as [Hd'|Hd'].
      * left. destruct (PackageJson.peerDependencies pj') as [peer|];
          [|by apply elem_of_nil in Hd'].
        exists peer. split; [done |]. by eapply elem_of_keys_entry.
      * right. destruct (PackageJson.dependencies pj') as [deps|];
          [|by apply elem_of_nil in Hd'].
        exists deps. split; [done |]. by eapply elem_of_keys_entry.
    + intros (name & pj & Hname & Hfresh & Hm & Hx & Hp).
      eapply Hcomplete; [by apply Hvisited | done..].
  - intros x v Hx. destruct (Hversions x v Hx) as (_ & n & pj & ? & ? & ? & ?).
    exists n, pj. split_and!; [by apply Hreach | done..].
Qed.

End Closure.

Section AddDependencies.

Context (h : Host) (w : World).

Lemma project_getDependencies packages parsed :
  preserves (sameOn project) (getDependencies h w packages parsed).
Proof. apply preserves_getDependencies; try exact _; by intros. Qed.

Lemma run_addDependencies st :
  let p := project st in
  let seededP := merged (ProjectJson.production (ProjectJson.dependencies p))
                        (ProjectJson.package p) in
  let seededD := StringMap.assign
                   (ProjectJson.development (ProjectJson.dependencies p))
                   (PackageJson.devDependencies (ProjectJson.package p)) in
  ∃ stA resolvedP parsedP stP stB resolvedD parsedD stD st',
    getDependencies h w seededP ∅ stA = (Ok (resolvedP, parsedP), stP)
    ∧ getDependencies h w seededD ∅ stB = (Ok (resolvedD, parsedD), stD)
    ∧ lookups stA = lookups st ∧ lookups stB = lookups stP
    ∧ lookups st' = lookups stD
    ∧ addDependencies h w st = (Ok tt, st')
    ∧ project st'
      = ProjectJson.mk
          (ProjectJson.mkDependencies
             (StringMap.assign seededP (Some resolvedP))
             (StringMap.assign seededD (Some resolvedD)))
          (ProjectJson.environmentFiles p) (ProjectJson.files p)
          (ProjectJson.index p) (ProjectJson.package p)
          (ProjectJson.tsconfig p) (ProjectJson.dojorc p)
    ∧ written st' = written st ∧ cwd st' = cwd st
    ∧ verboseFlag st' = verboseFlag st.
Proof.
  cbv zeta. unfold addDependencies, seedProduction, updateProject.
  rewrite run_bind, run_verbose.
  repeat (rewrite run_bind; cbn [gets modify]).
  rewrite !project_verboseState.
  cbn [setProject project ProjectJson.withProduction ProjectJson.dependencies
       ProjectJson.production ProjectJson.package].
  fold (merged (ProjectJson.production (ProjectJson.dependencies (project st)))
               (ProjectJson.package (project st))).
  match goal with |- context [getDependencies h w ?p ∅ ?s] =>
    destruct (getDependencies_spec h w p ∅ s)
      as (resolvedP & parsedP & stP & newP & HrunP & _);
    pose proof (project_getDependencies p ∅ s) as HprojP;
    pose proof (preserves_getDependencies h w (sameOn written)
                  (λ _ _, eq_refl) (λ _ _, eq_refl) p ∅ s) as HwP;
    pose proof (preserves_getDependencies h w (sameOn cwd)
                  (λ _ _, eq_refl) (λ _ _, eq_refl) p ∅ s) as HcP;
    pose proof (preserves_getDependencies h w (sameOn verboseFlag)
                  (λ _ _, eq_refl) (λ _ _, eq_refl) p ∅ s) as HfP
  end.
  rewrite HrunP in HprojP, HwP, HcP, HfP |- *. unfold sameOn in *.
  cbn [snd setProject project written cwd verboseFlag] in HprojP, HwP, HcP, HfP.
  rewrite ?project_verboseState, ?written_verboseState, ?cwd_verboseState,
    ?verboseFlag_verboseState in HprojP, HwP, HcP, HfP.
  rewrite run_bind. cbn [modify]. rewrite run_bind, run_verbose.
  repeat (rewrite run_bind; cbn [gets modify]).
  rewrite !project_verboseState.
  cbn [setProject project ProjectJson.withProduction ProjectJson.withDevelopment
       ProjectJson.dependencies ProjectJson.development
       ProjectJson.production ProjectJson.package].
  rewrite HprojP.
  cbn [setProject project ProjectJson.withProduction ProjectJson.withDevelopment
       ProjectJson.dependencies ProjectJson.development
       ProjectJson.production ProjectJson.package
       ProjectJson.environmentFiles ProjectJson.files ProjectJson.index
       ProjectJson.tsconfig ProjectJson.dojorc].
  match goal with |- context [getDependencies h w ?p ∅ ?s] =>
    lazymatch s with
    | context [stP] =>
      destruct (getDependencies_spec h w p ∅ s)
        as (resolvedD & parsedD & stD & newD & HrunD & _);
      pose proof (project_getDependencies p ∅ s) as HprojD;
      pose proof (preserves_getDependencies h w (sameOn written)
                    (λ _ _, eq_refl) (λ _ _, eq_refl) p ∅ s) as HwD;
      pose proof (preserves_getDependencies h w (sameOn cwd)
                    (λ _ _, eq_refl) (λ _ _, eq_refl) p ∅ s) as HcD;
      pose proof (preserves_getDependencies h w (sameOn verboseFlag)
                    (λ _ _, eq_refl) (λ _ _, eq_refl) p ∅ s) as HfD
    end
  end.
  rewrite HrunD in HprojD, HwD, HcD, HfD |- *. unfold sameOn in *.
  cbn [snd setProject project written cwd verboseFlag] in HprojD, HwD, HcD, HfD.
  rewrite ?project_verboseState, ?written_verboseState, ?cwd_verboseState,
    ?verboseFlag_verboseState in HprojD, HwD, HcD, HfD.
  cbn [setProject project written cwd verboseFlag] in HprojD, HwD, HcD, HfD.
  eexists _, resolvedP, parsedP, stP, _, resolvedD, parsedD, stD, _.
  split; [exact HrunP |]. split; [exact HrunD |].
  split; [cbn [setProject lookups]; apply lookups_verboseState |].
  split; [cbn [setProject lookups]; rewrite lookups_verboseState; done |].
  split; [| split; [reflexivity |]].
  { reflexivity. }
  cbn [setProject project written cwd verboseFlag]. rewrite HprojD.
  split_and!; [reflexivity | | |].
  - repeat first [rewrite HwD | rewrite HwP | rewrite written_verboseState
                 | progress cbn [setProject written]]. reflexivity.
  - repeat first [rewrite HcD | rewrite HcP | rewrite cwd_verboseState
                 | progress cbn [setProject cwd]]. reflexivity.
  - repeat first [rewrite HfD | rewrite HfP | rewrite verboseFlag_verboseState
                 | progress cbn [setProject verboseFlag]]. reflexivity.
Qed.

End AddDependencies.

(** ** The claims about the dependency resolver *)

(** The cycle A → B → A: both packages are looked up once and the
    resolution returns. *)
Example getDependencies_cycle :
  ∃ st', getDependencies Demo.hostCycle Demo.worldCycle [("A", "1.0.0")] ∅
           Demo.state0
         = (Ok ([("B", "1.0.0"); ("A", "1.0.0")], {["A"; "B"]}), st')
         ∧ lookups st' = ["A"; "B"].
Proof. eexists. split; [vm_compute; reflexivity | reflexivity]. Qed.

(** C3: for every frontier, every set of visited names and every world
    (whose readable files are finitely many), [getDependencies] returns: the
    recursion needs at most one level more than there are known names, and
    more fuel gives the same result.  In one run a manifest is looked up
    only for names that were not yet marked as visited, and for each name at
    most once. *)
Theorem getDependencies_terminates (h : Host) (w : World)
    (packages : StringMap) (parsedPackages : gset string) (st : State) :
  ∃ result parsedPackages' st' new,
    getDependencies h w packages parsedPackages st
      = (Ok (result, parsedPackages'), st')
    ∧ (∀ k, getDependenciesFuel h w (S (length (knownNames h w packages)) + k)
              packages parsedPackages st
            = (Ok (result, parsedPackages'), st'))
    ∧ lookups st' = lookups st ++ new
    ∧ NoDup new
    ∧ (∀ name, name ∈ new → (name ∉ parsedPackages) ∧ name ∈ parsedPackages')
    ∧ parsedPackages ⊆ parsedPackages'.
Proof.
  destruct (getDependencies_spec h w packages parsedPackages st)
    as (result & parsed' & st' & new & Hrun & Hsub & Hlook & Hnd & Hnew & _).
  exists result, parsed', st', new. split_and!; try done.
  intros k. by apply getDependenciesFuel_more.
Qed.

Lemma addDependencies_returns (h : Host) (w : World) st :
  ∃ st', addDependencies h w st = (Ok tt, st').
Proof.
  unfold addDependencies, seedProduction, updateProject.
  rewrite run_bind, run_verbose.
  repeat (rewrite run_bind; cbn [gets modify]).
  match goal with |- context [getDependencies h w ?p ?s ?st0] =>
    destruct (getDependencies_spec h w p s st0) as (r1 & p1 & st1 & ? & -> & _)
  end.
  rewrite run_bind. cbn [modify]. rewrite run_bind, run_verbose.
  repeat (rewrite run_bind; cbn [gets modify]).
  match goal with |- context [getDependencies h w ?p ?s ?st0] =>
    destruct (getDependencies_spec h w p s st0) as (r2 & p2 & st2 & ? & -> & _)
  end.
  eexists. reflexivity.
Qed.

(** C8: when the [try] block of [getDependencies] throws for a package
    (its manifest cannot be located, read or parsed), the loop goes on with
    the remaining names and the same accumulator; the package is marked as
    visited; the console gets the two lines of the verbose channel, and no
    line when the verbose flag is off.  [getDependencies] and
    [addDependencies] return in every world: nothing propagates out of the
    dependency phase. *)
Theorem missing_manifest_is_skipped (h : Host) (w : World)
    (name : string) (names : list string) (acc : StringMap)
    (parsedPackages : gset string) (st : State) (e : JsError) :
  name ∉ parsedPackages →
  (readManifest h w name st).1 = Throw e →
  let st' := verboseState (missingLine h name)
               (notedLookup name (verboseState (resolvingLine h name) st)) in
  forIn h w (name :: names) acc parsedPackages st
    = forIn h w names acc ({[name]} ∪ parsedPackages) st'
  ∧ console st' = console st
      ++ (if verboseFlag st then [resolvingLine h name; missingLine h name]
          else [])
  ∧ written st' = written st ∧ project st' = project st
  ∧ (∀ packages parsed0 st0, ∃ r st1,
       getDependencies h w packages parsed0 st0 = (Ok r, st1))
  ∧ (∀ st0, ∃ st1, addDependencies h w st0 = (Ok tt, st1)).
Proof.
  intros Hfresh Hthrow st'. rewrite readManifest_manifestOf in Hthrow.
  simpl in Hthrow.
  destruct (manifestOf h w name) as [pj|e'] eqn:Hm; [done |].
  split_and!.
  - by apply forIn_missing with e'.
  - subst st'. rewrite console_verboseState.
    cbn [notedLookup console verboseFlag].
    rewrite console_verboseState, verboseFlag_verboseState.
    destruct (verboseFlag st); [by rewrite <- app_assoc | by rewrite !app_nil_r].
  - subst st'. by rewrite written_verboseState; cbn [notedLookup written];
      rewrite written_verboseState.
  - subst st'. by rewrite project_verboseState; cbn [notedLookup project];
      rewrite project_verboseState.
  - intros packages parsed0 st0.
    destruct (getDependencies_spec h w packages parsed0 st0)
      as (r & p & st1 & new & Hrun & _).
    by exists (r, p), st1.
  - intros st0. apply addDependencies_returns.
Qed.

Lemma missing_manifest_is_skipped_witness :
("broken" ∉ ({["A"]} : gset string))
  ∧ (readManifest Demo.hostBroken Demo.worldBroken "broken" Demo.state0).1
    = Throw ("SyntaxError: Unexpected token in JSON" +:+ JS.newline
             +:+ "    at JSON.parse")
  ∧ forIn Demo.hostBroken Demo.worldBroken ["broken"; "absent"] [] {["A"]}
      Demo.state0
    = (Ok ([], {["absent"; "broken"; "A"]}),
       mkState false [] Demo.root emptyProject [] ["broken"; "absent"]).
Proof.
  split; [set_solver |]. split; [vm_compute; reflexivity |].
  pose proof (missing_manifest_is_skipped Demo.hostBroken Demo.worldBroken
    "broken" ["absent"] [] {["A"]} Demo.state0
    ("SyntaxError: Unexpected token in JSON" +:+ JS.newline
     +:+ "    at JSON.parse")) as H.
  destruct H as (-> & _); [set_solver | vm_compute; reflexivity |].
  vm_compute. reflexivity.
Defined.

(** ** Which manifest has the last word on a name *)

Section Writers.

Context (h : Host) (w : World).

Implicit Types (names : list string) (acc : StringMap) (parsed : gset string).







End Writers.








(** The two tests of the repository on duplicate names expect what the
    overwriting merge gives: in the first the regular dependency [dep1] is
    merged after the peer dependency [dep2] and its version of [dep4] stays;
    in the second the versions of the deeper level replace those of
    [dep1]. *)
Example dual_dependencies :
  ProjectJson.dependencies
    (project (Demo.gathered Demo.hostDual Demo.worldDeps Demo.args0))
  = ProjectJson.mkDependencies
      [("dep2", "2.0.0"); ("dep1", "1.0.0"); ("dep4", "1.0.0")]
      [("dep3", "0.1.0"); ("dep4", "2.0.0")].
Proof. vm_compute. reflexivity. Qed.

Example deep_dependencies_with_duplicates :
  ProjectJson.dependencies
    (project (Demo.gathered Demo.hostDeep Demo.worldDeps Demo.args0))
  = ProjectJson.mkDependencies
      [("dep1", "1.0.0"); ("dep2", "1.0.0"); ("dep3", "1.0.0"); ("dep4", "2.0.0")]
      [].
Proof. vm_compute. reflexivity. Qed.




(** ** The orchestrator *)

Section Orchestrator.

Context (h : Host) (w : World).

Lemma state_eta st :
  mkState (verboseFlag st) (console st) (cwd st) (project st) (written st)
          (lookups st) = st.
Proof. by destruct st. Qed.

Lemma run_reportError e st :
  reportError h e st = (Ok tt, appendConsole (erroredLines h e) st).
Proof.
  unfold reportError, erroredLines. destruct (JS.splitLines e) as [headline stack].
  rewrite run_bind, run_log, run_log. unfold appendConsole. simpl.
  by rewrite <- app_assoc.
Qed.

Lemma run_setProjectIndex index st :
  setProjectIndex h index st =
  (Ok tt,
   match List.find (λ f, bool_decide (ProjectFile.name f
                                      = default "./src/index.html" index))
                   (ProjectJson.files (project st)) with
   | None => appendConsole [indexErrorLine h (default "./src/index.html" index)] st
   | Some _ =>
       setProject (ProjectJson.setIndex (default "./src/index.html" index)
                                        (project st)) st
   end).
Proof.
  unfold setProjectIndex. rewrite run_bind. cbn [gets].
  by destruct (List.find _ _).
Qed.

Lemma find_none_iff index (files : list ProjectFile.t) :
  List.find (λ f, bool_decide (ProjectFile.name f = index)) files = None
  ↔ ∀ f, f ∈ files → ProjectFile.name f ≠ index.
Proof.
  split.
  - intros Hfind f Hin%list_elem_of_In Heq.
    apply (find_none _ _ Hfind) in Hin. by apply bool_decide_eq_false in Hin.
  - intros Hall. destruct (List.find _ files) as [f|] eqn:Hfind; [|done].
    apply find_some in Hfind as [Hin%list_elem_of_In Heq%bool_decide_eq_true].
    by destruct (Hall f Hin).
Qed.

Lemma find_some_iff index (files : list ProjectFile.t) :
  is_Some (List.find (λ f, bool_decide (ProjectFile.name f = index)) files)
  ↔ ∃ f, f ∈ files ∧ ProjectFile.name f = index.
Proof.
  split.
  - intros [f Hfind]. exists f.
    apply find_some in Hfind as [Hin%list_elem_of_In Heq%bool_decide_eq_true].
    done.
  - intros (f & Hin & Heq).
    destruct (List.find _ files) as [g|] eqn:Hfind; [by exists g |].
    pose proof (proj1 (find_none_iff _ _) Hfind) as Hall.
    by destruct (Hall f Hin).
Qed.

Lemma run_setFile filename contents st :
  setFile w filename contents st =
  match writeFile w filename contents with
  | Some err => (Throw err, st)
  | None => (Ok filename, addWritten filename contents st)
  end.
Proof. unfold setFile. by destruct (writeFile w filename contents). Qed.

(** After the index step, [finish] writes the bundle of the state under the
    name derived from the manifest. *)
Lemma run_finish initialCwd args st :
  finish h w initialCwd args st =
  let st1 := (setProjectIndex h (ExportArgs.index args) st).2 in
  let outfile := outfileOf h initialCwd (cwd st1) (ExportArgs.out args)
                   (ProjectJson.package (project st1)) in
  match writeFile w outfile (stringifyProject h (project st1)) with
  | Some err => (Throw err, st1)
  | None =>
      (Ok tt,
       appendConsole [exportedLine h initialCwd outfile]
         (addWritten outfile (stringifyProject h (project st1)) st1))
  end.
Proof.
  assert (∃ st1, setProjectIndex h (ExportArgs.index args) st = (Ok tt, st1))
    as [st1 Hindex] by (eexists; apply run_setProjectIndex).
  unfold finish. rewrite run_bind, Hindex. cbn [snd].
  rewrite run_bind. cbn [gets]. rewrite run_bind. cbn [gets].
  rewrite run_bind, run_setFile. unfold outfileOf.
  destruct (writeFile w _ _); [done |]. by rewrite run_log.
Qed.

Lemma written_gather content :
  preserves (sameOn written) (gather h w content).
Proof. apply preserves_gather; try exact _; by intros. Qed.

Lemma index_gather content :
  preserves (sameOn (λ st, ProjectJson.index (project st))) (gather h w content).
Proof.
  apply preserves_gather; try exact _; try by intros.
  intros f st Hf. unfold sameOn. simpl. apply Hf.
Qed.

Lemma exportProject_finish args st0 initialCwd stE r st1 :
  enter h w args (started h args st0) = (Ok initialCwd, stE) →
  gather h w (ExportArgs.content args) stE = (Ok r, st1) →
  exportProject h w args st0
  = tryCatch (finish h w initialCwd args) (reportError h) st1.
Proof.
  intros Henter Hgather. rewrite exportProject_started.
  unfold pipeline, tryCatch. by rewrite run_bind, Henter, run_bind, Hgather.
Qed.

Lemma exportProject_gather_throws args st0 initialCwd stE e st1 :
  enter h w args (started h args st0) = (Ok initialCwd, stE) →
  gather h w (ExportArgs.content args) stE = (Throw e, st1) →
  exportProject h w args st0 = (Ok tt, appendConsole (erroredLines h e) st1).
Proof.
  intros Henter Hgather. rewrite exportProject_started.
  unfold pipeline, tryCatch. rewrite run_bind, Henter, run_bind, Hgather.
  apply run_reportError.
Qed.

Lemma exportProject_enter_throws args st0 e stE :
  enter h w args (started h args st0) = (Throw e, stE) →
  exportProject h w args st0 = (Ok tt, appendConsole (erroredLines h e) stE).
Proof.
  intros Henter. rewrite exportProject_started.
  unfold pipeline, tryCatch. rewrite run_bind, Henter.
  apply run_reportError.
Qed.

Lemma run_enter_chdir_throws args st e :
  chdir w (cwd st) (ExportArgs.project args) = Throws e →
  enter h w args st = (Throw e, st).
Proof.
  intros Hchdir. unfold enter, processChdir. run. rewrite Hchdir. by run.
Qed.

(** The state in which [createProject] runs. *)
Lemma run_enter_chdir args st dir :
  chdir w (cwd st) (ExportArgs.project args) = Returns dir →
  enter h w args st =
  let st1 := if bool_decide (dir ≠ cwd st)
             then verboseState (changingLine h (ExportArgs.project args))
                               (setCwd dir st)
             else setCwd dir st in
  match createProject h w st1 with
  | (Ok created, st2) => (Ok (cwd st), setProject created st2)
  | (Throw e, st2) => (Throw e, st2)
  | (OutOfFuel, st2) => (OutOfFuel, st2)
  end.
Proof.
  intros Hchdir. unfold enter, processChdir. run. rewrite Hchdir. run.
  fold (setCwd dir st). cbn [cwd setCwd]. case_bool_decide; run.
  - by destruct (createProject h w _) as [[created|e|] st2].
  - by destruct (createProject h w _) as [[created|e|] st2].
Qed.

Lemma run_createProject_missing st :
  access w "package.json" && access w "tsconfig.json" = false →
  createProject h w st
  = (Throw (newError h (missingFilesMessage (cwd st))), st).
Proof.
  intros Hmissing. unfold createProject, exists_. run.
  destruct (access w "package.json"); simpl in Hmissing.
  - run. rewrite Hmissing. by run.
  - by run.
Qed.

Lemma createProject_proceeds st created st' :
  createProject h w st = (Ok created, st') →
  access w "package.json" = true ∧ access w "tsconfig.json" = true.
Proof.
  intros Hrun.
  destruct (access w "package.json" && access w "tsconfig.json") eqn:Hboth.
  - by apply andb_true_iff in Hboth.
  - by rewrite run_createProject_missing in Hrun.
Qed.

Lemma written_createProject : preserves (sameOn written) (createProject h w).
Proof. apply preserves_createProject; try exact _; by intros. Qed.

Lemma written_enter args : preserves (sameOn written) (enter h w args).
Proof.
  intros st. destruct (chdir w (cwd st) (ExportArgs.project args)) as [dir|e]
    eqn:Hchdir.
  - rewrite (run_enter_chdir _ _ dir) by done. cbv zeta.
    match goal with |- context [createProject h w ?s] =>
      pose proof (written_createProject s) as Hcreate;
      destruct (createProject h w s) as [[created|e|] st2]
    end; unfold sameOn in *; simpl in *; rewrite Hcreate;
      case_bool_decide; by rewrite ?written_verboseState.
  - by rewrite (run_enter_chdir_throws _ _ e).
Qed.

Lemma ensures_bind {A B} (P : B → Prop) (m : M A) (f : A → M B) :
  (∀ a, ensures P (f a)) → ensures P (m ≫= f).
Proof.
  intros Hf st. rewrite run_bind.
  destruct (m st) as [[a|e|] st1]; [apply Hf | done..].
Qed.

Lemma ensures_mret {A} (P : A → Prop) a : P a → ensures P (mret a).
Proof. by intros HP st. Qed.

Lemma ensures_throw {A} (P : A → Prop) e : ensures P (throw e).
Proof. by intros st. Qed.

(** The bundle [createProject] returns has no files, no dependencies and
    no index yet. *)
Lemma createProject_fresh :
  ensures (λ created,
             ProjectJson.index created = EmptyString
             ∧ ProjectJson.files created = []
             ∧ ProjectJson.environmentFiles created = []
             ∧ ProjectJson.dependencies created = ProjectJson.mkDependencies [] [])
          (createProject h w).
Proof.
  unfold createProject.
  do 2 (apply ensures_bind; intros ?).
  case_match; [apply ensures_bind; intros ?; apply ensures_throw |].
  repeat (apply ensures_bind; intros ?).
  by apply ensures_mret.
Qed.

Lemma enter_fresh args st initialCwd stE :
  enter h w args st = (Ok initialCwd, stE) →
  initialCwd = cwd st
  ∧ ProjectJson.index (project stE) = EmptyString.
Proof.
  destruct (chdir w (cwd st) (ExportArgs.project args)) as [dir|e] eqn:Hchdir.
  - rewrite (run_enter_chdir _ _ dir) by done. cbv zeta.
    match goal with |- context [createProject h w ?s] =>
      pose proof (createProject_fresh s) as Hfresh;
      destruct (createProject h w s) as [[created|e|] st2]
    end; [|done..].
    intros [= <- <-]. by destruct Hfresh as (? & _).
  - by rewrite (run_enter_chdir_throws _ _ e).
Qed.

End Orchestrator.

Lemma exportProject_missing (h : Host) (w : World) (args : ExportArgs.t)
    (st : State) :
  access w "package.json" && access w "tsconfig.json" = false →
  ∃ st',
    exportProject h w args st = (Ok tt, st')
    ∧ written st' = written st
    ∧ ∀ dir,
        chdir w (cwd st) (ExportArgs.project args) = Returns dir →
        console st'
        = console st
          ++ [chalk h Underline (JS.newline +:+ "Export project bundle")]
          ++ (if ExportArgs.verbose args && bool_decide (dir ≠ cwd st)
              then [changingLine h (ExportArgs.project args)] else [])
          ++ erroredLines h (newError h (missingFilesMessage dir)).
Proof.
  intros Hboth.
  destruct (chdir w (cwd st) (ExportArgs.project args)) as [dir|e] eqn:Hchdir.
  - pose proof (run_enter_chdir h w args (started h args st) dir Hchdir)
      as Henter.
    cbv zeta in Henter. change (cwd (started h args st)) with (cwd st) in Henter.
    set (stX := if bool_decide (dir ≠ cwd st)
                then verboseState (changingLine h (ExportArgs.project args))
                                  (setCwd dir (started h args st))
                else setCwd dir (started h args st)) in Henter.
    assert (cwd stX = dir) as Hcwd.
    { unfold stX. case_bool_decide; by rewrite ?cwd_verboseState. }
    assert (written stX = written st) as Hwritten.
    { unfold stX. case_bool_decide; by rewrite ?written_verboseState. }
    assert (console stX
            = console st
              ++ [chalk h Underline (JS.newline +:+ "Export project bundle")]
              ++ (if ExportArgs.verbose args && bool_decide (dir ≠ cwd st)
                  then [changingLine h (ExportArgs.project args)] else []))
      as Hconsole.
    { unfold stX. case_bool_decide.
      - rewrite console_verboseState. cbn [setCwd started console verboseFlag].
        rewrite andb_true_r. by rewrite <- app_assoc.
      - rewrite andb_false_r. cbn [setCwd started console]. by rewrite app_nil_r. }
    rewrite run_createProject_missing in Henter by done. rewrite Hcwd in Henter.
    rewrite (exportProject_enter_throws h w _ _ _ _ Henter).
    eexists. split; [reflexivity |]. split; [done |].
    intros dir' [= <-]. cbn [appendConsole console]. rewrite Hconsole.
    by rewrite <- !app_assoc.
  - pose proof (run_enter_chdir_throws h w args (started h args st) e Hchdir)
      as Henter.
    rewrite (exportProject_enter_throws h w _ _ _ _ Henter).
    eexists. split; [reflexivity |]. split; [done | done].
Qed.

(** C4: when the manifest or the compiler configuration (or both) cannot be
    accessed in the working directory, [exportProject] returns normally (the
    error is recovered by its handler) and writes no file; once the directory
    was changed to [dir], the console gets the banner, then (on the verbose
    channel) the change of directory, then the two lines of the handler for
    the error whose message names [dir] and both required files.
    Conversely [createProject] returns a bundle only when both files can be
    accessed, and [exportProject] writes a file only then. *)
Theorem required_files_missing (h : Host) (w : World) (args : ExportArgs.t)
    (st : State) :
  (access w "package.json" && access w "tsconfig.json" = false →
   ∃ st',
     exportProject h w args st = (Ok tt, st')
     ∧ written st' = written st
     ∧ ∀ dir,
         chdir w (cwd st) (ExportArgs.project args) = Returns dir →
         console st'
         = console st
           ++ [chalk h Underline (JS.newline +:+ "Export project bundle")]
           ++ (if ExportArgs.verbose args && bool_decide (dir ≠ cwd st)
               then [changingLine h (ExportArgs.project args)] else [])
           ++ erroredLines h
                ("Error: "
                 +:+ ("Path " +:+ quoted dir +:+ " does not contain a "
                      +:+ quoted "tsconfig.json" +:+ " and "
                      +:+ quoted "package.json" +:+ ".")
                 +:+ stackTrace h))
  ∧ (∀ st0 created st1,
       createProject h w st0 = (Ok created, st1) →
       access w "package.json" = true ∧ access w "tsconfig.json" = true)
  ∧ (∀ r st',
       exportProject h w args st = (r, st') →
       written st' ≠ written st →
       access w "package.json" = true ∧ access w "tsconfig.json" = true).
Proof.
  split_and!; [apply exportProject_missing | apply createProject_proceeds |].
  intros r st' Hrun Hwritten.
  destruct (access w "package.json" && access w "tsconfig.json") eqn:Hboth;
    [by apply andb_true_iff in Hboth |].
  destruct (exportProject_missing h w args st Hboth) as (st2 & Hrun2 & Hsame & _).
  rewrite Hrun in Hrun2. by simplify_eq.
Qed.

(** C5: after a gathering that succeeded, the index of the bundle is still
    empty.  If no entry of [files] has exactly the requested name (default
    [./src/index.html]), [setProjectIndex] changes nothing but the console,
    which gets an error line on the always-visible channel; the bundle, with
    its index still empty, is written all the same (when the write itself
    succeeds).  If an entry has the name, [setProjectIndex] sets the index to
    it and leaves [files], [dependencies] and [environmentFiles] as they
    are. *)
Theorem index_validation (h : Host) (w : World) (args : ExportArgs.t)
    (st0 stE st1 : State) (initialCwd : string) (r : list unit) :
  enter h w args (started h args st0) = (Ok initialCwd, stE) →
  gather h w (ExportArgs.content args) stE = (Ok r, st1) →
  let index := default "./src/index.html" (ExportArgs.index args) in
  let p := project st1 in
  let outfile := outfileOf h initialCwd (cwd st1) (ExportArgs.out args)
                   (ProjectJson.package p) in
  ProjectJson.index p = EmptyString
  ∧ ((∀ f, f ∈ ProjectJson.files p → ProjectFile.name f ≠ index) →
     setProjectIndex h (ExportArgs.index args) st1
       = (Ok tt, appendConsole [indexErrorLine h index] st1)
     ∧ (writeFile w outfile (stringifyProject h p) = None →
        ∃ st2,
          exportProject h w args st0 = (Ok tt, st2)
          ∧ project st2 = p
          ∧ written st2 = written st1 ++ [(outfile, stringifyProject h p)]
          ∧ console st2
            = console st1
              ++ [indexErrorLine h index; exportedLine h initialCwd outfile]))
  ∧ ((∃ f, f ∈ ProjectJson.files p ∧ ProjectFile.name f = index) →
     let p' := ProjectJson.setIndex index p in
     setProjectIndex h (ExportArgs.index args) st1 = (Ok tt, setProject p' st1)
     ∧ ProjectJson.index p' = index
     ∧ ProjectJson.files p' = ProjectJson.files p
     ∧ ProjectJson.dependencies p' = ProjectJson.dependencies p
     ∧ ProjectJson.environmentFiles p' = ProjectJson.environmentFiles p
     ∧ (writeFile w outfile (stringifyProject h p') = None →
        ∃ st2,
          exportProject h w args st0 = (Ok tt, st2)
          ∧ project st2 = p'
          ∧ written st2 = written st1 ++ [(outfile, stringifyProject h p')]
          ∧ console st2 = console st1 ++ [exportedLine h initialCwd outfile])).
Proof.
  intros Henter Hgather index p outfile.
  rewrite (exportProject_finish h w _ _ _ _ _ _ Henter Hgather).
  split_and!.
  - pose proof (index_gather h w (ExportArgs.content args) stE) as Hframe.
    rewrite Hgather in Hframe. unfold sameOn in Hframe. simpl in Hframe.
    subst p. rewrite Hframe. by destruct (enter_fresh h w _ _ _ _ Henter).
  - intros Hnone%find_none_iff.
    assert (setProjectIndex h (ExportArgs.index args) st1
            = (Ok tt, appendConsole [indexErrorLine h index] st1)) as Hindex.
    { rewrite run_setProjectIndex. fold index. fold p. by rewrite Hnone. }
    split; [done |]. intros Hwrite.
    unfold tryCatch. rewrite run_finish, Hindex. cbv zeta.
    cbn [snd appendConsole cwd project]. fold p. fold outfile. rewrite Hwrite.
    eexists. split; [reflexivity |]. simpl. by rewrite <- app_assoc.
  - intros [g Hsome]%find_some_iff p'.
    assert (setProjectIndex h (ExportArgs.index args) st1
            = (Ok tt, setProject p' st1)) as Hindex.
    { rewrite run_setProjectIndex. fold index. fold p. by rewrite Hsome. }
    split_and!; [done..|]. intros Hwrite.
    unfold tryCatch. rewrite run_finish, Hindex. cbv zeta.
    cbn [snd]. change (project (setProject p' st1)) with p'.
    change (cwd (setProject p' st1)) with (cwd st1).
    change (ProjectJson.package p') with (ProjectJson.package p).
    fold outfile. rewrite Hwrite.
    eexists. by split; [reflexivity |].
Qed.

(** C6: the name of the bundle file.  With no separator before it, the first
    slash or backslash of the manifest's name becomes a hyphen and the rest
    of the name is kept as it is; a name without separators is kept; without
    a name the file is [bundle.project.json]; [.project.json] is appended in
    every case.  [finish] writes the bundle under this name, joined to the
    initial working directory and the output directory. *)
Theorem outFilename_first_separator (a b : string) (c : ascii) :
  hasSeparator a = false →
  c = "/"%char ∨ c = JS.backslash →
  (∀ package,
     PackageJson.name package = Some (a +:+ String c b) →
     outFilename package = a +:+ "-" +:+ b +:+ ".project.json")
  ∧ (∀ package,
       PackageJson.name package = Some a → a ≠ EmptyString →
       outFilename package = a +:+ ".project.json")
  ∧ (∀ package,
       PackageJson.name package = None →
       outFilename package = "bundle.project.json")
  ∧ outFilename (PackageJson.mk (Some "@dojo/widget-core") None None None None
                                None)
    = "@dojo-widget-core.project.json"
  ∧ (∀ h w initialCwd args st contents,
       let st1 := (setProjectIndex h (ExportArgs.index args) st).2 in
       let outfile :=
         path_relative h (cwd st)
           (path_normalize h
              (path_join h [initialCwd; ExportArgs.out args;
                            outFilename (ProjectJson.package (project st))])) in
       contents = stringifyProject h (project st1) →
       writeFile w outfile contents = None →
       written (finish h w initialCwd args st).2
       = written st ++ [(outfile, contents)]).
Proof.
  intros Ha Hc. split_and!.
  - intros package Hname. unfold outFilename, orDefault. rewrite Hname.
    assert (JS.or_else (Some (a +:+ String c b)) None = Some (a +:+ String c b))
      as ->.
    { unfold JS.or_else. by destruct a. }
    cbn [from_option id]. rewrite replaceFirstSeparator_first by done.
    by rewrite append_assoc.
  - intros package Hname Hne. unfold outFilename, orDefault. rewrite Hname.
    assert (JS.or_else (Some a) None = Some a) as ->.
    { unfold JS.or_else. by destruct a. }
    cbn [from_option id]. by rewrite replaceFirstSeparator_none.
  - intros package Hname. unfold outFilename, orDefault. by rewrite Hname.
  - reflexivity.
  - intros h w initialCwd args st contents st1 outfile -> Hwrite.
    rewrite run_finish. cbv zeta. fold st1.
    assert (cwd st1 = cwd st ∧ written st1 = written st
            ∧ ProjectJson.package (project st1) = ProjectJson.package (project st))
      as (Hcwd & Hwritten & Hpackage).
    { unfold st1. rewrite run_setProjectIndex. cbn [snd].
      by destruct (List.find _ _). }
    unfold outfileOf. rewrite Hcwd, Hpackage. fold outfile. rewrite Hwrite.
    simpl. by rewrite Hwritten.
Qed.

(** ** The file collector *)

Section Collector.

Context (h : Host) (w : World).



Lemma run_promiseAll_cons {A} (task : M A) tasks st a st1 l st2 :
  task st = (Ok a, st1) →
  promiseAll tasks st1 = (Ok l, st2) →
  promiseAll (task :: tasks) st = (Ok (a :: l), st2).
Proof. intros H1 H2. cbn [promiseAll]. by rewrite H1, H2. Qed.

Lemma run_getGlobs includeExtensions include matches st :
  Forall2 (λ pattern found,
             glob w (includeGlob includeExtensions pattern) = Returns found)
          include matches →
  promiseAll ((λ pattern, getGlob w (includeGlob includeExtensions pattern))
                <$> include) st
  = (Ok matches, st).
Proof.
  induction 1 as [|pattern found include matches Hglob _ IH]; [done |].
  rewrite fmap_cons. eapply run_promiseAll_cons; [|exact IH].
  unfold getGlob. by rewrite run_lift, Hglob.
Qed.



End Collector.



(** ** Explicit types *)

Section Types.

Context (h : Host) (w : World).

(** Up to the choice of an entry point: the manifest is resolved, read,
    parsed and pushed. *)
Lemma run_addTypesFile packageName st resolved manifestText packageJson :
  requireResolve w (path_join h [packageName; "package.json"]) = Returns resolved →
  fileData w !! path_relative h (cwd st) resolved = Some manifestText →
  parsePackageJson h manifestText = Returns packageJson →
  let packageJsonFilename := path_relative h (cwd st) resolved in
  let st1 := pushedEnvironmentFile
               (createProjectFile packageJsonFilename
                  (stringifyPackageJson h packageJson) ProjectFileType.JSON)
               (verboseState (typesResolvingLine h packageName) st) in
  addTypesFile h w packageName st =
  match JS.truthy_value (JS.or_else (PackageJson.typings packageJson)
                                    (PackageJson.types packageJson)) with
  | Some typings =>
      match requireResolve w
              (path_normalize h (path_join h [packageName; typings])) with
      | Throws e => (Throw e, st1)
      | Returns entry =>
          let filename := path_relative h (cwd st) entry in
          match fileData w !! filename with
          | None => (Throw (readError w filename), st1)
          | Some text =>
              (Ok tt,
               verboseState (typeFileLine h filename)
                 (pushedEnvironmentFile
                    (createProjectFile filename text ProjectFileType.Definition_)
                    st1))
          end
      end
  | None =>
      let st2 := appendConsole [typesWarnLine h packageJsonFilename] st1 in
      match requireResolve w
              (path_normalize h (path_join h [packageName; "index.d.ts"])) with
      | Throws e => (Ok tt, st2)
      | Returns entry =>
          let filename := path_relative h (cwd st) entry in
          match fileData w !! filename with
          | None => (Ok tt, st2)
          | Some text =>
              (Ok tt,
               verboseState (typeFileLine h filename)
                 (pushedEnvironmentFile
                    (createProjectFile filename text ProjectFileType.Definition_)
                    st2))
          end
      end
  end.
Proof.
  intros Hresolve Hfile Hparse packageJsonFilename st1.
  assert (cwd st1 = cwd st) as Hcwd.
  { unfold st1, pushedEnvironmentFile. cbn [setProject cwd].
    apply cwd_verboseState. }
  unfold addTypesFile, getFile, updateProject, tryCatch. run.
  rewrite Hresolve. run. rewrite cwd_verboseState.
  rewrite Hfile. run. rewrite Hparse. run.
  destruct (JS.truthy_value _) as [typings|]; run.
  - change (setProject _ (verboseState _ st)) with st1. rewrite Hcwd.
    destruct (requireResolve w
                (path_normalize h (path_join h [packageName; typings])))
      as [entry|e]; run; [|done].
    destruct (fileData w !! path_relative h (cwd st) entry) as [text|];
      run; done.
  - change (setProject _ (verboseState _ st)) with st1.
    change (appendConsole _ st1)
      with (appendConsole [typesWarnLine h packageJsonFilename] st1).
    change (cwd (appendConsole _ st1)) with (cwd st1). rewrite Hcwd.
    destruct (requireResolve w
                (path_normalize h (path_join h [packageName; "index.d.ts"])))
      as [entry|e]; run; [|done].
    destruct (fileData w !! path_relative h (cwd st) entry) as [text|];
      run; done.
Qed.

Lemma addEnvironmentFiles_app files1 files2 p :
  addEnvironmentFiles files2 (addEnvironmentFiles files1 p)
  = addEnvironmentFiles (files1 ++ files2) p.
Proof. unfold addEnvironmentFiles. simpl. by rewrite <- app_assoc. Qed.

Lemma addEnvironmentFiles_empty p : addEnvironmentFiles [] p = p.
Proof. destruct p. unfold addEnvironmentFiles. simpl. by rewrite app_nil_r. Qed.

(** The task for a package that can be loaded: its manifest and, if it
    declares an entry point, the file of that entry point. *)
Lemma run_addTypesFile_loaded packageName st packageJsonFilename packageJson :
  typesManifest h w (cwd st) packageName
    = Some (packageJsonFilename, packageJson) →
  (∀ typings, entryPoint packageJson = Some typings →
     is_Some (typesDefinition h w (cwd st) packageName typings)) →
  ∃ st' lines,
    addTypesFile h w packageName st = (Ok tt, st')
    ∧ project st'
      = addEnvironmentFiles (typesEntries h w (cwd st) packageName) (project st)
    ∧ console st' = console st ++ lines
    ∧ (∀ line, line ∈ typesWarnings h w (cwd st) packageName → line ∈ lines)
    ∧ (verboseFlag st = false
       → lines = typesWarnings h w (cwd st) packageName)
    ∧ verboseFlag st' = verboseFlag st
    ∧ cwd st' = cwd st ∧ written st' = written st.
Proof.
  intros Hmanifest Hentry.
  unfold typesEntries, typesWarnings. rewrite Hmanifest.
  unfold typesManifest in Hmanifest.
  destruct (requireResolve w (path_join h [packageName; "package.json"]))
    as [resolved|] eqn:Hresolve; [|done].
  cbv zeta in Hmanifest.
  destruct (fileData w !! path_relative h (cwd st) resolved)
    as [manifestText|] eqn:Hfile; [|done].
  destruct (parsePackageJson h manifestText) as [pj|] eqn:Hparse; [|done].
  injection Hmanifest as <- <-.
  rewrite (run_addTypesFile _ _ _ _ _ Hresolve Hfile Hparse). cbv zeta.
  fold (entryPoint pj).
  set (manifestEntry :=
         createProjectFile (path_relative h (cwd st) resolved)
                           (stringifyPackageJson h pj) ProjectFileType.JSON).
  set (st1 := pushedEnvironmentFile manifestEntry
                (verboseState (typesResolvingLine h packageName) st)).
  assert (project st1 = addEnvironmentFiles [manifestEntry] (project st))
    as Hproject1.
  { unfold st1, pushedEnvironmentFile. cbn [setProject project].
    by rewrite project_verboseState. }
  assert (console st1
          = console st
            ++ (if verboseFlag st then [typesResolvingLine h packageName]
                else [])) as Hconsole1.
  { unfold st1, pushedEnvironmentFile. cbn [setProject console].
    apply console_verboseState. }
  assert (verboseFlag st1 = verboseFlag st) as Hflag1.
  { unfold st1, pushedEnvironmentFile. cbn [setProject verboseFlag].
    apply verboseFlag_verboseState. }
  assert (cwd st1 = cwd st) as Hcwd1.
  { unfold st1, pushedEnvironmentFile. cbn [setProject cwd].
    apply cwd_verboseState. }
  assert (written st1 = written st) as Hwritten1.
  { unfold st1, pushedEnvironmentFile. cbn [setProject written].
    apply written_verboseState. }
  destruct (entryPoint pj) as [typings|] eqn:Hpoint;
    cbn [default from_option id].
  - destruct (Hentry typings eq_refl) as [file Hdefinition].
    rewrite Hdefinition. unfold typesDefinition in Hdefinition.
    destruct (requireResolve w
                (path_normalize h (path_join h [packageName; typings])))
      as [entry|] eqn:Hentry'; [|done].
    cbv zeta in Hdefinition.
    destruct (fileData w !! path_relative h (cwd st) entry) as [text|];
      [|done].
    injection Hdefinition as <-.
    eexists _, _. split; [reflexivity |].
    rewrite project_verboseState, console_verboseState,
      verboseFlag_verboseState, cwd_verboseState, written_verboseState.
    unfold pushedEnvironmentFile at 1 2 3 4 5 6.
    cbn [setProject project console verboseFlag cwd written].
    rewrite Hproject1, Hconsole1, Hflag1, Hcwd1, Hwritten1.
    split_and!; [| by rewrite <- app_assoc | | | done..].
    + unfold addEnvironmentFiles, ProjectJson.pushEnvironmentFile. simpl.
      by rewrite <- app_assoc.
    + intros line Hline. by apply elem_of_nil in Hline.
    + by intros ->.
  - set (st2 := appendConsole
                  [typesWarnLine h (path_relative h (cwd st) resolved)] st1).
    assert (∃ lines,
              console st2 = console st ++ lines
              ∧ typesWarnLine h (path_relative h (cwd st) resolved) ∈ lines
              ∧ (verboseFlag st = false
                 → lines = [typesWarnLine h (path_relative h (cwd st) resolved)]))
      as (lines2 & Hconsole2 & Hin2 & Hquiet2).
    { eexists. unfold st2. cbn [appendConsole console]. rewrite Hconsole1.
      split; [by rewrite <- app_assoc |]. split.
      - apply elem_of_app. right. apply list_elem_of_here.
      - by intros ->. }
    destruct (typesDefinition h w (cwd st) packageName "index.d.ts")
      as [file|] eqn:Hdefinition; unfold typesDefinition in Hdefinition.
    + destruct (requireResolve w
                  (path_normalize h (path_join h [packageName; "index.d.ts"])))
        as [entry|] eqn:Hentry'; [|done].
      cbv zeta in Hdefinition.
      destruct (fileData w !! path_relative h (cwd st) entry) as [text|];
        [|done].
      injection Hdefinition as <-.
      eexists _, _. split; [reflexivity |].
      rewrite project_verboseState, console_verboseState,
        verboseFlag_verboseState, cwd_verboseState, written_verboseState.
      unfold pushedEnvironmentFile at 1 2 3 4 5 6.
      cbn [setProject project console verboseFlag cwd written appendConsole].
      fold st2. rewrite Hconsole2.
      change (project st2) with (project st1).
      change (verboseFlag st2) with (verboseFlag st1).
      change (cwd st2) with (cwd st1). change (written st2) with (written st1).
      rewrite Hproject1, Hflag1, Hcwd1, Hwritten1.
      split_and!; [| by rewrite <- app_assoc | | | done..].
      * unfold addEnvironmentFiles, ProjectJson.pushEnvironmentFile. simpl.
        by rewrite <- app_assoc.
      * intros line ->%list_elem_of_singleton. apply elem_of_app. by left.
      * intros Hoff. rewrite Hoff, app_nil_r. by apply Hquiet2.
    + assert (addTypesFile_fallback :
                match requireResolve w
                        (path_normalize h
                           (path_join h [packageName; "index.d.ts"])) with
                | Throws _ => (Ok tt, st2)
                | Returns entry =>
                    match fileData w !! path_relative h (cwd st) entry with
                    | None => (Ok tt, st2)
                    | Some text =>
                        (Ok tt,
                         verboseState
                           (typeFileLine h (path_relative h (cwd st) entry))
                           (pushedEnvironmentFile
                              (createProjectFile
                                 (path_relative h (cwd st) entry) text
                                 ProjectFileType.Definition_) st2))
                    end
                end = (Ok tt, st2)).
      { destruct (requireResolve w
                    (path_normalize h (path_join h [packageName; "index.d.ts"])))
          as [entry|]; [|done].
        cbv zeta in Hdefinition.
        destruct (fileData w !! path_relative h (cwd st) entry); [|done].
        discriminate Hdefinition. }
      exists st2, lines2. split; [exact addTypesFile_fallback |].
      change (project st2) with (project st1).
      change (verboseFlag st2) with (verboseFlag st1).
      change (cwd st2) with (cwd st1). change (written st2) with (written st1).
      rewrite Hproject1, Hflag1, Hcwd1, Hwritten1.
      split_and!; [done | done | | done..].
      intros line ->%list_elem_of_singleton. done.
Qed.

(** The tasks of the requested packages, one after the other. *)
Lemma run_addTypesFiles_loaded types : ∀ st,
  (∀ packageName, packageName ∈ types →
     ∃ packageJsonFilename packageJson,
       typesManifest h w (cwd st) packageName
         = Some (packageJsonFilename, packageJson)
       ∧ ∀ typings, entryPoint packageJson = Some typings →
           is_Some (typesDefinition h w (cwd st) packageName typings)) →
  ∃ r st' lines,
    promiseAll (addTypesFile h w <$> types) st = (Ok r, st')
    ∧ project st'
      = addEnvironmentFiles (concat (typesEntries h w (cwd st) <$> types))
                            (project st)
    ∧ console st' = console st ++ lines
    ∧ (∀ line, line ∈ concat (typesWarnings h w (cwd st) <$> types)
               → line ∈ lines)
    ∧ (verboseFlag st = false
       → lines = concat (typesWarnings h w (cwd st) <$> types))
    ∧ verboseFlag st' = verboseFlag st
    ∧ cwd st' = cwd st ∧ written st' = written st.
Proof.
  induction types as [|packageName types IH]; intros st Hloaded.
  - exists [], st, []. cbn [fmap list_fmap concat].
    rewrite addEnvironmentFiles_empty, app_nil_r. done.
  - destruct (Hloaded packageName) as (f & pj & Hmanifest & Hentry);
      [apply list_elem_of_here |].
    destruct (run_addTypesFile_loaded packageName st f pj Hmanifest Hentry)
      as (st1 & lines1 & Hrun1 & Hproject1 & Hconsole1 & Hin1 & Hquiet1
          & Hflag1 & Hcwd1 & Hwritten1).
    destruct (IH st1)
      as (r & st' & lines & Hrun & Hproject & Hconsole & Hin & Hquiet & Hflag
          & Hcwd & Hwritten).
    { intros name Hname. rewrite Hcwd1. apply Hloaded.
      by apply list_elem_of_further. }
    rewrite Hcwd1 in *.
    exists (tt :: r), st', (lines1 ++ lines). rewrite fmap_cons.
    split; [by eapply run_promiseAll_cons |].
    cbn [fmap list_fmap concat].
    rewrite Hproject, Hproject1, Hconsole, Hconsole1, Hflag, Hflag1, Hcwd,
      Hwritten, Hwritten1.
    split_and!; [apply addEnvironmentFiles_app | by rewrite <- app_assoc
                | | | done..].
    + intros line [?|?]%elem_of_app; apply elem_of_app; auto.
    + intros Hoff. rewrite Hquiet1 by done. rewrite Hquiet; [done | congruence].
Qed.

End Types.

(** ** Computations that need no fuel *)

Section Totality.

Lemma total_mret {A} (a : A) : total (mret a).
Proof. by intros st. Qed.

Lemma total_throw {A} e : total (@throw A e).
Proof. by intros st. Qed.

Lemma total_gets {A} (f : State → A) : total (gets f).
Proof. by intros st. Qed.

Lemma total_modify f : total (modify f).
Proof. by intros st. Qed.

Lemma total_lift {A} (r : result A) : total (lift r).
Proof. by destruct r. Qed.

Lemma total_bind {A B} (m : M A) (f : A → M B) :
  total m → (∀ a, total (f a)) → total (m ≫= f).
Proof.
  intros Hm Hf st. rewrite run_bind. specialize (Hm st).
  destruct (m st) as [[a|e|] st1]; [apply Hf | done | done].
Qed.

Lemma total_tryCatch {A} (m : M A) handler :
  total m → (∀ e, total (handler e)) → total (tryCatch m handler).
Proof.
  intros Hm Hh st. unfold tryCatch. specialize (Hm st).
  destruct (m st) as [[a|e|] st1]; [done | apply Hh | done].
Qed.

Lemma total_promiseAll {A} (tasks : list (M A)) :
  Forall total tasks → total (promiseAll tasks).
Proof.
  induction 1 as [|task tasks Htask _ IH]; [apply total_mret |].
  intros st. cbn [promiseAll]. specialize (Htask st).
  destruct (task st) as [r st1]. specialize (IH st1).
  destruct (promiseAll tasks st1) as [rs st2]. simpl in *.
  by destruct r, rs.
Qed.

Lemma total_promiseAll_fmap {A C} (f : C → M A) (xs : list C) :
  (∀ x, total (f x)) → total (promiseAll (f <$> xs)).
Proof.
  intros H. apply total_promiseAll, Forall_fmap, Forall_forall.
  intros x _. apply H.
Qed.

Lemma total_verbose text : total (verbose text).
Proof. intros st. by rewrite run_verbose. Qed.

Lemma total_log text : total (log text).
Proof. by intros st. Qed.

Lemma total_getFile w filename : total (getFile w filename).
Proof. intros st. unfold getFile. by destruct (fileData w !! filename). Qed.

End Totality.

Ltac total_step :=
  lazymatch goal with
  | |- total (mret _) => apply total_mret
  | |- total (throw _) => apply total_throw
  | |- total (gets _) => apply total_gets
  | |- total (modify _) => apply total_modify
  | |- total (updateProject _) => apply total_modify
  | |- total (lift _) => apply total_lift
  | |- total (verbose _) => apply total_verbose
  | |- total (log _) => apply total_log
  | |- total (getFile _ _) => apply total_getFile
  | |- total (mbind _ _) => apply total_bind; [| intros ?]
  | |- total (tryCatch _ _) => apply total_tryCatch; [| intros ?]
  | |- total (promiseAll (_ <$> _)) => apply total_promiseAll_fmap; intros ?
  | |- total (promiseAll []) => apply total_mret
  | |- total (match ?x with _ => _ end) => destruct x
  | |- total (let _ := _ in _) => cbv zeta
  | |- total ((λ _, _) _) => cbv beta
  end.

Section Rejections.

Context (h : Host) (w : World).

Lemma total_addLibFiles : total (addLibFiles h w).
Proof. unfold addLibFiles. repeat total_step. Qed.

Lemma total_addTypesFile packageName : total (addTypesFile h w packageName).
Proof. unfold addTypesFile. repeat total_step. Qed.

(** [Promise.all] rejects when one of its tasks does, if the tasks started
    before it need no fuel. *)
Lemma promiseAll_rejects {A} (I : State → Prop) (before : list (M A)) task after :
  Forall total before →
  Forall (λ t, ∀ st, I st → I (t st).2) before →
  (∀ st, I st → ∃ e, (task st).1 = Throw e) →
  ∀ st, I st → ∃ e, (promiseAll (before ++ task :: after) st).1 = Throw e.
Proof.
  intros Htotal Hinv Htask.
  induction before as [|t before IH]; intros st HI.
  - cbn [app promiseAll]. destruct (Htask st HI) as [e He].
    destruct (task st) as [r st1]. simpl in He. subst r.
    destruct (promiseAll after st1) as [rs st2]. by exists e.
  - apply Forall_cons in Htotal as [Ht Htotal].
    apply Forall_cons in Hinv as [HtI Hinv].
    cbn [app promiseAll]. specialize (Ht st). specialize (HtI st HI).
    destruct (t st) as [r st1]. simpl in Ht, HtI.
    destruct (IH Htotal Hinv st1 HtI) as [e He].
    destruct (promiseAll (before ++ task :: after) st1) as [rs st2].
    simpl in He. subst rs. destruct r as [a|e0|]; [by exists e | by exists e0 | done].
Qed.

End Rejections.

Section TypesRejections.

Context (h : Host) (w : World).

Lemma cwd_addTypesFile packageName :
  preserves (sameOn cwd) (addTypesFile h w packageName).
Proof. apply preserves_addTypesFile; try exact _; by intros. Qed.

Lemma cwd_addLibFiles : preserves (sameOn cwd) (addLibFiles h w).
Proof. apply preserves_addLibFiles; try exact _; by intros. Qed.

Lemma tsconfig_addLibFiles :
  preserves (sameOn (λ st, ProjectJson.tsconfig (project st))) (addLibFiles h w).
Proof.
  apply preserves_addLibFiles; try exact _; try by intros.
  intros f st Hf. unfold sameOn. simpl. apply Hf.
Qed.

Lemma addTypesFiles_rejects packageName types dir :
  packageName ∈ types →
  (∀ st, cwd st = dir → ∃ e, (addTypesFile h w packageName st).1 = Throw e) →
  ∀ st,
    cwd st = dir →
    Tsconfig.compilerOptions (ProjectJson.tsconfig (project st)) ≫= Tsconfig.types
      = Some types →
    ∃ e, (addTypesFiles h w st).1 = Throw e.
Proof.
  intros (before & after & ->)%list_elem_of_split Htask st Hcwd Htypes.
  unfold addTypesFiles. rewrite run_bind. cbn [gets]. rewrite Htypes.
  rewrite fmap_app, fmap_cons.
  apply (promiseAll_rejects (λ st, cwd st = dir)); [| | done | done].
  - apply Forall_fmap, Forall_forall. intros name _. apply total_addTypesFile.
  - apply Forall_fmap, Forall_forall. intros name _ st' Hst'.
    pose proof (cwd_addTypesFile name st') as Hframe. unfold sameOn in Hframe.
    simpl. congruence.
Qed.

Lemma gather_rejects content packageName types dir :
  packageName ∈ types →
  (∀ st, cwd st = dir → ∃ e, (addTypesFile h w packageName st).1 = Throw e) →
  ∀ st,
    cwd st = dir →
    Tsconfig.compilerOptions (ProjectJson.tsconfig (project st)) ≫= Tsconfig.types
      = Some types →
    ∃ e, (gather h w content st).1 = Throw e.
Proof.
  intros Hin Htask st Hcwd Htypes. unfold gather.
  match goal with |- context [promiseAll (?t1 :: ?t2 :: ?rest)] =>
    change (promiseAll (t1 :: t2 :: rest))
      with (promiseAll ([t1] ++ t2 :: rest))
  end.
  apply (promiseAll_rejects
           (λ st, cwd st = dir
                  ∧ Tsconfig.compilerOptions (ProjectJson.tsconfig (project st))
                      ≫= Tsconfig.types = Some types)); [| | | done].
  - constructor; [|constructor].
    apply total_bind; [apply total_addLibFiles | intros; apply total_mret].
  - constructor; [|constructor]. intros st' [Hcwd' Htypes'].
    rewrite run_bind.
    pose proof (cwd_addLibFiles st') as Hc.
    pose proof (tsconfig_addLibFiles st') as Ht.
    unfold sameOn in Hc, Ht.
    destruct (addLibFiles h w st') as [[a|e|] st1]; simpl in *;
      split; congruence.
  - intros st' [Hcwd' Htypes'].
    destruct (addTypesFiles_rejects packageName types dir Hin Htask st' Hcwd'
                Htypes') as [e He].
    exists e. rewrite run_bind.
    destruct (addTypesFiles h w st') as [r st1]. simpl in He. by subst r.
Qed.

End TypesRejections.

(** C9: a requested types package whose manifest is found and declares
    neither [typings] nor [types].  Its task in [addTypesFiles] returns
    normally and writes nothing; the manifest is appended as kind JSON; the
    warning that names the manifest path goes to the always-visible channel;
    when [index.d.ts] resolves and can be read it is appended as kind
    Definition, and when it does not resolve or cannot be read nothing else
    is appended.  The phase runs this task for every package that
    [compilerOptions.types] requests: when the requested packages can be
    loaded (each manifest, and each entry point that is declared), the phase
    returns normally whatever the fallback lookups do; what it has appended
    is, up to the order, the manifest of each requested package with the
    file of its entry point or, for a package without one, its [index.d.ts]
    if there is one; the console holds the warning of each package without
    an entry point, and with the verbose flag off it has got these warnings
    and nothing else. *)
Theorem types_without_entry_point (h : Host) (w : World) :
  (∀ (packageName : string) (st : State) (resolved manifestText : string)
     (packageJson : PackageJson.t),
     requireResolve w (path_join h [packageName; "package.json"]) = Returns resolved →
     fileData w !! path_relative h (cwd st) resolved = Some manifestText →
     parsePackageJson h manifestText = Returns packageJson →
     PackageJson.typings packageJson = None →
     PackageJson.types packageJson = None →
     let packageJsonFilename := path_relative h (cwd st) resolved in
     let manifestEntry :=
       createProjectFile packageJsonFilename (stringifyPackageJson h packageJson)
                         ProjectFileType.JSON in
     let fallback :=
       requireResolve w (path_normalize h (path_join h [packageName; "index.d.ts"])) in
     ∃ st',
       addTypesFile h w packageName st = (Ok tt, st')
       ∧ written st' = written st
       ∧ (∀ entry text,
            fallback = Returns entry →
            fileData w !! path_relative h (cwd st) entry = Some text →
            ProjectJson.environmentFiles (project st')
            = ProjectJson.environmentFiles (project st)
              ++ [manifestEntry;
                  createProjectFile (path_relative h (cwd st) entry) text
                                    ProjectFileType.Definition_]
            ∧ console st'
              = console st
                ++ (if verboseFlag st then [typesResolvingLine h packageName] else [])
                ++ [typesWarnLine h packageJsonFilename]
                ++ (if verboseFlag st
                    then [typeFileLine h (path_relative h (cwd st) entry)] else []))
       ∧ ((∃ e, fallback = Throws e)
          ∨ (∃ entry, fallback = Returns entry
                      ∧ fileData w !! path_relative h (cwd st) entry = None) →
          ProjectJson.environmentFiles (project st')
          = ProjectJson.environmentFiles (project st) ++ [manifestEntry]
          ∧ console st'
            = console st
              ++ (if verboseFlag st then [typesResolvingLine h packageName] else [])
              ++ [typesWarnLine h packageJsonFilename]))
  ∧ (∀ (st : State) (types : list string),
       Tsconfig.compilerOptions (ProjectJson.tsconfig (project st))
         ≫= Tsconfig.types = Some types →
       (∀ packageName, packageName ∈ types →
          ∃ packageJsonFilename packageJson,
            typesManifest h w (cwd st) packageName
              = Some (packageJsonFilename, packageJson)
            ∧ ∀ typings, entryPoint packageJson = Some typings →
                is_Some (typesDefinition h w (cwd st) packageName typings)) →
       ∃ r st' added lines,
         addTypesFiles h w st = (Ok r, st')
         ∧ written st' = written st
         ∧ project st' = addEnvironmentFiles added (project st)
         ∧ added ≡ₚ concat (typesEntries h w (cwd st) <$> types)
         ∧ console st' = console st ++ lines
         ∧ (verboseFlag st = false
            → lines ≡ₚ concat (typesWarnings h w (cwd st) <$> types))
         ∧ ∀ packageName packageJsonFilename packageJson,
             packageName ∈ types →
             typesManifest h w (cwd st) packageName
               = Some (packageJsonFilename, packageJson) →
             entryPoint packageJson = None →
             typesWarnLine h packageJsonFilename ∈ lines
             ∧ typesEntries h w (cwd st) packageName
               = createProjectFile packageJsonFilename
                   (stringifyPackageJson h packageJson) ProjectFileType.JSON
                 :: option_list
                      (typesDefinition h w (cwd st) packageName "index.d.ts")).
Proof.
  split.
  { intros packageName st resolved manifestText packageJson.
    intros Hresolve Hfile Hparse Htypings Htypes packageJsonFilename manifestEntry
      fallback.
    rewrite (run_addTypesFile h w _ _ _ _ _ Hresolve Hfile Hparse).
    rewrite Htypings, Htypes. cbn [JS.or_else JS.truthy_value]. cbv zeta.
    fold packageJsonFilename. fold manifestEntry. fold fallback.
    set (st1 := pushedEnvironmentFile manifestEntry
                  (verboseState (typesResolvingLine h packageName) st)).
    set (st2 := appendConsole [typesWarnLine h packageJsonFilename] st1).
    assert (written st2 = written st) as Hwritten.
    { unfold st2, st1, pushedEnvironmentFile. cbn [appendConsole setProject written].
      apply written_verboseState. }
    assert (ProjectJson.environmentFiles (project st2)
            = ProjectJson.environmentFiles (project st) ++ [manifestEntry])
      as Henv.
    { unfold st2, st1, pushedEnvironmentFile.
      cbn [appendConsole setProject project ProjectJson.pushEnvironmentFile
           ProjectJson.environmentFiles].
      by rewrite project_verboseState. }
    assert (console st2
            = console st
              ++ (if verboseFlag st then [typesResolvingLine h packageName] else [])
              ++ [typesWarnLine h packageJsonFilename]) as Hconsole.
    { unfold st2, st1, pushedEnvironmentFile.
      cbn [appendConsole setProject console].
      by rewrite console_verboseState, <- app_assoc. }
    assert (verboseFlag st2 = verboseFlag st) as Hflag.
    { unfold st2, st1, pushedEnvironmentFile.
      cbn [appendConsole setProject verboseFlag]. apply verboseFlag_verboseState. }
    destruct fallback as [entry|e] eqn:Hfallback.
    - destruct (fileData w !! path_relative h (cwd st) entry) as [text|] eqn:Hentry.
      + eexists. split; [reflexivity |]. split_and!.
        * by rewrite written_verboseState.
        * intros entry' text' [= <-] Htext. rewrite Hentry in Htext.
          injection Htext as <-. split.
          -- rewrite project_verboseState. unfold pushedEnvironmentFile.
             cbn [setProject project ProjectJson.pushEnvironmentFile
                  ProjectJson.environmentFiles].
             by rewrite Henv, <- app_assoc.
          -- rewrite console_verboseState. unfold pushedEnvironmentFile.
             cbn [setProject console verboseFlag].
             by rewrite Hconsole, Hflag, <- !app_assoc.
        * intros [[e [=]]|(entry' & [= <-] & ?)]. congruence.
      + eexists. split; [reflexivity |]. split_and!; [done | | done].
        intros entry' text' [= <-] ?. congruence.
    - eexists. split; [reflexivity |]. split_and!; [done | | done].
      intros entry text [=]. }
  intros st types Htypes Hloaded.
  destruct (run_addTypesFiles_loaded h w types st Hloaded)
    as (r & st' & lines & Hrun & Hproject & Hconsole & Hin & Hquiet & _ & _
        & Hwritten).
  exists r, st', (concat (typesEntries h w (cwd st) <$> types)), lines.
  split_and!; [| done | done | done | done | |].
  - unfold addTypesFiles. rewrite run_bind. cbn [gets]. by rewrite Htypes.
  - intros Hoff. by rewrite Hquiet.
  - intros packageName f pj Hname Hmanifest Hpoint. split.
    + apply Hin. apply list_elem_of_In, in_concat.
      exists (typesWarnings h w (cwd st) packageName). split.
      * apply list_elem_of_In, list_elem_of_fmap. by exists packageName.
      * apply list_elem_of_In. unfold typesWarnings.
        rewrite Hmanifest, Hpoint. apply list_elem_of_here.
    + unfold typesEntries. by rewrite Hmanifest, Hpoint.
Qed.

(** C10: when the manifest of a requested types package declares an entry
    point ([typings], else [types]) and that file does not resolve or cannot
    be read, the task of [addTypesFiles] for the package throws that error;
    the gathering then rejects, the handler of [exportProject] logs the
    error of the rejection and no file is written.  On the fallback path (no
    entry point declared) the task returns normally whatever the lookup of
    [index.d.ts] does. *)
Theorem types_entry_point_failure (h : Host) (w : World) (args : ExportArgs.t)
    (st0 stE : State) (initialCwd : string) (types : list string)
    (packageName resolved manifestText : string) (packageJson : PackageJson.t)
    (entryPoint : string) :
  enter h w args (started h args st0) = (Ok initialCwd, stE) →
  Tsconfig.compilerOptions (ProjectJson.tsconfig (project stE)) ≫= Tsconfig.types
    = Some types →
  packageName ∈ types →
  requireResolve w (path_join h [packageName; "package.json"]) = Returns resolved →
  fileData w !! path_relative h (cwd stE) resolved = Some manifestText →
  parsePackageJson h manifestText = Returns packageJson →
  JS.truthy_value (JS.or_else (PackageJson.typings packageJson)
                              (PackageJson.types packageJson))
    = Some entryPoint →
  let target :=
    requireResolve w (path_normalize h (path_join h [packageName; entryPoint])) in
  (∃ e, target = Throws e)
  ∨ (∃ entry, target = Returns entry
              ∧ fileData w !! path_relative h (cwd stE) entry = None) →
  (∀ st, cwd st = cwd stE →
     ∃ e st',
       addTypesFile h w packageName st = (Throw e, st')
       ∧ (target = Throws e
          ∨ ∃ entry, target = Returns entry
                     ∧ e = readError w (path_relative h (cwd stE) entry)))
  ∧ (∃ e st', gather h w (ExportArgs.content args) stE = (Throw e, st'))
  ∧ (∃ e st',
       exportProject h w args st0 = (Ok tt, st')
       ∧ written st' = written st0
       ∧ ∃ before, console st' = before ++ erroredLines h e)
  ∧ (∀ name st resolved' text' packageJson',
       requireResolve w (path_join h [name; "package.json"]) = Returns resolved' →
       fileData w !! path_relative h (cwd st) resolved' = Some text' →
       parsePackageJson h text' = Returns packageJson' →
       JS.truthy_value (JS.or_else (PackageJson.typings packageJson')
                                   (PackageJson.types packageJson')) = None →
       ∃ st', addTypesFile h w name st = (Ok tt, st')).
Proof.
  intros Henter Htypes Hin Hresolve Hfile Hparse Hentry target Hfail.
  assert (∀ st, cwd st = cwd stE →
            ∃ e st',
              addTypesFile h w packageName st = (Throw e, st')
              ∧ (target = Throws e
                 ∨ ∃ entry, target = Returns entry
                            ∧ e = readError w (path_relative h (cwd stE) entry)))
    as Htask.
  { intros st Hcwd. rewrite <- Hcwd in Hfile.
    rewrite (run_addTypesFile h w _ _ _ _ _ Hresolve Hfile Hparse).
    rewrite Hentry. cbv zeta. fold target. rewrite Hcwd.
    destruct Hfail as [[e He]|(entry & He & Hnone)]; rewrite He.
    - eexists _, _. split; [reflexivity | by left].
    - rewrite Hnone. eexists _, _. split; [reflexivity | right]. by exists entry. }
  assert (∃ e st', gather h w (ExportArgs.content args) stE = (Throw e, st'))
    as (e & st1 & Hgather).
  { destruct (gather_rejects h w (ExportArgs.content args) packageName types
                (cwd stE) Hin) with (st := stE) as [e He]; [| done | done |].
    - intros st Hcwd. destruct (Htask st Hcwd) as (e & st' & -> & _).
      by exists e.
    - destruct (gather h w _ stE) as [r st1]. simpl in He. subst r.
      by exists e, st1. }
  split_and!; [done | by exists e, st1 | |].
  - exists e. eexists. split; [by eapply exportProject_gather_throws |].
    split; [|by eexists].
    cbn [appendConsole written].
    pose proof (written_gather h w (ExportArgs.content args) stE) as Hw1.
    pose proof (written_enter h w args (started h args st0)) as Hw2.
    rewrite Hgather in Hw1. rewrite Henter in Hw2. unfold sameOn in *.
    simpl in *. congruence.
  - intros name st resolved' text' packageJson' Hresolve' Hfile' Hparse' Hnone.
    rewrite (run_addTypesFile h w _ _ _ _ _ Hresolve' Hfile' Hparse').
    rewrite Hnone. cbv zeta.
    destruct (requireResolve w
                (path_normalize h (path_join h [name; "index.d.ts"])))
      as [entry|e']; [|by eexists].
    destruct (fileData w !! path_relative h (cwd st) entry); by eexists.
Qed.

(** ** The claims at concrete inputs *)

Lemma required_files_missing_witness :
  access Demo.worldNoManifest "package.json"
    && access Demo.worldNoManifest "tsconfig.json" = false
  ∧ chdir Demo.worldNoManifest (cwd Demo.state0) (ExportArgs.project Demo.args0)
    = Returns Demo.root
  ∧ ∃ st',
      exportProject Demo.hostProject Demo.worldNoManifest Demo.args0 Demo.state0
        = (Ok tt, st')
      ∧ written st' = []
      ∧ console st'
        = [JS.newline +:+ "Export project bundle";
           "  errored Error: Path " +:+ quoted Demo.root
           +:+ " does not contain a " +:+ quoted "tsconfig.json" +:+ " and "
           +:+ quoted "package.json" +:+ ".";
           "    at createProject" +:+ JS.newline].
Proof.
  split; [reflexivity |]. split; [reflexivity |].
  destruct (required_files_missing Demo.hostProject Demo.worldNoManifest
              Demo.args0 Demo.state0) as (Hmissing & _ & _).
  destruct (Hmissing eq_refl) as (st' & Hrun & Hwritten & Hconsole).
  exists st'. split; [exact Hrun |]. split; [exact Hwritten |].
  rewrite (Hconsole Demo.root eq_refl). vm_compute. reflexivity.
Defined.

Lemma index_validation_witness :
  enter Demo.hostProject Demo.worldSources Demo.args0
        (started Demo.hostProject Demo.args0 Demo.state0)
    = (Ok Demo.root, Demo.entered Demo.hostProject Demo.worldSources Demo.args0)
  ∧ gather Demo.hostProject Demo.worldSources (ExportArgs.content Demo.args0)
           (Demo.entered Demo.hostProject Demo.worldSources Demo.args0)
    = (Ok [tt; tt; tt; tt; tt],
       Demo.gathered Demo.hostProject Demo.worldSources Demo.args0)
  ∧ (∀ f, f ∈ ProjectJson.files
                (project (Demo.gathered Demo.hostProject Demo.worldSources
                                        Demo.args0)) →
          ProjectFile.name f ≠ "./src/index.html")
  ∧ ∃ st2,
      exportProject Demo.hostProject Demo.worldSources Demo.args0 Demo.state0
        = (Ok tt, st2)
      ∧ ProjectJson.index (project st2) = EmptyString
      ∧ ProjectJson.files (project st2)
        = ProjectJson.files
            (project (Demo.gathered Demo.hostProject Demo.worldSources Demo.args0))
      ∧ (written st2).*1 = ["test-package.project.json"]
      ∧ console st2
        = [JS.newline +:+ "Export project bundle";
           "  error unable to find index " +:+ quoted "./src/index.html"
           +:+ " in project.";
           "  exported to " +:+ quoted "test-package.project.json"
           +:+ JS.newline].
Proof.
  assert (enter Demo.hostProject Demo.worldSources Demo.args0
            (started Demo.hostProject Demo.args0 Demo.state0)
          = (Ok Demo.root,
             Demo.entered Demo.hostProject Demo.worldSources Demo.args0))
    as Henter by (vm_compute; reflexivity).
  assert (gather Demo.hostProject Demo.worldSources (ExportArgs.content Demo.args0)
            (Demo.entered Demo.hostProject Demo.worldSources Demo.args0)
          = (Ok [tt; tt; tt; tt; tt],
             Demo.gathered Demo.hostProject Demo.worldSources Demo.args0))
    as Hgather by (vm_compute; reflexivity).
  assert (∀ f, f ∈ ProjectJson.files
                     (project (Demo.gathered Demo.hostProject Demo.worldSources
                                             Demo.args0)) →
               ProjectFile.name f ≠ "./src/index.html") as Hnone.
  { apply find_none_iff. vm_compute. reflexivity. }
  split; [exact Henter |]. split; [exact Hgather |]. split; [exact Hnone |].
  destruct (index_validation Demo.hostProject Demo.worldSources Demo.args0
              Demo.state0 _ _ Demo.root _ Henter Hgather)
    as (Hindex & Hmissing & _).
  destruct (Hmissing Hnone) as (_ & Hwrite).
  destruct (Hwrite eq_refl) as (st2 & Hrun & Hproject & Hwritten & Hconsole).
  exists st2. split; [exact Hrun |]. rewrite Hproject, Hwritten, Hconsole.
  split; [exact Hindex |]. split; [reflexivity |].
  split; vm_compute; reflexivity.
Defined.

Lemma outFilename_first_separator_witness :
  hasSeparator "@dojo" = false
  ∧ ("/"%char = "/"%char ∨ "/"%char = JS.backslash)
  ∧ outFilename (PackageJson.mk (Some "@dojo/widget/core") None None None None
                                None)
    = "@dojo-widget/core.project.json".
Proof.
  split; [reflexivity |]. split; [by left |].
  destruct (outFilename_first_separator "@dojo" "widget/core" "/"%char)
    as (Hfirst & _); [reflexivity | by left |].
  apply Hfirst. reflexivity.
Defined.


Lemma types_without_entry_point_witness :
  Tsconfig.compilerOptions
    (ProjectJson.tsconfig
       (project (Demo.entered Demo.hostTypes Demo.worldTypes Demo.args0)))
    ≫= Tsconfig.types = Some ["foo"; "bar"; "baz"]
  ∧ typesManifest Demo.hostTypes Demo.worldTypes Demo.root "baz"
    = Some ("node_modules/baz/package.json", PackageJson.empty)
  ∧ entryPoint PackageJson.empty = None
  ∧ typesDefinition Demo.hostTypes Demo.worldTypes Demo.root "baz" "index.d.ts"
    = None
  ∧ ∃ r st' added lines,
      addTypesFiles Demo.hostTypes Demo.worldTypes
        (Demo.entered Demo.hostTypes Demo.worldTypes Demo.args0)
        = (Ok r, st')
      ∧ ProjectJson.environmentFiles (project st') = added
      ∧ added ≡ₚ
        [ProjectFile.mk "node_modules/foo/package.json"
           (stringifyPackageJson Demo.hostTypes Demo.fooManifest)
           ProjectFileType.JSON;
         ProjectFile.mk "node_modules/foo/foo.d.ts" "declare foo"
           ProjectFileType.Definition_;
         ProjectFile.mk "node_modules/bar/package.json"
           (stringifyPackageJson Demo.hostTypes PackageJson.empty)
           ProjectFileType.JSON;
         ProjectFile.mk "node_modules/bar/index.d.ts" "declare bar"
           ProjectFileType.Definition_;
         ProjectFile.mk "node_modules/baz/package.json"
           (stringifyPackageJson Demo.hostTypes PackageJson.empty)
           ProjectFileType.JSON]
      ∧ console st' = [JS.newline +:+ "Export project bundle"] ++ lines
      ∧ lines ≡ₚ
        ["  warn " +:+ quoted "node_modules/bar/package.json"
         +:+ " does not contain type information";
         "  warn " +:+ quoted "node_modules/baz/package.json"
         +:+ " does not contain type information"].
Proof.
  split; [vm_compute; reflexivity |]. split; [vm_compute; reflexivity |].
  split; [reflexivity |]. split; [vm_compute; reflexivity |].
  destruct (types_without_entry_point Demo.hostTypes Demo.worldTypes)
    as (_ & Hphase).
  destruct (Hphase (Demo.entered Demo.hostTypes Demo.worldTypes Demo.args0)
              ["foo"; "bar"; "baz"])
    as (r & st' & added & lines & Hrun & _ & Hproject & Hadded & Hconsole
        & Hquiet & _).
  - vm_compute. reflexivity.
  - intros packageName Hname.
    repeat (apply elem_of_cons in Hname as [->|Hname]);
      [| | | by apply elem_of_nil in Hname].
    + exists "node_modules/foo/package.json", Demo.fooManifest.
      split; [vm_compute; reflexivity |].
      intros typings [= <-]. eexists. vm_compute. reflexivity.
    + exists "node_modules/bar/package.json", PackageJson.empty.
      split; [vm_compute; reflexivity | intros typings [=]].
    + exists "node_modules/baz/package.json", PackageJson.empty.
      split; [vm_compute; reflexivity | intros typings [=]].
  - assert (verboseFlag (Demo.entered Demo.hostTypes Demo.worldTypes Demo.args0)
            = false) as Hoff by (vm_compute; reflexivity).
    exists r, st', added, lines. split; [exact Hrun |].
    split; [rewrite Hproject; vm_compute; reflexivity |].
    split; [rewrite Hadded; vm_compute; reflexivity |].
    split; [rewrite Hconsole; vm_compute; reflexivity |].
    rewrite (Hquiet Hoff). vm_compute. reflexivity.
Defined.

Lemma types_entry_point_failure_witness :
  enter Demo.hostProject Demo.worldFoo Demo.args0
        (started Demo.hostProject Demo.args0 Demo.state0)
    = (Ok Demo.root, Demo.entered Demo.hostProject Demo.worldFoo Demo.args0)
  ∧ Tsconfig.compilerOptions
      (ProjectJson.tsconfig
         (project (Demo.entered Demo.hostProject Demo.worldFoo Demo.args0)))
      ≫= Tsconfig.types = Some ["foo"]
  ∧ "foo" ∈ ["foo"]
  ∧ parsePackageJson Demo.hostProject "manifest of foo" = Returns Demo.fooManifest
  ∧ JS.truthy_value (JS.or_else (PackageJson.typings Demo.fooManifest)
                                (PackageJson.types Demo.fooManifest))
    = Some "foo.d.ts"
  ∧ (∃ e, requireResolve Demo.worldFoo
            (path_normalize Demo.hostProject
               (path_join Demo.hostProject ["foo"; "foo.d.ts"])) = Throws e)
  ∧ ∃ e st',
      exportProject Demo.hostProject Demo.worldFoo Demo.args0 Demo.state0
        = (Ok tt, st')
      ∧ written st' = written Demo.state0
      ∧ ∃ before, console st' = before ++ erroredLines Demo.hostProject e.
Proof.
  assert (enter Demo.hostProject Demo.worldFoo Demo.args0
            (started Demo.hostProject Demo.args0 Demo.state0)
          = (Ok Demo.root, Demo.entered Demo.hostProject Demo.worldFoo Demo.args0))
    as Henter by (vm_compute; reflexivity).
  assert (∃ e, requireResolve Demo.worldFoo
                 (path_normalize Demo.hostProject
                    (path_join Demo.hostProject ["foo"; "foo.d.ts"]))
               = Throws e) as Htarget.
  { eexists. vm_compute. reflexivity. }
  split; [exact Henter |]. split; [vm_compute; reflexivity |].
  split; [apply list_elem_of_here |]. split; [vm_compute; reflexivity |].
  split; [reflexivity |]. split; [exact Htarget |].
  destruct (types_entry_point_failure Demo.hostProject Demo.worldFoo Demo.args0
              Demo.state0 _ Demo.root ["foo"] "foo"
              (Demo.modulePath "foo/package.json") "manifest of foo"
              Demo.fooManifest "foo.d.ts" Henter)
    as (_ & _ & Hexport & _);
    [vm_compute; reflexivity | apply list_elem_of_here | vm_compute; reflexivity
    | vm_compute; reflexivity | vm_compute; reflexivity | reflexivity
    | left; exact Htarget |].
  exact Hexport.
Defined.
(** * Further properties of the code *)

(** ** [src/log.ts] *)

Section LogFacts.

Lemma join_replicate_snoc (n : nat) (s : string) :
  JS.join EmptyString (replicate (S n) s)
  = JS.join EmptyString (replicate n s) +:+ s.
Proof.
  unfold JS.join. induction n as [|n IH]; [done |].
  change (replicate (S (S n)) s) with (s :: replicate (S n) s).
  cbn [String.concat]. change (replicate (S n) s) with (s :: replicate n s) in *.
  rewrite append_nil_l. rewrite IH at 1. destruct n as [|n].
  - cbn [replicate String.concat]. by rewrite append_nil_l.
  - change (replicate (S n) s) with (s :: replicate n s).
    cbn [String.concat]. by rewrite !append_nil_l, append_assoc.
Qed.

Lemma indent_join (num : nat) : ∀ message,
  indent num message
  = JS.join EmptyString (replicate num "  ") +:+ message.
Proof.
  induction num as [|num IH]; intros message; [done |].
  cbn [indent]. rewrite IH, join_replicate_snoc. by rewrite append_assoc.
Qed.

Lemma length_join_replicate (n : nat) (s : string) :
  String.length (JS.join EmptyString (replicate n s)) = n * String.length s.
Proof.
  induction n as [|n IH]; [done |].
  rewrite join_replicate_snoc, length_append, IH. lia.
Qed.

Lemma join_replicate_add (a b : nat) (s : string) :
  JS.join EmptyString (replicate (a + b) s)
  = JS.join EmptyString (replicate a s) +:+ JS.join EmptyString (replicate b s).
Proof.
  induction b as [|b IH].
  - rewrite Nat.add_0_r. by rewrite append_nil_r.
  - rewrite Nat.add_succ_r, !join_replicate_snoc, IH. by rewrite append_assoc.
Qed.

End LogFacts.

(** X1: [indent(num, message)] puts [num] times two spaces in front of the
    message and changes nothing else: the result is that many copies of the
    two spaces followed by the message, its length is the length of the
    message plus twice [num], and indenting twice adds up. *)
Theorem indent_spaces (num : nat) (message : string) :
  indent num message = JS.join EmptyString (replicate num "  ") +:+ message
  ∧ String.length (indent num message) = 2 * num + String.length message
  ∧ ∀ more, indent more (indent num message) = indent (more + num) message.
Proof.
  split_and!.
  - apply indent_join.
  - rewrite indent_join, length_append, length_join_replicate. simpl. lia.
  - intros more. rewrite !indent_join, join_replicate_add.
    by rewrite append_assoc.
Qed.

(** X2: [verbose] prints exactly when the flag that the last [setVerbose]
    stored is on, and then it prints what [log] prints: its arguments joined
    without a separator, as one line.  Neither changes anything but the
    console. *)
Theorem verbose_follows_setVerbose (flag : bool) (text : list string)
    (st : State) :
  let st' := ((setVerbose flag ;; verbose text) st).2 in
  (setVerbose flag ;; verbose text) st = (Ok tt, st')
  ∧ console st'
    = console st ++ (if flag then [JS.join EmptyString text] else [])
  ∧ verboseFlag st' = flag
  ∧ cwd st' = cwd st ∧ project st' = project st ∧ written st' = written st
  ∧ (flag = true →
     (setVerbose flag ;; verbose text) st = (setVerbose flag ;; log text) st).
Proof.
  destruct flag; cbv zeta; unfold mbind, M_bind; cbn [setVerbose modify];
    rewrite run_verbose; unfold verboseState; cbn [verboseFlag];
    split_and!; try done.
  simpl. by rewrite app_nil_r.
Qed.

(** ** Strings of [src/exportProject.ts] *)

Section MoreStringFacts.

Lemma splitLines_join (e : string) :
  JS.join JS.newline ((JS.splitLines e).1 :: (JS.splitLines e).2) = e.
Proof.
  unfold JS.join. induction e as [|c e IH]; [done |].
  cbn [JS.splitLines]. destruct (JS.splitLines e) as [headline rest].
  cbn [fst snd] in IH.
  destruct (Ascii.eqb_spec c (ascii_of_nat 10)) as [->|Hc]; cbn [fst snd];
    destruct rest as [|line rest]; cbn [String.concat] in *;
    rewrite ?append_cons, ?append_nil_l; by rewrite IH.
Qed.

Lemma splitLines_no_newline (e : string) :
  Forall (λ line, hasNewline line = false)
         ((JS.splitLines e).1 :: (JS.splitLines e).2).
Proof.
  induction e as [|c e IH]; [by repeat constructor |].
  cbn [JS.splitLines]. destruct (JS.splitLines e) as [headline rest].
  cbn [fst snd] in IH. apply Forall_cons in IH as [Hhead Hrest].
  destruct (Ascii.eqb_spec c (ascii_of_nat 10)) as [->|Hc]; cbn [fst snd].
  - by repeat constructor.
  - constructor; [|done]. cbn [hasNewline]. rewrite Hhead.
    by destruct (Ascii.eqb_spec c (ascii_of_nat 10)).
Qed.

End MoreStringFacts.

(** X3: [DOJO_EXCLUDE] accepts exactly the paths that end in
    [@dojo/loader/interfaces.d.ts], whatever stands in front of it: the
    pattern is anchored at the end only. *)
Theorem DOJO_EXCLUDE_suffix (filename : string) :
  DOJO_EXCLUDE filename = true
  ↔ ∃ front, filename = front +:+ "@dojo/loader/interfaces.d.ts".
Proof.
  unfold DOJO_EXCLUDE. generalize "@dojo/loader/interfaces.d.ts".
  intros suffix. split.
  - induction filename as [|c s IH]; cbn [JS.endsWith].
    + destruct (String.eqb_spec EmptyString suffix) as [<-|]; [|done].
      intros _. by exists EmptyString.
    + destruct (String.eqb_spec (String c s) suffix) as [<-|].
      * intros _. by exists EmptyString.
      * intros [front ->]%IH. by exists (String c front).
  - intros [front ->]. induction front as [|c front IH].
    + rewrite append_nil_l. destruct suffix; cbn [JS.endsWith];
        by rewrite String.eqb_refl.
    + rewrite append_cons. cbn [JS.endsWith]. rewrite IH.
      by destruct (String.eqb _ _).
Qed.

(** X4: the handler of [exportProject] prints the whole stack of the error
    and nothing of it twice: the first line of the stack goes on the
    [errored] line, the other lines, joined by line feeds again and followed
    by one more line feed, make the second message; the first line and the
    others joined by line feeds are the stack, and none of them holds a line
    feed. *)
Theorem reportError_prints_stack (h : Host) (e : JsError) (st : State) :
  let headline := (JS.splitLines e).1 in
  let others := (JS.splitLines e).2 in
  reportError h e st
  = (Ok tt,
     appendConsole
       [indent 1 EmptyString +:+ chalk h BoldRed "errored" +:+ " " +:+ headline;
        JS.join JS.newline others +:+ JS.newline] st)
  ∧ JS.join JS.newline (headline :: others) = e
  ∧ Forall (λ line, hasNewline line = false) (headline :: others).
Proof.
  cbv zeta. split_and!; [| apply splitLines_join | apply splitLines_no_newline].
  rewrite run_reportError. unfold erroredLines, JS.join.
  cbn [String.concat]. by rewrite !append_nil_l.
Qed.

(** ** What the gathering phases keep *)

(** The frames above allow any update of the bundle that leaves the index,
    the manifest and the configuration alone.  The relations of this section
    are finer: they are told which entries the phases push. *)
Section PhaseFrames.

Context (h : Host) (w : World).

Context (R : relation State) `{!PreOrder R}.
Context (R_verbose : ∀ line st, R st (verboseState line st)).
Context (R_warn : ∀ packageJsonFilename st,
  R st (appendConsole [typesWarnLine h packageJsonFilename] st)).
Context (R_lookup : ∀ name st, R st (notedLookup name st)).
Context (R_environment : ∀ name text type st,
  type = ProjectFileType.Lib ∨ type = ProjectFileType.JSON
  ∨ type = ProjectFileType.Definition_ →
  R st (pushedEnvironmentFile (createProjectFile name text type) st)).
Context (R_file : ∀ name text st,
  R st (setProject
          (ProjectJson.pushFile
             (ProjectFile.mk name text (getProjectFileType h name)) (project st))
          st)).
Context (R_production : ∀ f st,
  R st (setProject (ProjectJson.withProduction f (project st)) st)).
Context (R_development : ∀ f st,
  R st (setProject (ProjectJson.withDevelopment f (project st)) st)).

Lemma keeps_verbose text : preserves R (verbose text).
Proof. intros st. rewrite run_verbose. apply R_verbose. Qed.

Lemma keeps_warn packageJsonFilename :
  preserves R (log [indent 1 EmptyString; chalk h BoldYellow "warn";
                    " " +:+ quoted packageJsonFilename
                    +:+ " does not contain type information"]).
Proof. intros st. apply R_warn. Qed.

Lemma keeps_pushEnvironmentFile name text type :
  type = ProjectFileType.Lib ∨ type = ProjectFileType.JSON
  ∨ type = ProjectFileType.Definition_ →
  preserves R (updateProject (ProjectJson.pushEnvironmentFile
                                (createProjectFile name text type))).
Proof. intros Htype st. by apply R_environment. Qed.

Lemma keeps_pushFile name text :
  preserves R (updateProject (ProjectJson.pushFile
                 (ProjectFile.mk name text (getProjectFileType h name)))).
Proof. intros st. apply R_file. Qed.

Lemma keeps_withProduction f :
  preserves R (updateProject (ProjectJson.withProduction f)).
Proof. intros st. apply R_production. Qed.

Lemma keeps_withDevelopment f :
  preserves R (updateProject (ProjectJson.withDevelopment f)).
Proof. intros st. apply R_development. Qed.

Ltac keeps :=
  repeat first
    [ frame_step
    | apply keeps_verbose
    | apply preserves_getFile
    | apply preserves_getGlob
    | apply keeps_pushEnvironmentFile; solve [auto]
    | apply keeps_pushFile
    | apply keeps_withProduction
    | apply keeps_withDevelopment ].

Lemma keeps_createProject : preserves R (createProject h w).
Proof. unfold createProject, exists_. keeps. Qed.

Lemma keeps_addLibFiles : preserves R (addLibFiles h w).
Proof. unfold addLibFiles. keeps. Qed.

Lemma keeps_addTypesFile packageName :
  preserves R (addTypesFile h w packageName).
Proof. unfold addTypesFile. keeps; apply keeps_warn. Qed.

Lemma keeps_addTypesFiles : preserves R (addTypesFiles h w).
Proof. unfold addTypesFiles. keeps. apply keeps_addTypesFile. Qed.

Lemma keeps_addDefinitionFiles : preserves R (addDefinitionFiles h w).
Proof. unfold addDefinitionFiles. keeps. Qed.

Lemma keeps_addProjectFile name : preserves R (addProjectFile h w name).
Proof. unfold addProjectFile. keeps. Qed.

Lemma keeps_addProjectFiles content :
  preserves R (addProjectFiles h w content).
Proof. unfold addProjectFiles. keeps. apply keeps_addProjectFile. Qed.

Lemma keeps_forIn names dependencies parsedPackages :
  preserves R (forIn h w names dependencies parsedPackages).
Proof.
  revert dependencies parsedPackages.
  induction names as [|name names IH]; intros dependencies parsedPackages;
    cbn [forIn]; [keeps |].
  case_decide; keeps; try apply IH; try apply preserves_readManifest;
    try exact _.
  intros st. apply R_lookup.
Qed.

Lemma keeps_getDependencies packages parsedPackages :
  preserves R (getDependencies h w packages parsedPackages).
Proof.
  unfold getDependencies. generalize (S (length (knownNames h w packages))).
  intros fuel. revert packages parsedPackages.
  induction fuel as [|fuel IH]; intros packages parsedPackages;
    cbn [getDependenciesFuel]; keeps; try apply keeps_forIn; apply IH.
Qed.

Lemma keeps_addDependencies : preserves R (addDependencies h w).
Proof.
  unfold addDependencies, seedProduction. keeps;
    apply keeps_getDependencies.
Qed.

Lemma keeps_gather content : preserves R (gather h w content).
Proof.
  unfold gather. keeps;
    auto using keeps_addLibFiles, keeps_addTypesFiles,
      keeps_addDefinitionFiles, keeps_addProjectFiles, keeps_addDependencies.
Qed.

End PhaseFrames.

(** ** The runs of [exportProject] *)

Section Runs.

Context (h : Host) (w : World).

Lemma total_createProject : total (createProject h w).
Proof. unfold createProject, exists_. repeat total_step. Qed.

Lemma total_enter args : total (enter h w args).
Proof.
  unfold enter, processChdir. repeat total_step.
  apply total_createProject.
Qed.

Lemma total_getGlob pattern : total (getGlob w pattern).
Proof. unfold getGlob. apply total_lift. Qed.

Lemma total_addTypesFiles : total (addTypesFiles h w).
Proof. unfold addTypesFiles. repeat total_step. apply total_addTypesFile. Qed.

Lemma total_addDefinitionFiles : total (addDefinitionFiles h w).
Proof.
  unfold addDefinitionFiles. repeat total_step; apply total_getGlob.
Qed.

Lemma total_addProjectFile name : total (addProjectFile h w name).
Proof. unfold addProjectFile. repeat total_step. Qed.

Lemma total_addProjectFiles content : total (addProjectFiles h w content).
Proof.
  unfold addProjectFiles. repeat total_step;
    first [apply total_getGlob | apply total_addProjectFile].
Qed.

Lemma total_addDependencies : total (addDependencies h w).
Proof.
  intros st. destruct (addDependencies_returns h w st) as [st' ->]. done.
Qed.

Lemma total_gather content : total (gather h w content).
Proof.
  unfold gather. apply total_promiseAll. repeat constructor;
    repeat total_step;
    auto using total_addLibFiles, total_addTypesFiles,
      total_addDefinitionFiles, total_addProjectFiles, total_addDependencies.
Qed.

(** The three ways a run can go: the entry fails, the gathering fails, or
    the bundle is finished. *)
Lemma exportProject_cases args st :
  (∃ e stE,
     enter h w args (started h args st) = (Throw e, stE)
     ∧ exportProject h w args st
       = (Ok tt, appendConsole (erroredLines h e) stE))
  ∨ (∃ initialCwd stE e st1,
       enter h w args (started h args st) = (Ok initialCwd, stE)
       ∧ gather h w (ExportArgs.content args) stE = (Throw e, st1)
       ∧ exportProject h w args st
         = (Ok tt, appendConsole (erroredLines h e) st1))
  ∨ (∃ initialCwd stE r st1,
       enter h w args (started h args st) = (Ok initialCwd, stE)
       ∧ gather h w (ExportArgs.content args) stE = (Ok r, st1)
       ∧ exportProject h w args st
         = tryCatch (finish h w initialCwd args) (reportError h) st1).
Proof.
  pose proof (total_enter args (started h args st)) as Htotal.
  destruct (enter h w args (started h args st)) as [[initialCwd|e|] stE]
    eqn:Henter; [| | done].
  - pose proof (total_gather (ExportArgs.content args) stE) as Htotal'.
    destruct (gather h w (ExportArgs.content args) stE) as [[r|e|] st1]
      eqn:Hgather; [| | done].
    + right. right. exists initialCwd, stE, r, st1.
      split_and!; [done | done |]. by eapply exportProject_finish.
    + right. left. exists initialCwd, stE, e, st1.
      split_and!; [done | done |]. by eapply exportProject_gather_throws.
  - left. exists e, stE. split; [done |]. by apply exportProject_enter_throws.
Qed.

(** How a finished bundle is written. *)
Lemma run_finish_caught initialCwd args st :
  let st1 := (setProjectIndex h (ExportArgs.index args) st).2 in
  let outfile := outfileOf h initialCwd (cwd st1) (ExportArgs.out args)
                   (ProjectJson.package (project st1)) in
  tryCatch (finish h w initialCwd args) (reportError h) st =
  match writeFile w outfile (stringifyProject h (project st1)) with
  | Some err => (Ok tt, appendConsole (erroredLines h err) st1)
  | None =>
      (Ok tt,
       appendConsole [exportedLine h initialCwd outfile]
         (addWritten outfile (stringifyProject h (project st1)) st1))
  end.
Proof.
  cbv zeta. unfold tryCatch. rewrite run_finish. cbv zeta.
  destruct (writeFile w _ _); [apply run_reportError | done].
Qed.

(** What [setProjectIndex] leaves as it is. *)
Lemma setProjectIndex_keeps index st :
  let st1 := (setProjectIndex h index st).2 in
  written st1 = written st ∧ cwd st1 = cwd st
  ∧ verboseFlag st1 = verboseFlag st
  ∧ ProjectJson.files (project st1) = ProjectJson.files (project st)
  ∧ ProjectJson.environmentFiles (project st1)
    = ProjectJson.environmentFiles (project st)
  ∧ ProjectJson.dependencies (project st1) = ProjectJson.dependencies (project st)
  ∧ ProjectJson.package (project st1) = ProjectJson.package (project st)
  ∧ consoleGrows st st1.
Proof.
  cbv zeta. rewrite run_setProjectIndex. cbn [snd].
  destruct (List.find _ _); cbn; split_and!; try done.
  - exists []. by rewrite app_nil_r.
  - by eexists.
Qed.

End Runs.

#[global] Instance consoleGrows_preorder : PreOrder consoleGrows.
Proof.
  split.
  - intros st. exists []. by rewrite app_nil_r.
  - intros s1 s2 s3 [l1 H1] [l2 H2]. exists (l1 ++ l2).
    by rewrite H2, H1, app_assoc.
Qed.

#[global] Instance quiet_preorder : PreOrder quiet.
Proof.
  split.
  - by intros st.
  - intros s1 s2 s3 [F1 C1] [F2 C2]. split; [congruence |].
    intros Hoff. rewrite C2, C1; [done | done | congruence].
Qed.

#[global] Instance warnsOnly_preorder h : PreOrder (warnsOnly h).
Proof.
  split.
  - intros st. split; [done |]. intros _. exists []. by rewrite app_nil_r.
  - intros s1 s2 s3 [F1 C1] [F2 C2]. split; [congruence |].
    intros Hoff. destruct (C1 Hoff) as (l1 & E1 & A1).
    destruct C2 as (l2 & E2 & A2); [congruence |].
    exists (l1 ++ l2). split; [by rewrite E2, E1, app_assoc |].
    by apply Forall_app.
Qed.

Section EnterFrames.

Context (h : Host) (w : World).

Context (R : relation State) `{!PreOrder R}.
Context (R_verbose : ∀ line st, R st (verboseState line st)).
Context (R_cwd : ∀ dir st, R st (setCwd dir st)).
Context (R_project : ∀ p st, R st (setProject p st)).

Lemma keeps_enter args : preserves R (enter h w args).
Proof.
  intros st.
  destruct (chdir w (cwd st) (ExportArgs.project args)) as [dir|e] eqn:Hchdir.
  - rewrite (run_enter_chdir h w _ _ dir) by done. cbv zeta.
    match goal with |- context [createProject h w ?s] => set (st1 := s) end.
    assert (R st st1) as Hst1.
    { unfold st1. case_bool_decide; [|apply R_cwd].
      etrans; [apply R_cwd | apply R_verbose]. }
    pose proof (keeps_createProject h w R R_verbose st1) as Hcreate.
    destruct (createProject h w st1) as [[created|e|] st2]; simpl in *.
    + etrans; [|apply R_project]. by etrans.
    + by etrans.
    + by etrans.
  - by rewrite (run_enter_chdir_throws h w _ _ e).
Qed.

End EnterFrames.

Section RunFacts.

Context (h : Host) (w : World).

Lemma verboseState_grows line st : consoleGrows st (verboseState line st).
Proof.
  unfold consoleGrows. rewrite console_verboseState. by eexists.
Qed.

Lemma verboseState_quiet line st : quiet st (verboseState line st).
Proof.
  split; [apply verboseFlag_verboseState |].
  intros Hoff. rewrite console_verboseState, Hoff. by rewrite app_nil_r.
Qed.

Lemma quiet_warnsOnly st st' : quiet st st' → warnsOnly h st st'.
Proof.
  intros [Hflag Hconsole]. split; [done |]. intros Hoff. exists [].
  rewrite app_nil_r. split; [by apply Hconsole | constructor].
Qed.

Lemma console_enter args : preserves consoleGrows (enter h w args).
Proof.
  apply keeps_enter; try exact _; [apply verboseState_grows | |];
    intros; exists []; by rewrite app_nil_r.
Qed.

Lemma quiet_enter args : preserves quiet (enter h w args).
Proof.
  apply keeps_enter; try exact _; [apply verboseState_quiet | |];
    by intros.
Qed.

Lemma console_gather content : preserves consoleGrows (gather h w content).
Proof.
  apply preserves_gather; try exact _.
  - intros lines st. by exists lines.
  - intros name st. exists []. by rewrite app_nil_r.
  - intros f st _. exists []. by rewrite app_nil_r.
Qed.

Lemma verboseFlag_gather content :
  preserves (sameOn verboseFlag) (gather h w content).
Proof. apply preserves_gather; try exact _; by intros. Qed.

Lemma cwd_gather content : preserves (sameOn cwd) (gather h w content).
Proof. apply preserves_gather; try exact _; by intros. Qed.

Lemma warnsOnly_gather content : preserves (warnsOnly h) (gather h w content).
Proof.
  apply keeps_gather; try exact _;
    try (intros; apply quiet_warnsOnly; try apply verboseState_quiet; done).
  intros f st. split; [done |]. intros _. eexists. split; [done |].
  repeat constructor. by eexists.
Qed.

(** After the entry the working directory is the one [chdir] gave, and the
    bundle is the fresh one of [createProject]. *)
Lemma enter_returns args st initialCwd stE :
  enter h w args st = (Ok initialCwd, stE) →
  initialCwd = cwd st
  ∧ chdir w (cwd st) (ExportArgs.project args) = Returns (cwd stE)
  ∧ ProjectJson.files (project stE) = []
  ∧ ProjectJson.environmentFiles (project stE) = []
  ∧ ProjectJson.dependencies (project stE) = ProjectJson.mkDependencies [] []
  ∧ ProjectJson.index (project stE) = EmptyString.
Proof.
  destruct (chdir w (cwd st) (ExportArgs.project args)) as [dir|e] eqn:Hchdir.
  - rewrite (run_enter_chdir h w _ _ dir) by done. cbv zeta.
    match goal with |- context [createProject h w ?s] =>
      pose proof (createProject_fresh h w s) as Hfresh;
      pose proof (preserves_createProject h w (sameOn cwd)
                    (λ _ _, eq_refl) s) as Hcwd;
      assert (cwd s = dir) as Hdir
        by (case_bool_decide; by rewrite ?cwd_verboseState);
      destruct (createProject h w s) as [[created|e|] st2]
    end; [|done..].
    intros [= <- <-]. unfold sameOn in Hcwd. simpl in *.
    destruct Hfresh as (? & ? & ? & ?). split_and!; try done. congruence.
  - by rewrite (run_enter_chdir_throws h w _ _ e).
Qed.

Lemma cwd_enter args st dir :
  chdir w (cwd st) (ExportArgs.project args) = Returns dir →
  cwd (enter h w args st).2 = dir.
Proof.
  intros Hchdir. rewrite (run_enter_chdir h w _ _ dir) by done. cbv zeta.
  match goal with |- context [createProject h w ?s] =>
    pose proof (preserves_createProject h w (sameOn cwd) (λ _ _, eq_refl) s)
      as Hcwd;
    assert (cwd s = dir) as Hdir
      by (case_bool_decide; by rewrite ?cwd_verboseState);
    destruct (createProject h w s) as [[created|e|] st2]
  end; unfold sameOn in Hcwd; simpl in *; congruence.
Qed.

End RunFacts.

Section RunStates.

Context (h : Host) (w : World).

Lemma entered_facts args st r stE :
  enter h w args (started h args st) = (r, stE) →
  written stE = written st
  ∧ verboseFlag stE = ExportArgs.verbose args
  ∧ ∃ lines, console stE = console st ++ banner h :: lines.
Proof.
  intros Henter.
  pose proof (written_enter h w args (started h args st)) as Hwritten.
  pose proof (keeps_enter h w (sameOn verboseFlag)
                (λ line st0, verboseFlag_verboseState line st0)
                (λ _ _, eq_refl) (λ _ _, eq_refl) args (started h args st))
    as Hflag.
  pose proof (console_enter h w args (started h args st)) as [lines Hconsole].
  rewrite Henter in *. unfold sameOn in *. simpl in *.
  split_and!; [done | done |]. exists lines.
  by rewrite Hconsole, <- app_assoc.
Qed.

Lemma gathered_facts content stE r st1 :
  gather h w content stE = (r, st1) →
  written st1 = written stE
  ∧ verboseFlag st1 = verboseFlag stE
  ∧ cwd st1 = cwd stE
  ∧ consoleGrows stE st1.
Proof.
  intros Hgather.
  pose proof (written_gather h w content stE) as Hwritten.
  pose proof (verboseFlag_gather h w content stE) as Hflag.
  pose proof (cwd_gather h w content stE) as Hcwd.
  pose proof (console_gather h w content stE) as Hconsole.
  rewrite Hgather in *. by unfold sameOn in *.
Qed.

End RunStates.

(** X5: [exportProject] never rejects and never runs for ever, whatever
    the arguments, the file system and the libraries do (the errors they
    throw carry a stack, which the handler reads).  It stores the
    verbose flag of its arguments, prints the banner first and keeps the
    lines that were on the console.  A run ends in one of two ways: either
    no file is written and the last two lines are those of the handler for
    some error, or exactly one file is written, it holds the serialisation
    of the bundle as it is at the end, and the last line is the [exported]
    line for that file, relative to the working directory of the start. *)
Theorem exportProject_outcome (h : Host) (w : World) (args : ExportArgs.t)
    (st : State) :
  ∃ st',
    exportProject h w args st = (Ok tt, st')
    ∧ verboseFlag st' = ExportArgs.verbose args
    ∧ (∃ lines, console st' = console st ++ banner h :: lines)
    ∧ ((written st' = written st
        ∧ ∃ e before, console st' = before ++ erroredLines h e)
       ∨ (∃ outfile,
            written st'
            = written st ++ [(outfile, stringifyProject h (project st'))]
            ∧ ∃ before,
                console st' = before ++ [exportedLine h (cwd st) outfile])).
Proof.
  destruct (exportProject_cases h w args st)
    as [(e & stE & Henter & ->)
       |[(initialCwd & stE & e & st1 & Henter & Hgather & ->)
        |(initialCwd & stE & r & st1 & Henter & Hgather & ->)]].
  - destruct (entered_facts h w _ _ _ _ Henter) as (Hw & Hf & lines & Hc).
    eexists. split; [reflexivity |]. cbn [appendConsole verboseFlag console written].
    split_and!; [done | | left].
    + exists (lines ++ erroredLines h e). by rewrite Hc, <- app_assoc.
    + split; [done |]. by exists e, (console stE).
  - destruct (entered_facts h w _ _ _ _ Henter) as (Hw & Hf & lines & Hc).
    destruct (gathered_facts h w _ _ _ _ Hgather)
      as (Hw1 & Hf1 & _ & lines1 & Hc1).
    eexists. split; [reflexivity |]. cbn [appendConsole verboseFlag console written].
    split_and!; [congruence | | left].
    + exists (lines ++ lines1 ++ erroredLines h e).
      by rewrite Hc1, Hc, <- !app_assoc.
    + split; [congruence |]. by exists e, (console st1).
  - destruct (entered_facts h w _ _ _ _ Henter) as (Hw & Hf & lines & Hc).
    destruct (gathered_facts h w _ _ _ _ Hgather)
      as (Hw1 & Hf1 & _ & lines1 & Hc1).
    destruct (enter_returns h w _ _ _ _ Henter) as (Hinitial & _).
    change (cwd (started h args st)) with (cwd st) in Hinitial. subst initialCwd.
    rewrite run_finish_caught. cbv zeta.
    destruct (setProjectIndex_keeps h (ExportArgs.index args) st1)
      as (Hw2 & _ & Hf2 & _ & _ & _ & _ & lines2 & Hc2).
    set (st2 := (setProjectIndex h (ExportArgs.index args) st1).2) in *.
    destruct (writeFile w _ _) as [err|].
    + eexists. split; [reflexivity |].
      cbn [appendConsole verboseFlag console written].
      split_and!; [congruence | | left].
      * exists (lines ++ lines1 ++ lines2 ++ erroredLines h err).
        by rewrite Hc2, Hc1, Hc, <- !app_assoc.
      * split; [congruence |]. by exists err, (console st2).
    + eexists. split; [reflexivity |].
      cbn [appendConsole addWritten verboseFlag console written project].
      split_and!; [congruence | | right].
      * eexists. rewrite Hc2, Hc1, Hc, <- !app_assoc. reflexivity.
      * eexists. split; [by rewrite Hw2, Hw1, Hw |]. by eexists.
Qed.

(** X6: [exportProject] changes the working directory of the process to
    the project root and does not change it back: when [chdir] succeeds, the
    working directory at the end is the one it gave, whether the export
    succeeds or fails later. *)
Theorem working_directory_not_restored (h : Host) (w : World) (args : ExportArgs.t)
    (st : State) (dir : string) :
  chdir w (cwd st) (ExportArgs.project args) = Returns dir →
  cwd (exportProject h w args st).2 = dir.
Proof.
  intros Hchdir.
  pose proof (cwd_enter h w args (started h args st) dir Hchdir) as Hcwd.
  destruct (exportProject_cases h w args st)
    as [(e & stE & Henter & ->)
       |[(initialCwd & stE & e & st1 & Henter & Hgather & ->)
        |(initialCwd & stE & r & st1 & Henter & Hgather & ->)]];
    rewrite Henter in Hcwd; cbn [snd] in Hcwd.
  - done.
  - destruct (gathered_facts h w _ _ _ _ Hgather) as (_ & _ & Hc & _).
    cbn [snd appendConsole cwd]. congruence.
  - destruct (gathered_facts h w _ _ _ _ Hgather) as (_ & _ & Hc & _).
    rewrite run_finish_caught. cbv zeta.
    destruct (setProjectIndex_keeps h (ExportArgs.index args) st1)
      as (_ & Hc2 & _).
    destruct (writeFile w _ _); cbn [snd appendConsole addWritten cwd];
      congruence.
Qed.

(** X7: when [chdir] fails (the project directory is not there), nothing
    is looked at: the handler prints the error of [chdir] right after the
    banner, and the working directory, the bundle and the files written stay
    as they were. *)
Theorem chdir_failure_is_reported (h : Host) (w : World) (args : ExportArgs.t)
    (st : State) (e : JsError) :
  chdir w (cwd st) (ExportArgs.project args) = Throws e →
  ∃ st',
    exportProject h w args st = (Ok tt, st')
    ∧ console st' = console st ++ banner h :: erroredLines h e
    ∧ cwd st' = cwd st ∧ project st' = project st ∧ written st' = written st.
Proof.
  intros Hchdir.
  pose proof (run_enter_chdir_throws h w args (started h args st) e Hchdir)
    as Henter.
  rewrite (exportProject_enter_throws h w _ _ _ _ Henter).
  eexists. split; [reflexivity |]. cbn. by rewrite <- app_assoc.
Qed.

(** X8: when the bundle cannot be written, the handler prints the error of
    the write after whatever [setProjectIndex] printed; there is no
    [exported] line and no file; the bundle in memory has its index set all
    the same. *)
Theorem write_failure_is_reported (h : Host) (w : World) (args : ExportArgs.t)
    (st0 stE st1 : State) (initialCwd : string) (r : list unit)
    (err : JsError) :
  enter h w args (started h args st0) = (Ok initialCwd, stE) →
  gather h w (ExportArgs.content args) stE = (Ok r, st1) →
  let st2 := (setProjectIndex h (ExportArgs.index args) st1).2 in
  let outfile := outfileOf h initialCwd (cwd st1) (ExportArgs.out args)
                   (ProjectJson.package (project st1)) in
  writeFile w outfile (stringifyProject h (project st2)) = Some err →
  ∃ st',
    exportProject h w args st0 = (Ok tt, st')
    ∧ written st' = written st0
    ∧ project st' = project st2
    ∧ console st' = console st2 ++ erroredLines h err.
Proof.
  intros Henter Hgather st2 outfile Hwrite.
  rewrite (exportProject_finish h w _ _ _ _ _ _ Henter Hgather).
  rewrite run_finish_caught. cbv zeta. fold st2.
  destruct (setProjectIndex_keeps h (ExportArgs.index args) st1)
    as (Hw2 & Hc2 & _ & _ & _ & _ & Hp2 & _).
  fold st2 in Hw2, Hc2, Hp2. rewrite Hc2, Hp2. fold outfile. rewrite Hwrite.
  eexists. split; [reflexivity |]. cbn [appendConsole written project console].
  destruct (entered_facts h w _ _ _ _ Henter) as (Hw & _).
  destruct (gathered_facts h w _ _ _ _ Hgather) as (Hw1 & _).
  split_and!; [congruence | done | done].
Qed.

Section QuietRuns.

Context (h : Host) (w : World).

Lemma console_setProjectIndex index st :
  ∃ lines,
    console (setProjectIndex h index st).2 = console st ++ lines
    ∧ Forall (alwaysVisible h) lines.
Proof.
  rewrite run_setProjectIndex. cbn [snd]. destruct (List.find _ _).
  - exists []. split; [by rewrite app_nil_r | constructor].
  - eexists. split; [reflexivity |]. constructor; [|constructor].
    right. right. left. by eexists.
Qed.

Lemma alwaysVisible_erroredLines e :
  Forall (alwaysVisible h) (erroredLines h e).
Proof.
  apply Forall_forall. intros line Hline. do 4 right. by exists e.
Qed.

Lemma alwaysVisible_warnings lines :
  Forall (λ line, ∃ packageJsonFilename,
            line = typesWarnLine h packageJsonFilename) lines →
  Forall (alwaysVisible h) lines.
Proof.
  intros Hlines. eapply Forall_impl; [exact Hlines |].
  intros line Hline. right. by left.
Qed.

Lemma quiet_entered args st r stE :
  ExportArgs.verbose args = false →
  enter h w args (started h args st) = (r, stE) →
  verboseFlag stE = false ∧ console stE = console st ++ [banner h].
Proof.
  intros Hoff Henter.
  destruct (quiet_enter h w args (started h args st)) as [Hflag Hconsole].
  rewrite Henter in *. cbn [snd started verboseFlag console] in *.
  split; [congruence |]. by apply Hconsole.
Qed.

Lemma quiet_gathered content stE r st1 :
  verboseFlag stE = false →
  gather h w content stE = (r, st1) →
  verboseFlag st1 = false
  ∧ ∃ lines, console st1 = console stE ++ lines
             ∧ Forall (alwaysVisible h) lines.
Proof.
  intros Hoff Hgather.
  destruct (warnsOnly_gather h w content stE) as [Hflag Hconsole].
  rewrite Hgather in *. cbn [snd] in *. split; [congruence |].
  destruct (Hconsole Hoff) as (lines & ? & ?). exists lines.
  split; [done |]. by apply alwaysVisible_warnings.
Qed.

End QuietRuns.

(** X9: without the verbose flag, a run prints nothing but the lines that
    do not go through [verbose]: the banner, the warnings of [addTypesFiles]
    for manifests without type information, the error of [setProjectIndex],
    and at the end the [exported] line or the two lines of the handler.  No
    phase prints anything else. *)
Theorem quiet_output (h : Host) (w : World) (args : ExportArgs.t) (st : State) :
  ExportArgs.verbose args = false →
  ∃ lines,
    console (exportProject h w args st).2 = console st ++ lines
    ∧ Forall (alwaysVisible h) lines.
Proof.
  intros Hoff.
  assert (alwaysVisible h (banner h)) as Hbanner by by left.
  destruct (exportProject_cases h w args st)
    as [(e & stE & Henter & ->)
       |[(initialCwd & stE & e & st1 & Henter & Hgather & ->)
        |(initialCwd & stE & r & st1 & Henter & Hgather & ->)]].
  - destruct (quiet_entered h w _ _ _ _ Hoff Henter) as (_ & Hc).
    exists (banner h :: erroredLines h e). cbn [snd appendConsole console].
    split; [by rewrite Hc, <- app_assoc |].
    constructor; [done | apply alwaysVisible_erroredLines].
  - destruct (quiet_entered h w _ _ _ _ Hoff Henter) as (HoffE & Hc).
    destruct (quiet_gathered h w _ _ _ _ HoffE Hgather)
      as (_ & lines1 & Hc1 & Hv1).
    exists (banner h :: lines1 ++ erroredLines h e).
    cbn [snd appendConsole console].
    split; [by rewrite Hc1, Hc, <- !app_assoc |].
    constructor; [done |]. apply Forall_app.
    split; [done | apply alwaysVisible_erroredLines].
  - destruct (quiet_entered h w _ _ _ _ Hoff Henter) as (HoffE & Hc).
    destruct (quiet_gathered h w _ _ _ _ HoffE Hgather)
      as (_ & lines1 & Hc1 & Hv1).
    destruct (console_setProjectIndex h (ExportArgs.index args) st1)
      as (lines2 & Hc2 & Hv2).
    rewrite run_finish_caught. cbv zeta.
    destruct (writeFile w _ _) as [err|];
      cbn [snd appendConsole addWritten console]; rewrite Hc2, Hc1, Hc.
    + exists (banner h :: lines1 ++ lines2 ++ erroredLines h err).
      split; [by rewrite <- !app_assoc |].
      constructor; [done |]. rewrite !Forall_app.
      split_and!; [done | done | apply alwaysVisible_erroredLines].
    + eexists (banner h :: lines1 ++ lines2 ++ [_]).
      split; [by rewrite <- !app_assoc |].
      constructor; [done |]. rewrite !Forall_app.
      split_and!; [done | done |]. constructor; [|constructor].
      do 3 right. left. by eexists _, _.
Qed.

(** ** The kinds of the entries *)

Lemma getProjectFileType_not_Lib (h : Host) (name : string) :
  getProjectFileType h name ≠ ProjectFileType.Lib.
Proof.
  unfold getProjectFileType. cbv zeta.
  repeat (case_match; try done).
Qed.

(** X10: [getProjectFileType] never answers [Lib].  It answers
    [Definition] exactly for the names whose extension is [.ts] and that end
    in [.d.ts], [TypeScript] exactly for the other names with the extension
    [.ts], and [PlainText] exactly for the names whose extension is none of
    the six it knows (the comparison is exact: another case of the letters is
    another extension). *)
Theorem getProjectFileType_kinds (h : Host) (name : string) :
  getProjectFileType h name ≠ ProjectFileType.Lib
  ∧ (getProjectFileType h name = ProjectFileType.Definition_
     ↔ path_extname h name = ".ts" ∧ JS.endsWith ".d.ts" name = true)
  ∧ (getProjectFileType h name = ProjectFileType.TypeScript
     ↔ path_extname h name = ".ts" ∧ JS.endsWith ".d.ts" name = false)
  ∧ (getProjectFileType h name = ProjectFileType.PlainText
     ↔ path_extname h name ∉ [".ts"; ".html"; ".css"; ".json"; ".xml"; ".md"]).
Proof.
  unfold getProjectFileType. cbv zeta.
  generalize (path_extname h name). intros ext.
  rewrite !not_elem_of_cons.
  destruct (String.eqb_spec ext ".ts") as [->|?].
  { destruct (JS.endsWith ".d.ts" name); naive_solver. }
  destruct (String.eqb_spec ext ".html") as [->|?]; [naive_solver |].
  destruct (String.eqb_spec ext ".css") as [->|?]; [naive_solver |].
  destruct (String.eqb_spec ext ".json") as [->|?]; [naive_solver |].
  destruct (String.eqb_spec ext ".xml") as [->|?]; [naive_solver |].
  destruct (String.eqb_spec ext ".md") as [->|?]; [naive_solver |].
  split_and!; try done; try naive_solver.
  split; [|done]. intros _. split_and!; try done. apply not_elem_of_nil.
Qed.

Section Kinds.

Context (h : Host) (w : World).

Lemma kindsOk_gather content st :
  kindsOk h (project st) → kindsOk h (project (gather h w content st).2).
Proof.
  set (R := λ st st' : State,
              kindsOk h (project st) → kindsOk h (project st')).
  assert (PreOrder R) as HR.
  { split; [intros s H; exact H | intros s1 s2 s3 H1 H2 H; exact (H2 (H1 H))]. }
  revert st. change (preserves R (gather h w content)).
  apply keeps_gather; try exact HR; unfold R.
  - intros line st. by rewrite project_verboseState.
  - by intros f st.
  - by intros name st.
  - intros name text type st Htype [Hfiles Henv]. split; [done |].
    cbn. apply Forall_app. split; [done |]. by apply Forall_singleton.
  - intros name text st [Hfiles Henv]. split; [|done].
    cbn. apply Forall_app. split; [done |]. by apply Forall_singleton.
  - by intros f st.
  - by intros f st.
Qed.

End Kinds.

(** X11: the kinds in a bundle.  The gathering phases push project files
    with the kind their name gives them, and environment files of the kinds
    [Lib], [JSON] and [Definition] only; so a bundle that [exportProject]
    writes has no project file of kind [Lib], every project file in it has
    the kind of its name, and every environment file in it is a library, a
    manifest or a definition. *)
Theorem bundle_kinds (h : Host) (w : World) :
  (∀ content st,
     kindsOk h (project st) → kindsOk h (project (gather h w content st).2))
  ∧ (∀ args st filename contents,
       written (exportProject h w args st).2
       = written st ++ [(filename, contents)] →
       ∃ p, contents = stringifyProject h p
            ∧ kindsOk h p
            ∧ Forall (λ f, ProjectFile.type f ≠ ProjectFileType.Lib)
                     (ProjectJson.files p)).
Proof.
  split; [apply kindsOk_gather |].
  intros args st filename contents.
  assert (∀ l (x : string * string), l ≠ l ++ [x]) as Hgrows.
  { intros l x Heq. apply (f_equal length) in Heq.
    rewrite length_app in Heq. simpl in Heq. lia. }
  destruct (exportProject_cases h w args st)
    as [(e & stE & Henter & ->)
       |[(initialCwd & stE & e & st1 & Henter & Hgather & ->)
        |(initialCwd & stE & r & st1 & Henter & Hgather & ->)]].
  - destruct (entered_facts h w _ _ _ _ Henter) as (Hw & _).
    cbn [snd appendConsole written]. rewrite Hw. intros Heq.
    by apply Hgrows in Heq.
  - destruct (entered_facts h w _ _ _ _ Henter) as (Hw & _).
    destruct (gathered_facts h w _ _ _ _ Hgather) as (Hw1 & _).
    cbn [snd appendConsole written]. rewrite Hw1, Hw. intros Heq.
    by apply Hgrows in Heq.
  - destruct (entered_facts h w _ _ _ _ Henter) as (Hw & _).
    destruct (gathered_facts h w _ _ _ _ Hgather) as (Hw1 & _).
    destruct (enter_returns h w _ _ _ _ Henter) as (_ & _ & Hfiles & Henv & _).
    destruct (setProjectIndex_keeps h (ExportArgs.index args) st1)
      as (Hw2 & _ & _ & Hfiles2 & Henv2 & _).
    assert (kindsOk h (project st1)) as [Hk1 Hk2].
    { pose proof (kindsOk_gather h w (ExportArgs.content args) stE) as Hk.
      rewrite Hgather in Hk. apply Hk. unfold kindsOk.
      rewrite Hfiles, Henv. by split. }
    rewrite run_finish_caught. cbv zeta.
    destruct (writeFile w _ _) as [err|];
      cbn [snd appendConsole addWritten written]; rewrite Hw2, Hw1, Hw.
    + intros Heq. by apply Hgrows in Heq.
    + intros [_ [= _ <-]]%app_inj_tail. eexists. split; [reflexivity |].
      unfold kindsOk. rewrite Hfiles2, Henv2. split_and!; [done | done |].
      eapply Forall_impl; [exact Hk1 |]. intros f ->.
      apply getProjectFileType_not_Lib.
Qed.

(** ** The collectors of environment files *)

Section EnvironmentCollectors.

Context (h : Host) (w : World).

Lemma addEnvironmentFiles_nil p : addEnvironmentFiles [] p = p.
Proof. destruct p. unfold addEnvironmentFiles. simpl. by rewrite app_nil_r. Qed.

Lemma addEnvironmentFiles_push file files p :
  addEnvironmentFiles files (ProjectJson.pushEnvironmentFile file p)
  = addEnvironmentFiles (file :: files) p.
Proof. unfold addEnvironmentFiles. simpl. by rewrite <- app_assoc. Qed.

Lemma addLibFiles_tasks st :
  addLibFiles h w st =
  match Tsconfig.compilerOptions (ProjectJson.tsconfig (project st))
        ≫= Tsconfig.lib with
  | Some libs => promiseAll (addLibFile h w <$> libs) st
  | None => (Ok [], st)
  end.
Proof.
  unfold addLibFiles. rewrite run_bind. cbn [gets].
  by destruct (_ ≫= Tsconfig.lib).
Qed.

Lemma addDefinitionFiles_tasks st :
  addDefinitionFiles h w st =
  match glob w definitionsGlob with
  | Returns files => promiseAll (addDefinitionFile h w <$> files) st
  | Throws e => (Throw e, st)
  end.
Proof.
  unfold addDefinitionFiles. rewrite run_bind. unfold getGlob.
  rewrite run_lift. fold definitionsGlob.
  by destruct (glob w definitionsGlob).
Qed.

Lemma run_addLibFile lib text st :
  fileData w !! libPath h lib = Some text →
  addLibFile h w lib st
  = (Ok tt,
     verboseState (libLine h lib)
       (pushedEnvironmentFile
          (ProjectFile.mk (libName lib) text ProjectFileType.Lib) st)).
Proof.
  intros Hfile. unfold addLibFile. cbv zeta. rewrite run_bind.
  rewrite (run_getFile_Some w (libPath h lib) text) by done.
  rewrite run_bind. unfold updateProject, modify. by rewrite run_verbose.
Qed.

Lemma run_addLibFile_missing lib st :
  fileData w !! libPath h lib = None →
  addLibFile h w lib st = (Throw (readError w (libPath h lib)), st).
Proof.
  intros Hfile. unfold addLibFile. cbv zeta. rewrite run_bind.
  by rewrite (run_getFile_None w (libPath h lib)).
Qed.

Lemma run_addLibFiles_tasks libs : ∀ texts st,
  Forall2 (λ lib text, fileData w !! libPath h lib = Some text) libs texts →
  ∃ r st',
    promiseAll (addLibFile h w <$> libs) st = (Ok r, st')
    ∧ project st'
      = addEnvironmentFiles
          (zip_with (λ lib text,
             ProjectFile.mk (libName lib) text ProjectFileType.Lib) libs texts)
          (project st)
    ∧ console st'
      = console st ++ (if verboseFlag st then libLine h <$> libs else [])
    ∧ verboseFlag st' = verboseFlag st
    ∧ written st' = written st ∧ cwd st' = cwd st.
Proof.
  induction libs as [|lib libs IH]; intros texts st Hread.
  - apply Forall2_nil_inv_l in Hread as ->. exists [], st.
    rewrite addEnvironmentFiles_nil. split_and!; try done.
    destruct (verboseFlag st); by rewrite app_nil_r.
  - apply Forall2_cons_inv_l in Hread as (text & texts' & Hfile & Hread & ->).
    rewrite fmap_cons.
    pose proof (run_addLibFile lib text st Hfile) as Hone.
    match type of Hone with _ = (_, ?s) =>
      destruct (IH texts' s Hread)
        as (r & st' & Hrest & Hproject & Hconsole & Hflag & Hw & Hc)
    end.
    exists (tt :: r), st'. split; [by eapply run_promiseAll_cons |].
    rewrite Hproject, Hconsole, Hflag, Hw, Hc.
    rewrite project_verboseState, console_verboseState,
      !verboseFlag_verboseState, written_verboseState, cwd_verboseState.
    cbn [pushedEnvironmentFile setProject project console verboseFlag written
         cwd zip_with].
    rewrite addEnvironmentFiles_push. split_and!; try done.
    destruct (verboseFlag st); by rewrite <- ?app_assoc.
Qed.

Lemma run_addDefinitionFile_excluded filename st :
  DOJO_EXCLUDE filename = true →
  addDefinitionFile h w filename st = (Ok tt, st).
Proof. intros Hex. unfold addDefinitionFile. by rewrite Hex. Qed.

Lemma run_addDefinitionFile filename text st :
  DOJO_EXCLUDE filename = false →
  fileData w !! filename = Some text →
  addDefinitionFile h w filename st
  = (Ok tt,
     verboseState (definitionLine h filename)
       (pushedEnvironmentFile
          (ProjectFile.mk filename text ProjectFileType.Definition_) st)).
Proof.
  intros Hex Hfile. unfold addDefinitionFile. rewrite Hex, run_bind.
  rewrite (run_getFile_Some w filename text) by done.
  rewrite run_bind. unfold updateProject, modify. by rewrite run_verbose.
Qed.

Lemma run_addDefinitionFile_missing filename st :
  DOJO_EXCLUDE filename = false →
  fileData w !! filename = None →
  addDefinitionFile h w filename st = (Throw (readError w filename), st).
Proof.
  intros Hex Hfile. unfold addDefinitionFile. rewrite Hex, run_bind.
  by rewrite (run_getFile_None w filename).
Qed.

Lemma run_addDefinitionFiles_tasks found : ∀ texts st,
  Forall2 (λ name text, fileData w !! name = Some text)
          (filter (λ f, DOJO_EXCLUDE f = false) found) texts →
  ∃ r st',
    promiseAll (addDefinitionFile h w <$> found) st = (Ok r, st')
    ∧ project st'
      = addEnvironmentFiles
          (zip_with (λ name text,
             ProjectFile.mk name text ProjectFileType.Definition_)
             (filter (λ f, DOJO_EXCLUDE f = false) found) texts)
          (project st)
    ∧ console st'
      = console st
        ++ (if verboseFlag st
            then definitionLine h <$> filter (λ f, DOJO_EXCLUDE f = false) found
            else [])
    ∧ verboseFlag st' = verboseFlag st
    ∧ written st' = written st ∧ cwd st' = cwd st.
Proof.
  induction found as [|name found IH]; intros texts st Hread.
  - apply Forall2_nil_inv_l in Hread as ->. exists [], st.
    rewrite addEnvironmentFiles_nil. split_and!; try done.
    destruct (verboseFlag st); by rewrite app_nil_r.
  - rewrite fmap_cons. destruct (DOJO_EXCLUDE name) eqn:Hex.
    + rewrite filter_cons_False in Hread |- * by (rewrite Hex; done).
      destruct (IH texts st Hread) as (r & st' & Hrest & Hfacts).
      exists (tt :: r), st'. split; [|done].
      eapply run_promiseAll_cons; [|exact Hrest].
      by apply run_addDefinitionFile_excluded.
    + rewrite filter_cons_True in Hread |- * by done.
      apply Forall2_cons_inv_l in Hread as (text & texts' & Hfile & Hread & ->).
      pose proof (run_addDefinitionFile name text st Hex Hfile) as Hone.
      match type of Hone with _ = (_, ?s) =>
        destruct (IH texts' s Hread)
          as (r & st' & Hrest & Hproject & Hconsole & Hflag & Hw & Hc)
      end.
      exists (tt :: r), st'. split; [by eapply run_promiseAll_cons |].
      rewrite Hproject, Hconsole, Hflag, Hw, Hc.
      rewrite project_verboseState, console_verboseState,
        !verboseFlag_verboseState, written_verboseState, cwd_verboseState.
      cbn [pushedEnvironmentFile setProject project console verboseFlag written
           cwd zip_with].
      rewrite addEnvironmentFiles_push. split_and!; try done.
      destruct (verboseFlag st); by rewrite <- ?app_assoc.
Qed.

End EnvironmentCollectors.

(** X12: [addLibFiles] adds the libraries that [compilerOptions.lib]
    names: when each [lib.<name>.d.ts] can be read from
    [node_modules/typescript/lib], it appends for each an environment file of
    kind [Lib], named [lib.<name>.d.ts] without the directory, with the text
    of the file; it prints one verbose line per library and changes nothing
    else.  The entries and the lines come as the reads complete: they are
    those of the list up to their order.  Without [compilerOptions] or
    without its [lib] it does nothing. *)
Theorem addLibFiles_collects (h : Host) (w : World) (st : State) :
  (∀ libs texts,
     Tsconfig.compilerOptions (ProjectJson.tsconfig (project st))
       ≫= Tsconfig.lib = Some libs →
     Forall2 (λ lib text,
                fileData w !! path_join h ["node_modules"; "typescript"; "lib";
                                           "lib." +:+ lib +:+ ".d.ts"]
                = Some text) libs texts →
     ∃ r st' added lines,
       addLibFiles h w st = (Ok r, st')
       ∧ project st' = addEnvironmentFiles added (project st)
       ∧ added ≡ₚ zip_with (λ lib text,
                     ProjectFile.mk ("lib." +:+ lib +:+ ".d.ts") text
                                    ProjectFileType.Lib) libs texts
       ∧ console st' = console st ++ lines
       ∧ lines ≡ₚ (if verboseFlag st then libLine h <$> libs else [])
       ∧ written st' = written st)
  ∧ (Tsconfig.compilerOptions (ProjectJson.tsconfig (project st))
       ≫= Tsconfig.lib = None →
     addLibFiles h w st = (Ok [], st)).
Proof.
  split.
  - intros libs texts Hlibs Hread. rewrite addLibFiles_tasks, Hlibs.
    destruct (run_addLibFiles_tasks h w libs texts st Hread)
      as (r & st' & Hrun & Hproject & Hconsole & _ & Hw & _).
    by eexists r, st', _, _.
  - intros Hlibs. by rewrite addLibFiles_tasks, Hlibs.
Qed.

(** X13: [addDefinitionFiles] adds what the pattern
    [node_modules/{@dojo,@types}/**/*.d.ts] matches, except the paths that
    [DOJO_EXCLUDE] accepts: when the other matches can be read, it appends
    for each an environment file of kind [Definition] under the matched path
    and prints one verbose line; entries and lines come as the reads
    complete, so they are those of the matches up to their order.  An
    excluded path is not even read, so it need not be readable.  When the
    glob fails, so does the phase, and nothing has changed. *)
Theorem addDefinitionFiles_collects (h : Host) (w : World) (st : State) :
  (∀ found texts,
     glob w "node_modules/{@dojo,@types}/**/*.d.ts" = Returns found →
     let kept := filter (λ f, DOJO_EXCLUDE f = false) found in
     Forall2 (λ name text, fileData w !! name = Some text) kept texts →
     ∃ r st' added lines,
       addDefinitionFiles h w st = (Ok r, st')
       ∧ project st' = addEnvironmentFiles added (project st)
       ∧ added ≡ₚ zip_with (λ name text,
                     ProjectFile.mk name text ProjectFileType.Definition_)
                     kept texts
       ∧ console st' = console st ++ lines
       ∧ lines ≡ₚ (if verboseFlag st then definitionLine h <$> kept else [])
       ∧ written st' = written st)
  ∧ (∀ e,
       glob w "node_modules/{@dojo,@types}/**/*.d.ts" = Throws e →
       addDefinitionFiles h w st = (Throw e, st)).
Proof.
  split.
  - intros found texts Hglob kept Hread.
    rewrite addDefinitionFiles_tasks. unfold definitionsGlob. rewrite Hglob.
    destruct (run_addDefinitionFiles_tasks h w found texts st Hread)
      as (r & st' & Hrun & Hproject & Hconsole & _ & Hw & _).
    by eexists r, st', _, _.
  - intros e Hglob. rewrite addDefinitionFiles_tasks. unfold definitionsGlob.
    by rewrite Hglob.
Qed.

(** ** [createProject] *)

Section CreateProject.

Context (h : Host) (w : World).

Lemma run_read {A} (parse : string → result A) filename a st :
  readGives w parse filename a →
  (text ← getFile w filename; lift (parse text)) st = (Ok a, st).
Proof.
  intros (text & Hfile & Hparse). rewrite run_bind.
  rewrite (run_getFile_Some w filename text) by done.
  by rewrite run_lift, Hparse.
Qed.

Lemma run_read_fails {A} (parse : string → result A) filename e st :
  readFails w parse filename e →
  (text ← getFile w filename; lift (parse text)) st = (Throw e, st).
Proof.
  intros [[Hfile ->]|(text & Hfile & Hparse)]; rewrite run_bind.
  - by rewrite (run_getFile_None w filename).
  - rewrite (run_getFile_Some w filename text) by done.
    by rewrite run_lift, Hparse.
Qed.

(** [createProject] once both required files are there: a chain of three
    reads, the third one optional. *)
Lemma run_createProject st :
  access w "package.json" = true →
  access w "tsconfig.json" = true →
  createProject h w st =
  let st1 := verboseState (readingLine h "package.json") st in
  match (text ← getFile w "package.json"; lift (parsePackageJson h text)) st1 with
  | (Ok package, _) =>
      let st2 := verboseState (readingLine h "tsconfig.json") st1 in
      match (text ← getFile w "tsconfig.json"; lift (parseTsconfig h text)) st2
      with
      | (Ok tsconfig, _) =>
          if access w ".dojorc" then
            let st3 := verboseState (readingLine h ".dojorc") st2 in
            match (text ← getFile w ".dojorc"; lift (parseJson h text)) st3 with
            | (Ok value, _) =>
                (Ok (createdProject package tsconfig (Some value)), st3)
            | (Throw e, _) => (Throw e, st3)
            | (OutOfFuel, _) => (OutOfFuel, st3)
            end
          else (Ok (createdProject package tsconfig None), st2)
      | (Throw e, _) => (Throw e, st2)
      | (OutOfFuel, _) => (OutOfFuel, st2)
      end
  | (Throw e, _) => (Throw e, st1)
  | (OutOfFuel, _) => (OutOfFuel, st1)
  end.
Proof.
  intros Hpackage Htsconfig. unfold createProject, exists_. run.
  rewrite Hpackage. run. rewrite Htsconfig. cbn [negb]. run.
  fold (readingLine h "package.json"). unfold getFile at 1 4.
  destruct (fileData w !! "package.json") as [packageText|]; run; [|done].
  destruct (parsePackageJson h packageText) as [package|e]; run; [|done].
  fold (readingLine h "tsconfig.json"). unfold getFile at 1 3.
  destruct (fileData w !! "tsconfig.json") as [tsconfigText|]; run; [|done].
  destruct (parseTsconfig h tsconfigText) as [tsconfig|e]; run; [|done].
  destruct (access w ".dojorc"); run; [|done].
  fold (readingLine h ".dojorc"). unfold getFile.
  destruct (fileData w !! ".dojorc") as [dojorcText|]; run; [|done].
  by destruct (parseJson h dojorcText) as [value|e]; run.
Qed.

End CreateProject.

(** X14: [createProject] with both required files readable.  The bundle it
    returns holds the parsed manifest and the parsed configuration and is
    otherwise empty: no dependencies, no files, no environment files, an
    empty index.  [.dojorc] is optional: when it cannot be accessed the
    bundle has no [dojorc] and the file is not read; when it can, the bundle
    holds its parsed contents.  On the verbose channel a [reading] line goes
    before each file that is read; nothing else changes. *)
Theorem createProject_reads (h : Host) (w : World) (st : State)
    (package : PackageJson.t) (tsconfig : Tsconfig.t) :
  access w "package.json" = true →
  access w "tsconfig.json" = true →
  readGives w (parsePackageJson h) "package.json" package →
  readGives w (parseTsconfig h) "tsconfig.json" tsconfig →
  let st2 := verboseState (readingLine h "tsconfig.json")
               (verboseState (readingLine h "package.json") st) in
  (access w ".dojorc" = false →
   createProject h w st
   = (Ok (ProjectJson.mk (ProjectJson.mkDependencies [] []) [] [] EmptyString
                         package tsconfig None), st2))
  ∧ (∀ value,
       access w ".dojorc" = true →
       readGives w (parseJson h) ".dojorc" value →
       createProject h w st
       = (Ok (ProjectJson.mk (ProjectJson.mkDependencies [] []) [] []
                             EmptyString package tsconfig (Some value)),
          verboseState (readingLine h ".dojorc") st2))
  ∧ project st2 = project st ∧ written st2 = written st ∧ cwd st2 = cwd st
  ∧ console st2
    = console st
      ++ (if verboseFlag st
          then [readingLine h "package.json"; readingLine h "tsconfig.json"]
          else []).
Proof.
  intros Hpackage Htsconfig Hmanifest Hconfig st2.
  split_and!.
  - intros Hdojorc. rewrite run_createProject by done. cbv zeta.
    rewrite (run_read w _ _ _ _ Hmanifest), (run_read w _ _ _ _ Hconfig).
    by rewrite Hdojorc.
  - intros value Hdojorc Hvalue. rewrite run_createProject by done. cbv zeta.
    rewrite (run_read w _ _ _ _ Hmanifest), (run_read w _ _ _ _ Hconfig).
    by rewrite Hdojorc, (run_read w _ _ _ _ Hvalue).
  - unfold st2. by rewrite !project_verboseState.
  - unfold st2. by rewrite !written_verboseState.
  - unfold st2. by rewrite !cwd_verboseState.
  - unfold st2. rewrite !console_verboseState, verboseFlag_verboseState.
    destruct (verboseFlag st); by rewrite <- ?app_assoc, ?app_nil_r.
Qed.

Section ConfigurationFailures.

Context (h : Host) (w : World).

(** An error of [createProject] goes to the handler. *)
Lemma exportProject_createProject_throws args st dir e :
  chdir w (cwd st) (ExportArgs.project args) = Returns dir →
  (∀ st1, (createProject h w st1).1 = Throw e) →
  ∃ st',
    exportProject h w args st = (Ok tt, st')
    ∧ written st' = written st
    ∧ ∃ before, console st' = before ++ erroredLines h e.
Proof.
  intros Hchdir Hcreate.
  pose proof (run_enter_chdir h w args (started h args st) dir Hchdir)
    as Henter.
  cbv zeta in Henter.
  match type of Henter with context [createProject h w ?s] =>
    specialize (Hcreate s);
    destruct (createProject h w s) as [[created|e'|] st2]
  end; simpl in Hcreate; try done. injection Hcreate as ->.
  destruct (entered_facts h w _ _ _ _ Henter) as (Hw & _).
  rewrite (exportProject_enter_throws h w _ _ _ _ Henter).
  eexists. split; [reflexivity |]. split; [done |]. by eexists.
Qed.

Lemma createProject_fails st e :
  access w "package.json" = true →
  access w "tsconfig.json" = true →
  readFails w (parsePackageJson h) "package.json" e
  ∨ (∃ package,
       readGives w (parsePackageJson h) "package.json" package
       ∧ (readFails w (parseTsconfig h) "tsconfig.json" e
          ∨ ∃ tsconfig,
              readGives w (parseTsconfig h) "tsconfig.json" tsconfig
              ∧ access w ".dojorc" = true
              ∧ readFails w (parseJson h) ".dojorc" e)) →
  (createProject h w st).1 = Throw e.
Proof.
  intros Hpackage Htsconfig Hfail. rewrite run_createProject by done.
  cbv zeta.
  destruct Hfail as [Hfail|(package & Hmanifest & Hfail)].
  { by rewrite (run_read_fails w _ _ _ _ Hfail). }
  rewrite (run_read w _ _ _ _ Hmanifest).
  destruct Hfail as [Hfail|(tsconfig & Hconfig & Hdojorc & Hfail)].
  { by rewrite (run_read_fails w _ _ _ _ Hfail). }
  rewrite (run_read w _ _ _ _ Hconfig), Hdojorc.
  by rewrite (run_read_fails w _ _ _ _ Hfail).
Qed.

End ConfigurationFailures.

(** X15: the existence check of [createProject] is not the read.  When
    both required files can be accessed but the manifest, or after it the
    configuration, or after both an accessible [.dojorc], cannot be read or
    is not valid JSON, [createProject] throws the error of that read or
    parse; [exportProject] then prints it through its handler and writes no
    file.  So an optional [.dojorc] that is there and malformed makes the
    whole export fail. *)
Theorem configuration_failure_aborts (h : Host) (w : World)
    (args : ExportArgs.t) (st : State) (dir : string) (e : JsError) :
  chdir w (cwd st) (ExportArgs.project args) = Returns dir →
  access w "package.json" = true →
  access w "tsconfig.json" = true →
  readFails w (parsePackageJson h) "package.json" e
  ∨ (∃ package,
       readGives w (parsePackageJson h) "package.json" package
       ∧ (readFails w (parseTsconfig h) "tsconfig.json" e
          ∨ ∃ tsconfig,
              readGives w (parseTsconfig h) "tsconfig.json" tsconfig
              ∧ access w ".dojorc" = true
              ∧ readFails w (parseJson h) ".dojorc" e)) →
  (∀ st1, (createProject h w st1).1 = Throw e)
  ∧ ∃ st',
      exportProject h w args st = (Ok tt, st')
      ∧ written st' = written st
      ∧ ∃ before, console st' = before ++ erroredLines h e.
Proof.
  intros Hchdir Hpackage Htsconfig Hfail.
  assert (∀ st1, (createProject h w st1).1 = Throw e) as Hcreate
    by (intros st1; by apply createProject_fails).
  split; [done |]. by eapply exportProject_createProject_throws.
Qed.

(** ** More on the explicit types *)

(** X16: for a requested types package whose manifest names an entry point,
    and whose entry point resolves and can be read, the task of
    [addTypesFiles] appends two environment files: the manifest, of kind
    [JSON], under its path relative to the working directory and with the
    parsed manifest serialised again as its text, and then the entry point,
    of kind [Definition], under its relative path.  It prints two verbose
    lines and no warning.  The entry point is [typings] when that is a
    non-empty string, and [types] otherwise. *)
Theorem types_with_entry_point (h : Host) (w : World)
    (packageName : string) (st : State)
    (resolved manifestText : string) (packageJson : PackageJson.t)
    (entryPoint entry text : string) :
  requireResolve w (path_join h [packageName; "package.json"]) = Returns resolved →
  fileData w !! path_relative h (cwd st) resolved = Some manifestText →
  parsePackageJson h manifestText = Returns packageJson →
  JS.truthy_value (JS.or_else (PackageJson.typings packageJson)
                              (PackageJson.types packageJson))
    = Some entryPoint →
  requireResolve w (path_normalize h (path_join h [packageName; entryPoint]))
    = Returns entry →
  fileData w !! path_relative h (cwd st) entry = Some text →
  (∃ st',
     addTypesFile h w packageName st = (Ok tt, st')
     ∧ ProjectJson.environmentFiles (project st')
       = ProjectJson.environmentFiles (project st)
         ++ [ProjectFile.mk (path_relative h (cwd st) resolved)
               (stringifyPackageJson h packageJson) ProjectFileType.JSON;
             ProjectFile.mk (path_relative h (cwd st) entry) text
               ProjectFileType.Definition_]
     ∧ ProjectJson.files (project st') = ProjectJson.files (project st)
     ∧ console st'
       = console st
         ++ (if verboseFlag st
             then [typesResolvingLine h packageName;
                   typeFileLine h (path_relative h (cwd st) entry)]
             else [])
     ∧ written st' = written st)
  ∧ (∀ typings, PackageJson.typings packageJson = Some typings →
                typings ≠ EmptyString → entryPoint = typings)
  ∧ (PackageJson.typings packageJson = None
     ∨ PackageJson.typings packageJson = Some EmptyString →
     PackageJson.types packageJson = Some entryPoint).
Proof.
  intros Hresolve Hfile Hparse Hentry Htarget Htext. split_and!.
  - rewrite (run_addTypesFile h w _ _ _ _ _ Hresolve Hfile Hparse).
    rewrite Hentry. cbv zeta. rewrite Htarget, Htext.
    eexists. split; [reflexivity |].
    rewrite project_verboseState, console_verboseState, written_verboseState.
    unfold pushedEnvironmentFile.
    cbn [setProject project console written verboseFlag
         ProjectJson.pushEnvironmentFile ProjectJson.environmentFiles
         ProjectJson.files].
    rewrite project_verboseState, console_verboseState, written_verboseState,
      verboseFlag_verboseState.
    split_and!; [by rewrite <- app_assoc | done | | done].
    destruct (verboseFlag st); by rewrite <- ?app_assoc, ?app_nil_r.
  - intros typings Htypings Hne. rewrite Htypings in Hentry.
    destruct typings; [done |]. cbn in Hentry. by injection Hentry.
  - intros [Htypings|Htypings]; rewrite Htypings in Hentry; cbn in Hentry;
      destruct (PackageJson.types packageJson) as [[|c t]|]; by simplify_eq.
Qed.

Section TypesManifest.

Context (h : Host) (w : World).

Lemma run_addTypesFile_manifest_fails packageName st e :
  requireResolve w (path_join h [packageName; "package.json"]) = Throws e
  ∨ (∃ resolved,
       requireResolve w (path_join h [packageName; "package.json"])
         = Returns resolved
       ∧ readFails w (parsePackageJson h) (path_relative h (cwd st) resolved) e) →
  addTypesFile h w packageName st
  = (Throw e, verboseState (typesResolvingLine h packageName) st).
Proof.
  intros Hfail. unfold addTypesFile. run.
  fold (typesResolvingLine h packageName).
  destruct Hfail as [->|(resolved & -> & Hfail)]; run; [done |].
  rewrite cwd_verboseState. unfold getFile.
  destruct Hfail as [[-> ->]|(text & -> & Hparse)]; run; [done |].
  rewrite Hparse. by run.
Qed.

End TypesManifest.

(** X17: in [addTypesFiles] a requested package whose manifest cannot be
    resolved, read or parsed is not skipped, unlike a dependency in
    [getDependencies]: the task throws that error and appends nothing, the
    gathering rejects, and [exportProject] prints an error through its
    handler and writes no file. *)
Theorem types_manifest_failure (h : Host) (w : World) (args : ExportArgs.t)
    (st0 stE : State) (initialCwd : string) (types : list string)
    (packageName : string) (e : JsError) :
  enter h w args (started h args st0) = (Ok initialCwd, stE) →
  Tsconfig.compilerOptions (ProjectJson.tsconfig (project stE)) ≫= Tsconfig.types
    = Some types →
  packageName ∈ types →
  requireResolve w (path_join h [packageName; "package.json"]) = Throws e
  ∨ (∃ resolved,
       requireResolve w (path_join h [packageName; "package.json"])
         = Returns resolved
       ∧ readFails w (parsePackageJson h)
                   (path_relative h (cwd stE) resolved) e) →
  (∀ st, cwd st = cwd stE →
     ∃ st', addTypesFile h w packageName st = (Throw e, st')
            ∧ project st' = project st)
  ∧ (∃ e' st', gather h w (ExportArgs.content args) stE = (Throw e', st'))
  ∧ (∃ e' st',
       exportProject h w args st0 = (Ok tt, st')
       ∧ written st' = written st0
       ∧ ∃ before, console st' = before ++ erroredLines h e').
Proof.
  intros Henter Htypes Hin Hfail.
  assert (∀ st, cwd st = cwd stE →
            ∃ st', addTypesFile h w packageName st = (Throw e, st')
                   ∧ project st' = project st) as Htask.
  { intros st Hcwd. rewrite <- Hcwd in Hfail.
    rewrite (run_addTypesFile_manifest_fails h w _ _ e Hfail).
    eexists. split; [reflexivity | apply project_verboseState]. }
  assert (∃ e' st', gather h w (ExportArgs.content args) stE = (Throw e', st'))
    as (e' & st1 & Hgather).
  { destruct (gather_rejects h w (ExportArgs.content args) packageName types
                (cwd stE) Hin) with (st := stE) as [e' He]; [| done | done |].
    - intros st Hcwd. destruct (Htask st Hcwd) as (st' & -> & _). by exists e.
    - destruct (gather h w _ stE) as [r st1]. simpl in He. subst r.
      by exists e', st1. }
  split_and!; [done | by exists e', st1 |].
  exists e'. eexists. split; [by eapply exportProject_gather_throws |].
  split; [|by eexists]. cbn [appendConsole written].
  destruct (entered_facts h w _ _ _ _ Henter) as (Hw & _).
  destruct (gathered_facts h w _ _ _ _ Hgather) as (Hw1 & _). congruence.
Qed.

(** ** More on the dependency resolver *)


(** X18: what [getDependencies] visits and what it returns.  Call reached
    the names of the frontier and, for every reached name that was not
    visited before the call and whose manifest can be loaded, the names
    other than [__proto__] that manifest declares as peer or regular
    dependencies.  Then the manifests looked up in a call are exactly those
    of the reached names that were not visited before; the visited set
    afterwards is the one before together with the reached names; and the
    names in the result are exactly the names other than [__proto__] declared
    by the manifests that were loaded.  The names of the frontier itself are
    in the result only if such a manifest declares them; a declared
    [__proto__] is neither stored nor looked up. *)
Theorem getDependencies_closure (h : Host) (w : World)
    (packages : StringMap) (parsedPackages : gset string) (st : State) :
  ∃ result parsedPackages' st' new,
    getDependencies h w packages parsedPackages st
      = (Ok (result, parsedPackages'), st')
    ∧ lookups st' = lookups st ++ new
    ∧ (∀ x, x ∈ new ↔ reaches h w parsedPackages packages x
                       ∧ x ∉ parsedPackages)
    ∧ (∀ x, x ∈ parsedPackages'
            ↔ x ∈ parsedPackages ∨ reaches h w parsedPackages packages x)
    ∧ (∀ x, x ∈ StringMap.keys result ↔
         ∃ name packageJson,
           reaches h w parsedPackages packages name
           ∧ (name ∉ parsedPackages)
           ∧ manifestOf h w name = Returns packageJson
           ∧ x ∈ declared packageJson ∧ x ≠ StringMap.proto).
Proof.
  destruct (getDependencies_reaches h w packages parsedPackages st)
    as (result & parsed' & st' & new & Hrun & Hlook & _ & _ & Hparsed & Hnew
        & Hkeys & _).
  by exists result, parsed', st', new.
Qed.

(** X19: where the versions come from.  The result of [getDependencies]
    has each name once, and the version it gives a name is one that the
    manifest of a reached package, loaded in this call, declares for that
    name among its peer or its regular dependencies; no version is made up
    and none is taken from the frontier that was passed in. *)
Theorem getDependencies_versions (h : Host) (w : World)
    (packages : StringMap) (parsedPackages : gset string) (st : State) :
  ∃ result parsedPackages' st',
    getDependencies h w packages parsedPackages st
      = (Ok (result, parsedPackages'), st')
    ∧ NoDup (StringMap.keys result)
    ∧ ∀ x v,
        StringMap.get x result = Some v →
        ∃ name packageJson,
          reaches h w parsedPackages packages name
          ∧ (name ∉ parsedPackages)
          ∧ manifestOf h w name = Returns packageJson
          ∧ declares packageJson x v.
Proof.
  destruct (getDependencies_reaches h w packages parsedPackages st)
    as (result & parsed' & st' & new & Hrun & _ & _ & Hnd & _ & _ & _
        & Hversions).
  exists result, parsed', st'. split_and!; [done | done |].
  intros x v Hget. by apply Hversions, get_Some_elem_of.
Qed.

Section Visited.

Context (h : Host) (w : World).

Lemma forIn_visited names : ∀ acc (parsed : gset string) st,
  (∀ x, x ∈ names → x ∈ parsed) →
  ∃ st',
    forIn h w names acc parsed st = (Ok (acc, parsed), st')
    ∧ lookups st' = lookups st
    ∧ console st'
      = console st ++ (if verboseFlag st then skippingLine h <$> names else [])
    ∧ verboseFlag st' = verboseFlag st
    ∧ project st' = project st ∧ written st' = written st ∧ cwd st' = cwd st.
Proof.
  induction names as [|name names IH]; intros acc parsed st Hall.
  - exists st. split_and!; try done.
    destruct (verboseFlag st); by rewrite app_nil_r.
  - rewrite forIn_skip by (apply Hall, list_elem_of_here).
    destruct (IH acc parsed (verboseState (skippingLine h name) st))
      as (st' & Hrun & Hlook & Hconsole & Hflag & Hproject & Hw & Hc).
    { intros x Hx. by apply Hall, list_elem_of_further. }
    exists st'. rewrite Hrun, Hlook, Hconsole, Hflag, Hproject, Hw, Hc.
    rewrite lookups_verboseState, console_verboseState,
      !verboseFlag_verboseState, project_verboseState, written_verboseState,
      cwd_verboseState.
    split_and!; try done.
    destruct (verboseFlag st); by rewrite <- ?app_assoc.
Qed.

End Visited.

(** X20: when every name of the frontier was visited before (in particular
    when the frontier is empty), [getDependencies] loads nothing: the result
    is empty, the visited set is as before, no manifest is looked up, and the
    only output is one [skipping] line per name on the verbose channel. *)
Theorem visited_frontier_resolves_nothing (h : Host) (w : World)
    (packages : StringMap) (parsedPackages : gset string) (st : State) :
  (∀ x, x ∈ StringMap.keys packages → x ∈ parsedPackages) →
  ∃ st',
    getDependencies h w packages parsedPackages st
      = (Ok ([], parsedPackages), st')
    ∧ lookups st' = lookups st
    ∧ console st'
      = console st
        ++ (if verboseFlag st
            then skippingLine h <$> StringMap.keys packages else [])
    ∧ project st' = project st ∧ written st' = written st.
Proof.
  intros Hall. unfold getDependencies. rewrite getDependenciesFuel_S.
  destruct (forIn_visited h w (StringMap.keys packages) [] parsedPackages st
              Hall)
    as (st' & Hrun & Hlook & Hconsole & _ & Hproject & Hw & _).
  rewrite Hrun. cbn [StringMap.nonEmpty]. by exists st'.
Qed.

Section AddDependenciesFacts.

Context (h : Host) (w : World).

Lemma reaches_empty (packages : StringMap) x :
  (∃ name packageJson,
     reaches h w ∅ packages name ∧ (name ∉ (∅ : gset string))
     ∧ manifestOf h w name = Returns packageJson ∧ x ∈ declared packageJson
     ∧ x ≠ StringMap.proto)
  ↔ ∃ name packageJson,
      reaches h w ∅ packages name
      ∧ manifestOf h w name = Returns packageJson ∧ x ∈ declared packageJson
      ∧ x ≠ StringMap.proto.
Proof.
  split.
  - intros (name & pj & ? & _ & ? & ? & ?). by exists name, pj.
  - intros (name & pj & ? & ? & ? & ?). exists name, pj.
    split_and!; [done | set_solver | done | done | done].
Qed.

End AddDependenciesFacts.

(** X21: the names [addDependencies] ends with.  The production set holds
    the names it held, the peer and regular dependencies of the project's own
    manifest, and the names declared by the manifests of everything reached
    from these; the development set holds the names it held, the
    [devDependencies] of the project, and the names that the manifests of
    everything reached from these declare as peer or regular dependencies
    (the [devDependencies] of a dependency are not followed).  A declared
    [__proto__] is the exception: it is not stored.  The phase touches
    nothing else: files, environment files, index, manifest, configuration
    and [dojorc] stay as they are, and nothing is written. *)
Theorem addDependencies_names (h : Host) (w : World) (st : State) :
  let p := project st in
  let seededP := merged (ProjectJson.production (ProjectJson.dependencies p))
                        (ProjectJson.package p) in
  let seededD := StringMap.assign
                   (ProjectJson.development (ProjectJson.dependencies p))
                   (PackageJson.devDependencies (ProjectJson.package p)) in
  ∃ st',
    addDependencies h w st = (Ok tt, st')
    ∧ (∀ x, x ∈ StringMap.keys
                  (ProjectJson.production (ProjectJson.dependencies (project st')))
            ↔ x ∈ StringMap.keys
                    (ProjectJson.production (ProjectJson.dependencies p))
              ∨ (x ∈ declared (ProjectJson.package p) ∧ x ≠ StringMap.proto)
              ∨ ∃ name packageJson,
                  reaches h w ∅ seededP name
                  ∧ manifestOf h w name = Returns packageJson
                  ∧ x ∈ declared packageJson ∧ x ≠ StringMap.proto)
    ∧ (∀ x, x ∈ StringMap.keys
                  (ProjectJson.development (ProjectJson.dependencies (project st')))
            ↔ x ∈ StringMap.keys
                    (ProjectJson.development (ProjectJson.dependencies p))
              ∨ (x ∈ StringMap.keys
                       (default [] (PackageJson.devDependencies
                                      (ProjectJson.package p)))
                 ∧ x ≠ StringMap.proto)
              ∨ ∃ name packageJson,
                  reaches h w ∅ seededD name
                  ∧ manifestOf h w name = Returns packageJson
                  ∧ x ∈ declared packageJson ∧ x ≠ StringMap.proto)
    ∧ ProjectJson.files (project st') = ProjectJson.files p
    ∧ ProjectJson.environmentFiles (project st') = ProjectJson.environmentFiles p
    ∧ ProjectJson.index (project st') = ProjectJson.index p
    ∧ ProjectJson.package (project st') = ProjectJson.package p
    ∧ ProjectJson.tsconfig (project st') = ProjectJson.tsconfig p
    ∧ ProjectJson.dojorc (project st') = ProjectJson.dojorc p
    ∧ written st' = written st.
Proof.
  cbv zeta.
  destruct (run_addDependencies h w st)
    as (stA & resolvedP & parsedP & stP & stB & resolvedD & parsedD & stD & st'
        & HrunP & HrunD & _ & _ & _ & Hrun & Hproject & Hw & _).
  cbv zeta in *.
  match type of HrunP with getDependencies _ _ ?packages _ _ = _ =>
    destruct (getDependencies_reaches h w packages ∅ stA)
      as (rP & pP & sP & nP & HrunP' & _ & _ & _ & _ & _ & HkeysP & _)
  end.
  rewrite HrunP in HrunP'. injection HrunP' as <- <- <-.
  match type of HrunD with getDependencies _ _ ?packages _ _ = _ =>
    destruct (getDependencies_reaches h w packages ∅ stB)
      as (rD & pD & sD & nD & HrunD' & _ & _ & _ & _ & _ & HkeysD & _)
  end.
  rewrite HrunD in HrunD'. injection HrunD' as <- <- <-.
  exists st'. rewrite Hproject.
  cbn [ProjectJson.production ProjectJson.development
       ProjectJson.dependencies ProjectJson.files ProjectJson.environmentFiles
       ProjectJson.index ProjectJson.package ProjectJson.tsconfig
       ProjectJson.dojorc].
  split_and!; try done.
  - intros x. rewrite elem_of_keys_assign, HkeysP, reaches_empty.
    rewrite elem_of_keys_merged. naive_solver.
  - intros x. rewrite elem_of_keys_assign, HkeysD, reaches_empty.
    destruct (PackageJson.devDependencies (ProjectJson.package (project st)))
      as [dev|]; cbn [default from_option id].
    + rewrite elem_of_keys_assign. naive_solver.
    + rewrite assign_None.
      change (StringMap.keys []) with (@nil string).
      rewrite elem_of_nil. naive_solver.
Qed.

(** X22: [addDependencies] clears the set of visited packages between its
    two resolutions.  The manifests it looks up are first those of
    everything reached from the production names, each once, and then those
    of everything reached from the development names, each once: a package
    reached from both is looked up twice.  (What is reached goes through the
    declared names other than [__proto__], which is never stored and so
    never looked up.) *)
Theorem addDependencies_lookups (h : Host) (w : World) (st : State) :
  let p := project st in
  let seededP := merged (ProjectJson.production (ProjectJson.dependencies p))
                        (ProjectJson.package p) in
  let seededD := StringMap.assign
                   (ProjectJson.development (ProjectJson.dependencies p))
                   (PackageJson.devDependencies (ProjectJson.package p)) in
  ∃ st' newP newD,
    addDependencies h w st = (Ok tt, st')
    ∧ lookups st' = lookups st ++ newP ++ newD
    ∧ NoDup newP ∧ NoDup newD
    ∧ (∀ x, x ∈ newP ↔ reaches h w ∅ seededP x)
    ∧ (∀ x, x ∈ newD ↔ reaches h w ∅ seededD x).
Proof.
  cbv zeta.
  destruct (run_addDependencies h w st)
    as (stA & resolvedP & parsedP & stP & stB & resolvedD & parsedD & stD & st'
        & HrunP & HrunD & HlA & HlB & Hl' & Hrun & _).
  cbv zeta in *.
  match type of HrunP with getDependencies _ _ ?packages _ _ = _ =>
    destruct (getDependencies_reaches h w packages ∅ stA)
      as (rP & pP & sP & newP & HrunP' & HlookP & HndP & _ & _ & HnewP & _)
  end.
  rewrite HrunP in HrunP'. injection HrunP' as <- <- <-.
  match type of HrunD with getDependencies _ _ ?packages _ _ = _ =>
    destruct (getDependencies_reaches h w packages ∅ stB)
      as (rD & pD & sD & newD & HrunD' & HlookD & HndD & _ & _ & HnewD & _)
  end.
  rewrite HrunD in HrunD'. injection HrunD' as <- <- <-.
  exists st', newP, newD. split_and!; try done.
  - by rewrite Hl', HlookD, HlB, HlookP, HlA, app_assoc.
  - intros x. rewrite HnewP. set_solver.
  - intros x. rewrite HnewD. set_solver.
Qed.

(** X23: the version of a dependency replaces the project's own.  When
    the manifest of some package reached from the production names declares
    a name other than [__proto__], the production set ends with a version
    for that name that such a manifest declares; the version the project's
    own manifest gives the name, if it gives one, is overwritten. *)
Theorem resolved_version_replaces_own (h : Host) (w : World) (st : State)
    (X : string) :
  let p := project st in
  let seededP := merged (ProjectJson.production (ProjectJson.dependencies p))
                        (ProjectJson.package p) in
  (∃ name packageJson,
     reaches h w ∅ seededP name
     ∧ manifestOf h w name = Returns packageJson
     ∧ X ∈ declared packageJson) →
  X ≠ StringMap.proto →
  ∃ st' v name packageJson,
    addDependencies h w st = (Ok tt, st')
    ∧ StringMap.get X (ProjectJson.production
                         (ProjectJson.dependencies (project st')))
      = Some v
    ∧ reaches h w ∅ seededP name
    ∧ manifestOf h w name = Returns packageJson
    ∧ declares packageJson X v.
Proof.
  cbv zeta. intros (name0 & pj0 & Hreach0 & Hm0 & Hd0) HX.
  assert (∃ name packageJson,
            reaches h w ∅
              (merged (ProjectJson.production
                         (ProjectJson.dependencies (project st)))
                      (ProjectJson.package (project st))) name
            ∧ manifestOf h w name = Returns packageJson
            ∧ X ∈ declared packageJson ∧ X ≠ StringMap.proto) as Hdeclared
    by (by exists name0, pj0).
  destruct (run_addDependencies h w st)
    as (stA & resolvedP & parsedP & stP & stB & resolvedD & parsedD & stD & st'
        & HrunP & HrunD & _ & _ & _ & Hrun & Hproject & _).
  cbv zeta in *.
  match type of HrunP with getDependencies _ _ ?packages _ _ = _ =>
    destruct (getDependencies_reaches h w packages ∅ stA)
      as (rP & pP & sP & nP & HrunP' & _ & _ & Hnd & _ & _ & Hkeys & Hversions)
  end.
  rewrite HrunP in HrunP'. injection HrunP' as <- <- <-.
  apply reaches_empty, Hkeys in Hdeclared.
  destruct (elem_of_keys_get X resolvedP Hdeclared) as [v Hget].
  destruct (Hversions X v (get_Some_elem_of _ _ _ Hget))
    as (name & pj & Hreach & _ & Hm & Hdecl).
  exists st', v, name, pj. rewrite Hproject.
  cbn [ProjectJson.production ProjectJson.development
       ProjectJson.dependencies ProjectJson.files ProjectJson.environmentFiles
       ProjectJson.index ProjectJson.package ProjectJson.tsconfig
       ProjectJson.dojorc].
  split_and!; [done | | done..]. by apply get_assign_present.
Qed.

Section FrontierOrder.

Context (h : Host) (w : World).

Lemma reaches_same_names (parsed : gset string) (packages1 packages2 : StringMap) x :
  (∀ y, y ∈ StringMap.keys packages1 → y ∈ StringMap.keys packages2) →
  reaches h w parsed packages1 x → reaches h w parsed packages2 x.
Proof.
  intros Hkeys. induction 1 as [y Hy|name pj y _ IH Hfresh Hm Hy].
  - apply reaches_frontier. by apply Hkeys.
  - by eapply reaches_declared.
Qed.

End FrontierOrder.

(** X27: of the frontier, [getDependencies] uses the names only, and for
    the names it finds their order does not matter.  Two frontiers with the
    same names in the same order give the same outcome and the same final
    state, whatever versions they carry.  Two frontiers with the same names
    in any order give results with the same names and the same visited set;
    the versions in the results may differ, since a later manifest
    overwrites an earlier one. *)
Theorem frontier_names_only (h : Host) (w : World)
    (packages1 packages2 : StringMap) (parsedPackages : gset string)
    (st : State) :
  (StringMap.keys packages1 = StringMap.keys packages2 →
   getDependencies h w packages1 parsedPackages st
   = getDependencies h w packages2 parsedPackages st)
  ∧ ((∀ x, x ∈ StringMap.keys packages1 ↔ x ∈ StringMap.keys packages2) →
     ∃ result1 result2 parsedPackages' st1 st2,
       getDependencies h w packages1 parsedPackages st
         = (Ok (result1, parsedPackages'), st1)
       ∧ getDependencies h w packages2 parsedPackages st
         = (Ok (result2, parsedPackages'), st2)
       ∧ ∀ x, x ∈ StringMap.keys result1 ↔ x ∈ StringMap.keys result2).
Proof.
  split.
  - intros Hkeys. unfold getDependencies, knownNames. rewrite Hkeys.
    generalize (length (StringMap.keys packages2
                        ++ concat ((λ kv, declaredNames h kv.2)
                                     <$> map_to_list (fileData w)))).
    intros n. by rewrite !getDependenciesFuel_S, Hkeys.
  - intros Hkeys.
    destruct (getDependencies_reaches h w packages1 parsedPackages st)
      as (r1 & p1 & s1 & n1 & Hrun1 & _ & _ & _ & Hparsed1 & _ & Hkeys1 & _).
    destruct (getDependencies_reaches h w packages2 parsedPackages st)
      as (r2 & p2 & s2 & n2 & Hrun2 & _ & _ & _ & Hparsed2 & _ & Hkeys2 & _).
    assert (∀ x, reaches h w parsedPackages packages1 x
                 ↔ reaches h w parsedPackages packages2 x) as Hreach.
    { intros x. split; apply reaches_same_names; intros y; apply Hkeys. }
    assert (p1 = p2) as ->.
    { apply set_eq. intros x. rewrite Hparsed1, Hparsed2, Hreach. done. }
    exists r1, r2, p2, s1, s2. split_and!; [done | done |].
    intros x. rewrite Hkeys1, Hkeys2. by setoid_rewrite Hreach.
Qed.

(** ** Failures of the collectors *)

Section CollectorFailures.

Context (h : Host) (w : World).

Lemma total_addLibFile lib : total (addLibFile h w lib).
Proof. unfold addLibFile. repeat total_step. Qed.

Lemma total_addDefinitionFile filename : total (addDefinitionFile h w filename).
Proof. unfold addDefinitionFile. repeat total_step. Qed.

(** A task that throws wherever it runs makes [Promise.all] reject. *)
Lemma promiseAll_rejects_anywhere {A C} (f : C → M A) (xs : list C) x :
  (∀ y, total (f y)) →
  x ∈ xs →
  (∀ st, ∃ e, (f x st).1 = Throw e) →
  ∀ st, ∃ e, (promiseAll (f <$> xs) st).1 = Throw e.
Proof.
  intros Htotal (before & after & ->)%list_elem_of_split Hthrows st.
  rewrite fmap_app, fmap_cons.
  apply (promiseAll_rejects (λ _, True)); [| | by intros | done].
  - apply Forall_fmap, Forall_forall. intros y _. apply Htotal.
  - by apply Forall_forall.
Qed.

Lemma addLibFiles_rejects libs lib st :
  Tsconfig.compilerOptions (ProjectJson.tsconfig (project st)) ≫= Tsconfig.lib
    = Some libs →
  lib ∈ libs →
  fileData w !! libPath h lib = None →
  ∃ e, (addLibFiles h w st).1 = Throw e.
Proof.
  intros Hlibs Hin Hfile. rewrite addLibFiles_tasks, Hlibs.
  apply (promiseAll_rejects_anywhere (addLibFile h w) libs lib);
    [apply total_addLibFile | done |].
  intros st'. rewrite run_addLibFile_missing by done. by eexists.
Qed.

Lemma addDefinitionFiles_rejects st :
  (∃ e, glob w definitionsGlob = Throws e)
  ∨ (∃ found filename,
       glob w definitionsGlob = Returns found
       ∧ filename ∈ found ∧ DOJO_EXCLUDE filename = false
       ∧ fileData w !! filename = None) →
  ∃ e, (addDefinitionFiles h w st).1 = Throw e.
Proof.
  intros [[e Hglob]|(found & filename & Hglob & Hin & Hex & Hfile)];
    rewrite addDefinitionFiles_tasks, Hglob; [by exists e |].
  apply (promiseAll_rejects_anywhere (addDefinitionFile h w) found filename);
    [apply total_addDefinitionFile | done |].
  intros st'. rewrite run_addDefinitionFile_missing by done. by eexists.
Qed.

Lemma addProjectFiles_rejects content st :
  (∃ include pattern e,
     Tsconfig.include (ProjectJson.tsconfig (project st)) = Some include
     ∧ pattern ∈ include
     ∧ glob w (includeGlob (default "ts,html,css,json,xml,md" content) pattern)
       = Throws e)
  ∨ (∃ include matches name,
       Tsconfig.include (ProjectJson.tsconfig (project st)) = Some include
       ∧ Forall2 (λ pattern found,
                    glob w (includeGlob
                              (default "ts,html,css,json,xml,md" content) pattern)
                    = Returns found) include matches
       ∧ name ∈ concat matches ∧ fileData w !! name = None) →
  ∃ e, (addProjectFiles h w content st).1 = Throw e.
Proof.
  intros [(include & pattern & e & Hinclude & Hin & Hglob)
         |(include & matches & name & Hinclude & Hglobs & Hin & Hfile)];
    unfold addProjectFiles; cbv zeta; rewrite run_bind; cbn [gets];
    rewrite Hinclude, run_bind.
  - match goal with |- context [promiseAll (?f <$> include) st] =>
      destruct (promiseAll_rejects_anywhere f include pattern) with (st := st)
        as [e' He']
    end.
    + intros y. apply total_getGlob.
    + done.
    + intros st'. unfold getGlob. rewrite run_lift, Hglob. by exists e.
    + destruct (promiseAll _ st) as [r st1]. simpl in He'. subst r.
      by exists e'.
  - rewrite (run_getGlobs w _ _ matches) by done.
    apply (promiseAll_rejects_anywhere (addProjectFile h w) (concat matches)
             name); [apply total_addProjectFile | done |].
    intros st'. unfold addProjectFile. rewrite run_bind.
    rewrite (run_getFile_None w name) by done. by eexists.
Qed.

Lemma tsconfig_gather_phase (m : M (list unit)) :
  preserves (sameOn (λ st, ProjectJson.tsconfig (project st))) m →
  ∀ st, ProjectJson.tsconfig (project ((m ;; mret tt) st).2)
        = ProjectJson.tsconfig (project st).
Proof.
  intros Hm st. specialize (Hm st). unfold sameOn in Hm. rewrite run_bind.
  by destruct (m st) as [[r|e|] st1].
Qed.

Lemma additive_tsconfig f st :
  additive f →
  sameOn (λ st, ProjectJson.tsconfig (project st)) st
         (setProject (f (project st)) st).
Proof. intros Hf. unfold sameOn. simpl. apply Hf. Qed.

Lemma gather_collector_fails content st :
  collectorFails h w content (project st) →
  ∃ e, (gather h w content st).1 = Throw e.
Proof.
  set (I := λ st' : State,
              ProjectJson.tsconfig (project st')
              = ProjectJson.tsconfig (project st)).
  assert (∀ m : M (list unit),
            preserves (sameOn (λ st, ProjectJson.tsconfig (project st))) m →
            ∀ st', I st' → I ((m ;; mret tt) st').2) as Hkeeps.
  { intros m Hm st' HI. unfold I in *.
    by rewrite tsconfig_gather_phase. }
  assert (∀ (m : M (list unit)) st',
            (∃ e, (m st').1 = Throw e) → ∃ e, ((m ;; mret tt) st').1 = Throw e)
    as Hthrows.
  { intros m st' [e He]. exists e. rewrite run_bind.
    destruct (m st') as [r st1]. simpl in He. by subst r. }
  assert (total (addLibFiles h w ;; mret tt)) as Htotal1.
  { apply total_bind; [apply total_addLibFiles | intros; apply total_mret]. }
  assert (total (addTypesFiles h w ;; mret tt)) as Htotal2.
  { apply total_bind; [apply total_addTypesFiles | intros; apply total_mret]. }
  assert (total (addDefinitionFiles h w ;; mret tt)) as Htotal3.
  { apply total_bind; [apply total_addDefinitionFiles
                      | intros; apply total_mret]. }
  assert (∀ st', I st' → I ((addLibFiles h w ;; mret tt) st').2) as Hkeeps1.
  { apply Hkeeps, preserves_addLibFiles; try exact _; try by intros.
    intros f st'. apply additive_tsconfig. }
  assert (∀ st', I st' → I ((addTypesFiles h w ;; mret tt) st').2) as Hkeeps2.
  { apply Hkeeps, preserves_addTypesFiles; try exact _; try by intros.
    intros f st'. apply additive_tsconfig. }
  assert (∀ st', I st' → I ((addDefinitionFiles h w ;; mret tt) st').2)
    as Hkeeps3.
  { apply Hkeeps, preserves_addDefinitionFiles; try exact _; try by intros.
    intros f st'. apply additive_tsconfig. }
  unfold gather.
  intros [(libs & lib & Hlibs & Hin & Hfile)|[Hdefs|[Hdefs|Hfiles]]].
  - match goal with |- context [promiseAll (?t1 :: ?rest)] =>
      change (promiseAll (t1 :: rest)) with (promiseAll ([] ++ t1 :: rest))
    end.
    apply (promiseAll_rejects I); [constructor | constructor | | done].
    intros st' HI. apply Hthrows.
    apply (addLibFiles_rejects libs lib); [|done..].
    unfold I in HI. by rewrite HI.
  - match goal with |- context [promiseAll (?t1 :: ?t2 :: ?t3 :: ?rest)] =>
      change (promiseAll (t1 :: t2 :: t3 :: rest))
        with (promiseAll ([t1; t2] ++ t3 :: rest))
    end.
    apply (promiseAll_rejects I); [by repeat constructor
                                  | by repeat constructor | | done].
    intros st' HI. apply Hthrows, addDefinitionFiles_rejects. by left.
  - match goal with |- context [promiseAll (?t1 :: ?t2 :: ?t3 :: ?rest)] =>
      change (promiseAll (t1 :: t2 :: t3 :: rest))
        with (promiseAll ([t1; t2] ++ t3 :: rest))
    end.
    apply (promiseAll_rejects I); [by repeat constructor
                                  | by repeat constructor | | done].
    intros st' HI. apply Hthrows, addDefinitionFiles_rejects. by right.
  - match goal with
    |- context [promiseAll (?t1 :: ?t2 :: ?t3 :: ?t4 :: ?rest)] =>
      change (promiseAll (t1 :: t2 :: t3 :: t4 :: rest))
        with (promiseAll ([t1; t2; t3] ++ t4 :: rest))
    end.
    apply (promiseAll_rejects I); [by repeat constructor
                                  | by repeat constructor | | done].
    intros st' HI. rewrite run_bind.
    assert (∃ st2, ((if default false (JS.truthy <$> content)
                     then verbose [indent 1 EmptyString;
                                   chalk h BoldBlue "setting";
                                   " project file extensions to "
                                   +:+ quoted (default EmptyString content)]
                     else mret tt) st') = (Ok tt, st2)
                   ∧ project st2 = project st') as (st2 & -> & Hp2).
    { destruct (default false (JS.truthy <$> content)).
      - rewrite run_verbose. eexists. split; [done |].
        apply project_verboseState.
      - by exists st'. }
    apply Hthrows, addProjectFiles_rejects. rewrite Hp2. unfold I in HI.
    by rewrite HI.
Qed.

End CollectorFailures.

(** X24: a read that fails in a collector phase makes the export fail.
    When a library of [compilerOptions.lib] is not in
    [node_modules/typescript/lib], when the glob of the definitions fails or
    one of its matches that is not excluded cannot be read, when the glob of
    an include pattern fails or a match of the include patterns cannot be
    read (a directory whose name matches, say), the gathering rejects;
    [exportProject] prints an error through its handler and writes no
    file. *)
Theorem collector_failure_aborts (h : Host) (w : World) (args : ExportArgs.t)
    (st0 stE : State) (initialCwd : string) :
  enter h w args (started h args st0) = (Ok initialCwd, stE) →
  collectorFails h w (ExportArgs.content args) (project stE) →
  (∃ e st1, gather h w (ExportArgs.content args) stE = (Throw e, st1))
  ∧ ∃ e st',
      exportProject h w args st0 = (Ok tt, st')
      ∧ written st' = written st0
      ∧ ∃ before, console st' = before ++ erroredLines h e.
Proof.
  intros Henter Hfails.
  destruct (gather_collector_fails h w _ _ Hfails) as [e He].
  destruct (gather h w (ExportArgs.content args) stE) as [r st1] eqn:Hgather.
  simpl in He. subst r. split; [by exists e, st1 |].
  exists e. eexists. split; [by eapply exportProject_gather_throws |].
  split; [|by eexists]. cbn [appendConsole written].
  destruct (entered_facts h w _ _ _ _ Henter) as (Hw & _).
  destruct (gathered_facts h w _ _ _ _ Hgather) as (Hw1 & _). congruence.
Qed.

(** ** The configuration in the bundle *)

Section Configuration.

Context (h : Host) (w : World).

Lemma run_read_inv {A} (parse : string → result A) filename a st st' :
  (text ← getFile w filename; lift (parse text)) st = (Ok a, st') →
  readGives w parse filename a.
Proof.
  rewrite run_bind. unfold getFile.
  destruct (fileData w !! filename) as [text|] eqn:Hfile; [|done].
  cbn [mret M_ret]. rewrite run_lift.
  destruct (parse text) as [a'|e] eqn:Hparse; [|done].
  intros [= <- <-]. by exists text.
Qed.

(** A bundle that [createProject] returns holds what the two required files
    parse to. *)
Lemma createProject_parsed st created st' :
  createProject h w st = (Ok created, st') →
  readGives w (parsePackageJson h) "package.json" (ProjectJson.package created)
  ∧ readGives w (parseTsconfig h) "tsconfig.json" (ProjectJson.tsconfig created).
Proof.
  intros Hrun.
  destruct (createProject_proceeds h w _ _ _ Hrun) as [Hpackage Htsconfig].
  rewrite run_createProject in Hrun by done. cbv zeta in Hrun.
  destruct ((text ← getFile w "package.json"; lift (parsePackageJson h text)) _)
    as [[package|e|] st1] eqn:Hmanifest; [|done..].
  destruct ((text ← getFile w "tsconfig.json"; lift (parseTsconfig h text)) _)
    as [[tsconfig|e|] st2] eqn:Hconfig; [|done..].
  apply run_read_inv in Hmanifest, Hconfig.
  destruct (access w ".dojorc").
  - destruct ((text ← getFile w ".dojorc"; lift (parseJson h text)) _)
      as [[value|e|] st3]; [|done..].
    by injection Hrun as <- <-.
  - by injection Hrun as <- <-.
Qed.

Lemma configuration_gather content :
  preserves (sameOn (λ st, (ProjectJson.package (project st),
                            ProjectJson.tsconfig (project st),
                            ProjectJson.dojorc (project st),
                            ProjectJson.index (project st))))
            (gather h w content).
Proof.
  apply keeps_gather; try exact _; unfold sameOn; intros;
    by rewrite ?project_verboseState.
Qed.

Lemma entered_project args st initialCwd stE :
  enter h w args st = (Ok initialCwd, stE) →
  ∃ st1 st2, createProject h w st1 = (Ok (project stE), st2).
Proof.
  destruct (chdir w (cwd st) (ExportArgs.project args)) as [dir|e] eqn:Hchdir.
  - rewrite (run_enter_chdir h w _ _ dir) by done. cbv zeta.
    match goal with |- context [createProject h w ?s] =>
      destruct (createProject h w s) as [[created|e|] st2] eqn:Hcreate
    end; [|done..].
    intros [= <- <-]. by eexists _, _.
  - by rewrite (run_enter_chdir_throws h w _ _ e).
Qed.

End Configuration.

(** X25: the manifest and the configuration in a bundle that
    [exportProject] writes are what [package.json] and [tsconfig.json] of the
    project parse to; no phase changes them, the resolution of the
    dependencies included.  The index of the bundle is empty or it is the
    requested index (by default [./src/index.html]) and then a project file
    of the bundle has that name. *)
Theorem bundle_configuration (h : Host) (w : World) (args : ExportArgs.t)
    (st : State) (filename contents : string) :
  written (exportProject h w args st).2 = written st ++ [(filename, contents)] →
  ∃ p,
    contents = stringifyProject h p
    ∧ readGives w (parsePackageJson h) "package.json" (ProjectJson.package p)
    ∧ readGives w (parseTsconfig h) "tsconfig.json" (ProjectJson.tsconfig p)
    ∧ (ProjectJson.index p = EmptyString
       ∨ ProjectJson.index p = default "./src/index.html" (ExportArgs.index args)
         ∧ ∃ f, f ∈ ProjectJson.files p
                ∧ ProjectFile.name f = ProjectJson.index p).
Proof.
  assert (∀ l (x : string * string), l ≠ l ++ [x]) as Hgrows.
  { intros l x Heq. apply (f_equal length) in Heq.
    rewrite length_app in Heq. simpl in Heq. lia. }
  destruct (exportProject_cases h w args st)
    as [(e & stE & Henter & ->)
       |[(initialCwd & stE & e & st1 & Henter & Hgather & ->)
        |(initialCwd & stE & r & st1 & Henter & Hgather & ->)]].
  - destruct (entered_facts h w _ _ _ _ Henter) as (Hw & _).
    cbn [snd appendConsole written]. rewrite Hw. intros Heq.
    by apply Hgrows in Heq.
  - destruct (entered_facts h w _ _ _ _ Henter) as (Hw & _).
    destruct (gathered_facts h w _ _ _ _ Hgather) as (Hw1 & _).
    cbn [snd appendConsole written]. rewrite Hw1, Hw. intros Heq.
    by apply Hgrows in Heq.
  - destruct (entered_facts h w _ _ _ _ Henter) as (Hw & _).
    destruct (gathered_facts h w _ _ _ _ Hgather) as (Hw1 & _).
    destruct (entered_project h w _ _ _ _ Henter) as (sA & sB & Hcreate).
    destruct (createProject_parsed h w _ _ _ Hcreate) as [Hmanifest Hconfig].
    destruct (enter_returns h w _ _ _ _ Henter) as (_ & _ & _ & _ & _ & Hindex).
    pose proof (configuration_gather h w (ExportArgs.content args) stE) as Hsame.
    rewrite Hgather in Hsame. unfold sameOn in Hsame. cbn [snd] in Hsame.
    injection Hsame as Hp Ht _ Hi.
    rewrite run_finish_caught. cbv zeta.
    destruct (setProjectIndex_keeps h (ExportArgs.index args) st1)
      as (Hw2 & _).
    assert (ProjectJson.package
              (project (setProjectIndex h (ExportArgs.index args) st1).2)
            = ProjectJson.package (project st1)
            ∧ ProjectJson.tsconfig
                (project (setProjectIndex h (ExportArgs.index args) st1).2)
              = ProjectJson.tsconfig (project st1)
            ∧ (ProjectJson.index
                 (project (setProjectIndex h (ExportArgs.index args) st1).2)
               = ProjectJson.index (project st1)
               ∨ ProjectJson.index
                   (project (setProjectIndex h (ExportArgs.index args) st1).2)
                 = default "./src/index.html" (ExportArgs.index args)
                 ∧ ∃ f, f ∈ ProjectJson.files
                              (project (setProjectIndex h
                                          (ExportArgs.index args) st1).2)
                        ∧ ProjectFile.name f
                          = default "./src/index.html" (ExportArgs.index args)))
      as (Hp2 & Ht2 & Hi2).
    { rewrite run_setProjectIndex. cbn [snd].
      destruct (List.find _ _) as [f|] eqn:Hfind; cbn; [|by auto].
      split_and!; [done | done | right]. split; [done |].
      apply find_some in Hfind as [Hin%list_elem_of_In Heq%bool_decide_eq_true].
      by exists f. }
    destruct (writeFile w _ _) as [err|];
      cbn [snd appendConsole addWritten written]; rewrite Hw2, Hw1, Hw.
    + intros Heq. by apply Hgrows in Heq.
    + intros [_ [= _ <-]]%app_inj_tail. eexists. split; [reflexivity |].
      rewrite Hp2, Ht2, Hp, Ht. split_and!; [done | done |].
      destruct Hi2 as [Hi2|(Hi2 & f & Hf & Hname)].
      * left. by rewrite Hi2, Hi.
      * right. split; [done |]. exists f. split; [done |]. congruence.
Qed.

(** ** What the verbose flag does not influence *)

Section Respects.

Lemma respects_mret {A} (a : A) : respects (mret a).
Proof. by intros st1 st2 H. Qed.

Lemma respects_throw {A} e : respects (@throw A e).
Proof. by intros st1 st2 H. Qed.

Lemma respects_outOfFuel {A} : respects (@outOfFuel A).
Proof. by intros st1 st2 H. Qed.

Lemma respects_lift {A} (r : result A) : respects (lift r).
Proof. destruct r; [apply respects_mret | apply respects_throw]. Qed.

Lemma respects_gets_cwd : respects (gets cwd).
Proof. intros st1 st2 H. split; [|done]. cbn. f_equal. apply H. Qed.

Lemma respects_gets_project : respects (gets project).
Proof. intros st1 st2 H. split; [|done]. cbn. f_equal. apply H. Qed.

Lemma respects_modify f :
  (∀ st1 st2, sameButConsole st1 st2 → sameButConsole (f st1) (f st2)) →
  respects (modify f).
Proof. intros Hf st1 st2 H. split; [done |]. by apply Hf. Qed.

Lemma respects_updateProject f : respects (updateProject f).
Proof.
  apply respects_modify. intros st1 st2 (Hc & Hp & Hw & Hl).
  unfold sameButConsole. cbn. by rewrite Hp.
Qed.

Lemma respects_bind {A B} (m : M A) (f : A → M B) :
  respects m → (∀ a, respects (f a)) → respects (m ≫= f).
Proof.
  intros Hm Hf st1 st2 H. rewrite !run_bind.
  destruct (Hm st1 st2 H) as [Hout Hst].
  destruct (m st1) as [[a1|e1|] st1'], (m st2) as [[a2|e2|] st2'];
    simpl in Hout, Hst; simplify_eq; first [by apply Hf | by split].
Qed.

Lemma respects_tryCatch {A} (m : M A) handler :
  respects m → (∀ e, respects (handler e)) → respects (tryCatch m handler).
Proof.
  intros Hm Hh st1 st2 H. unfold tryCatch.
  destruct (Hm st1 st2 H) as [Hout Hst].
  destruct (m st1) as [[a1|e1|] st1'], (m st2) as [[a2|e2|] st2'];
    simpl in Hout, Hst; simplify_eq; first [by apply Hh | by split].
Qed.

Lemma respects_promiseAll {A} (tasks : list (M A)) :
  Forall respects tasks → respects (promiseAll tasks).
Proof.
  induction 1 as [|task tasks Htask _ IH]; [apply respects_mret |].
  intros st1 st2 H. cbn [promiseAll].
  destruct (Htask st1 st2 H) as [Hout Hst].
  destruct (task st1) as [r1 st1'], (task st2) as [r2 st2'].
  simpl in Hout, Hst. subst r2.
  destruct (IH st1' st2' Hst) as [Hout' Hst'].
  destruct (promiseAll tasks st1') as [rs1 st1''],
    (promiseAll tasks st2') as [rs2 st2''].
  simpl in Hout', Hst'. subst rs2. done.
Qed.

Lemma respects_promiseAll_fmap {A C} (f : C → M A) (xs : list C) :
  (∀ x, respects (f x)) → respects (promiseAll (f <$> xs)).
Proof.
  intros H. apply respects_promiseAll, Forall_fmap, Forall_forall.
  intros x _. apply H.
Qed.

Lemma respects_log text : respects (log text).
Proof. by intros st1 st2 H. Qed.

Lemma respects_verbose text : respects (verbose text).
Proof.
  intros st1 st2 H. rewrite !run_verbose. split; [done |].
  unfold sameButConsole. cbn [snd].
  by rewrite !cwd_verboseState, !project_verboseState, !written_verboseState,
    !lookups_verboseState.
Qed.

Lemma respects_getFile w filename : respects (getFile w filename).
Proof.
  unfold getFile. destruct (fileData w !! filename);
    [apply respects_mret | apply respects_throw].
Qed.

Lemma respects_getGlob w pattern : respects (getGlob w pattern).
Proof. apply respects_lift. Qed.

End Respects.

Ltac respects_step :=
  lazymatch goal with
  | |- respects (mret _) => apply respects_mret
  | |- respects (throw _) => apply respects_throw
  | |- respects outOfFuel => apply respects_outOfFuel
  | |- respects (gets cwd) => apply respects_gets_cwd
  | |- respects (gets project) => apply respects_gets_project
  | |- respects (lift _) => apply respects_lift
  | |- respects (verbose _) => apply respects_verbose
  | |- respects (log _) => apply respects_log
  | |- respects (getFile _ _) => apply respects_getFile
  | |- respects (getGlob _ _) => apply respects_getGlob
  | |- respects (updateProject _) => apply respects_updateProject
  | |- respects (mbind _ _) => apply respects_bind; [| intros ?]
  | |- respects (tryCatch _ _) => apply respects_tryCatch; [| intros ?]
  | |- respects (promiseAll (_ <$> _)) =>
      apply respects_promiseAll_fmap; intros ?
  | |- respects (promiseAll []) => apply respects_mret
  | |- respects (promiseAll _) =>
      apply respects_promiseAll;
      repeat first [apply Forall_nil_2 | apply Forall_cons_2]
  | |- respects (match ?x with _ => _ end) => destruct x
  | |- respects (let _ := _ in _) => cbv zeta
  | |- respects ((λ _, _) _) => cbv beta
  end.

Section RespectsProgram.

Context (h : Host) (w : World).

Lemma respects_createProject : respects (createProject h w).
Proof. unfold createProject, exists_. repeat respects_step. Qed.

Lemma respects_addLibFiles : respects (addLibFiles h w).
Proof. unfold addLibFiles. repeat respects_step. Qed.

Lemma respects_addTypesFiles : respects (addTypesFiles h w).
Proof. unfold addTypesFiles, addTypesFile. repeat respects_step. Qed.

Lemma respects_addDefinitionFiles : respects (addDefinitionFiles h w).
Proof. unfold addDefinitionFiles. repeat respects_step. Qed.

Lemma respects_addProjectFiles content :
  respects (addProjectFiles h w content).
Proof. unfold addProjectFiles, addProjectFile. repeat respects_step. Qed.

Lemma respects_noteLookup name : respects (noteLookup name).
Proof.
  apply respects_modify. intros st1 st2 (Hc & Hp & Hw & Hl).
  unfold sameButConsole. cbn. by rewrite Hl.
Qed.

Lemma respects_forIn names : ∀ dependencies parsedPackages,
  respects (forIn h w names dependencies parsedPackages).
Proof.
  induction names as [|name names IH]; intros dependencies parsedPackages;
    cbn [forIn]; [apply respects_mret |].
  case_decide; unfold readManifest; repeat respects_step;
    first [apply IH | apply respects_noteLookup].
Qed.

Lemma respects_getDependencies packages parsedPackages :
  respects (getDependencies h w packages parsedPackages).
Proof.
  unfold getDependencies. generalize (S (length (knownNames h w packages))).
  intros fuel. revert packages parsedPackages.
  induction fuel as [|fuel IH]; intros packages parsedPackages;
    cbn [getDependenciesFuel]; repeat respects_step;
    first [apply respects_forIn | apply IH].
Qed.

Lemma respects_addDependencies : respects (addDependencies h w).
Proof.
  unfold addDependencies, seedProduction. repeat respects_step;
    apply respects_getDependencies.
Qed.

Lemma respects_gather content : respects (gather h w content).
Proof.
  unfold gather. repeat respects_step;
    auto using respects_addLibFiles, respects_addTypesFiles,
      respects_addDefinitionFiles, respects_addProjectFiles,
      respects_addDependencies.
Qed.

Lemma respects_enter args : respects (enter h w args).
Proof.
  unfold enter, processChdir. repeat respects_step;
    try apply respects_createProject;
    apply respects_modify; intros st1 st2 (Hc & Hp & Hw & Hl);
    unfold sameButConsole; cbn; by rewrite ?Hc, ?Hp, ?Hw, ?Hl.
Qed.

Lemma respects_setFile filename contents :
  respects (setFile w filename contents).
Proof.
  unfold setFile. repeat respects_step.
  apply respects_modify. intros st1 st2 (Hc & Hp & Hw & Hl).
  unfold sameButConsole. cbn. by rewrite Hc, Hp, Hw, Hl.
Qed.

Lemma respects_finish initialCwd args : respects (finish h w initialCwd args).
Proof.
  unfold finish, setProjectIndex. repeat respects_step.
  apply respects_setFile.
Qed.

Lemma respects_pipeline args :
  respects (tryCatch (pipeline h w args) (reportError h)).
Proof.
  unfold pipeline, reportError. repeat respects_step;
    auto using respects_enter, respects_gather, respects_finish.
Qed.

End RespectsProgram.

(** X26: the verbose flag changes what is printed and nothing else.  Two
    runs of [exportProject] from the same state, with arguments that differ
    in [verbose] only, write the same files with the same contents, end with
    the same bundle and the same working directory, and look up the same
    manifests in the same order. *)
Theorem verbosity_changes_the_console_only (h : Host) (w : World)
    (args : ExportArgs.t) (flag : bool) (st : State) :
  let args' := ExportArgs.mk (ExportArgs.content args) (ExportArgs.out args)
                             (ExportArgs.index args) (ExportArgs.project args)
                             flag in
  let st1 := (exportProject h w args st).2 in
  let st2 := (exportProject h w args' st).2 in
  written st1 = written st2 ∧ project st1 = project st2
  ∧ cwd st1 = cwd st2 ∧ lookups st1 = lookups st2.
Proof.
  cbv zeta. rewrite !exportProject_started.
  assert (pipeline h w
            (ExportArgs.mk (ExportArgs.content args) (ExportArgs.out args)
                           (ExportArgs.index args) (ExportArgs.project args)
                           flag)
          = pipeline h w args) as -> by by destruct args.
  destruct (respects_pipeline h w args (started h args st)
              (started h (ExportArgs.mk (ExportArgs.content args)
                            (ExportArgs.out args) (ExportArgs.index args)
                            (ExportArgs.project args) flag) st))
    as (_ & Hc & Hp & Hw & Hl); [by repeat split |].
  by split_and!.
Qed.

(** ** The further properties at concrete inputs *)

Lemma working_directory_not_restored_witness :
  cwd Demo.stateHome = "/home/user"
  ∧ chdir (Demo.worldChdir Demo.worldSources (Returns Demo.root))
          (cwd Demo.stateHome) (ExportArgs.project Demo.args0)
    = Returns Demo.root
  ∧ cwd (exportProject Demo.hostProject
           (Demo.worldChdir Demo.worldSources (Returns Demo.root))
           Demo.args0 Demo.stateHome).2
    = Demo.root.
Proof.
  split; [reflexivity |]. split; [reflexivity |].
  apply working_directory_not_restored. reflexivity.
Defined.

Lemma chdir_failure_is_reported_witness :
  let gone := "Error: ENOENT: no such file or directory, chdir '/nowhere'" in
  let w := Demo.worldChdir Demo.worldSources (Throws gone) in
  let args := ExportArgs.mk None "." None "/nowhere" false in
  chdir w (cwd Demo.stateHome) (ExportArgs.project args) = Throws gone
  ∧ ∃ st',
      exportProject Demo.hostProject w args Demo.stateHome = (Ok tt, st')
      ∧ console st'
        = [JS.newline +:+ "Export project bundle";
           "  errored " +:+ gone;
           JS.newline]
      ∧ cwd st' = "/home/user" ∧ written st' = [].
Proof.
  cbv zeta. split; [reflexivity |].
  destruct (chdir_failure_is_reported Demo.hostProject
              (Demo.worldChdir Demo.worldSources
                 (Throws "Error: ENOENT: no such file or directory, chdir '/nowhere'"))
              (ExportArgs.mk None "." None "/nowhere" false) Demo.stateHome
              "Error: ENOENT: no such file or directory, chdir '/nowhere'"
              eq_refl)
    as (st' & Hrun & Hconsole & Hcwd & _ & Hwritten).
  exists st'. split; [exact Hrun |]. rewrite Hconsole, Hcwd, Hwritten.
  split; [vm_compute; reflexivity |]. split; reflexivity.
Defined.

Lemma write_failure_is_reported_witness :
  let w := Demo.worldReadOnly Demo.worldSources in
  enter Demo.hostProject w Demo.args0
        (started Demo.hostProject Demo.args0 Demo.state0)
    = (Ok Demo.root, Demo.entered Demo.hostProject w Demo.args0)
  ∧ gather Demo.hostProject w (ExportArgs.content Demo.args0)
           (Demo.entered Demo.hostProject w Demo.args0)
    = (Ok [tt; tt; tt; tt; tt], Demo.gathered Demo.hostProject w Demo.args0)
  ∧ ∃ st',
      exportProject Demo.hostProject w Demo.args0 Demo.state0 = (Ok tt, st')
      ∧ written st' = []
      ∧ console st'
        = [JS.newline +:+ "Export project bundle";
           "  error unable to find index " +:+ quoted "./src/index.html"
           +:+ " in project.";
           "  errored Error: EACCES: permission denied, open "
           +:+ "'test-package.project.json'";
           JS.newline].
Proof.
  cbv zeta.
  assert (enter Demo.hostProject (Demo.worldReadOnly Demo.worldSources)
            Demo.args0 (started Demo.hostProject Demo.args0 Demo.state0)
          = (Ok Demo.root,
             Demo.entered Demo.hostProject (Demo.worldReadOnly Demo.worldSources)
                          Demo.args0))
    as Henter by (vm_compute; reflexivity).
  assert (gather Demo.hostProject (Demo.worldReadOnly Demo.worldSources)
            (ExportArgs.content Demo.args0)
            (Demo.entered Demo.hostProject (Demo.worldReadOnly Demo.worldSources)
                          Demo.args0)
          = (Ok [tt; tt; tt; tt; tt],
             Demo.gathered Demo.hostProject
               (Demo.worldReadOnly Demo.worldSources) Demo.args0))
    as Hgather by (vm_compute; reflexivity).
  split; [exact Henter |]. split; [exact Hgather |].
  destruct (write_failure_is_reported Demo.hostProject
              (Demo.worldReadOnly Demo.worldSources) Demo.args0 Demo.state0
              _ _ Demo.root _
              "Error: EACCES: permission denied, open 'test-package.project.json'"
              Henter Hgather)
    as (st' & Hrun & Hwritten & _ & Hconsole); [vm_compute; reflexivity |].
  exists st'. split; [exact Hrun |]. rewrite Hwritten, Hconsole.
  split; [reflexivity | vm_compute; reflexivity].
Defined.

Lemma quiet_output_witness :
  ExportArgs.verbose Demo.args0 = false
  ∧ console (exportProject Demo.hostProject Demo.worldBaz Demo.args0
                           Demo.state0).2
    = [JS.newline +:+ "Export project bundle";
       "  warn " +:+ quoted "node_modules/baz/package.json"
       +:+ " does not contain type information";
       "  error unable to find index " +:+ quoted "./src/index.html"
       +:+ " in project.";
       "  exported to " +:+ quoted "test-package.project.json" +:+ JS.newline]
  ∧ ∃ lines,
      console (exportProject Demo.hostProject Demo.worldBaz Demo.args0
                             Demo.state0).2
      = console Demo.state0 ++ lines
      ∧ Forall (alwaysVisible Demo.hostProject) lines.
Proof.
  split; [reflexivity |]. split; [vm_compute; reflexivity |].
  apply quiet_output. reflexivity.
Defined.

Lemma addLibFiles_collects_witness :
  let st := Demo.entered Demo.hostMore Demo.worldLibs Demo.args0 in
  Tsconfig.compilerOptions (ProjectJson.tsconfig (project st)) ≫= Tsconfig.lib
    = Some ["es6"; "dom"]
  ∧ ∃ r st' added,
      addLibFiles Demo.hostMore Demo.worldLibs st = (Ok r, st')
      ∧ ProjectJson.environmentFiles (project st') = added
      ∧ added ≡ₚ
        [ProjectFile.mk "lib.es6.d.ts" "interface Map {}" ProjectFileType.Lib;
         ProjectFile.mk "lib.dom.d.ts" "interface Node {}" ProjectFileType.Lib].
Proof.
  cbv zeta. split; [vm_compute; reflexivity |].
  destruct (addLibFiles_collects Demo.hostMore Demo.worldLibs
              (Demo.entered Demo.hostMore Demo.worldLibs Demo.args0))
    as (Hcollect & _).
  destruct (Hcollect ["es6"; "dom"] ["interface Map {}"; "interface Node {}"])
    as (r & st' & added & lines & Hrun & Hproject & Hadded & _).
  - vm_compute. reflexivity.
  - repeat constructor.
  - exists r, st', added. split; [exact Hrun |].
    split; [rewrite Hproject; vm_compute; reflexivity |].
    rewrite Hadded. vm_compute. reflexivity.
Defined.

Lemma addDefinitionFiles_collects_witness :
  let st := Demo.entered Demo.hostMore Demo.worldDefinitions Demo.args0 in
  glob Demo.worldDefinitions "node_modules/{@dojo,@types}/**/*.d.ts"
    = Returns ["node_modules/@dojo/loader/interfaces.d.ts";
               "node_modules/@dojo/loader/dojo-loader.d.ts";
               "node_modules/@types/chai/index.d.ts"]
  ∧ fileData Demo.worldDefinitions !! "node_modules/@dojo/loader/interfaces.d.ts"
    = None
  ∧ ∃ r st' added,
      addDefinitionFiles Demo.hostMore Demo.worldDefinitions st = (Ok r, st')
      ∧ ProjectJson.environmentFiles (project st') = added
      ∧ added ≡ₚ
        [ProjectFile.mk "node_modules/@dojo/loader/dojo-loader.d.ts"
           "declare loader" ProjectFileType.Definition_;
         ProjectFile.mk "node_modules/@types/chai/index.d.ts"
           "declare chai" ProjectFileType.Definition_].
Proof.
  cbv zeta. split; [reflexivity |]. split; [vm_compute; reflexivity |].
  destruct (addDefinitionFiles_collects Demo.hostMore Demo.worldDefinitions
              (Demo.entered Demo.hostMore Demo.worldDefinitions Demo.args0))
    as (Hcollect & _).
  destruct (Hcollect ["node_modules/@dojo/loader/interfaces.d.ts";
                      "node_modules/@dojo/loader/dojo-loader.d.ts";
                      "node_modules/@types/chai/index.d.ts"]
                     ["declare loader"; "declare chai"])
    as (r & st' & added & lines & Hrun & Hproject & Hadded & _).
  - reflexivity.
  - vm_compute. repeat constructor.
  - exists r, st', added. split; [exact Hrun |].
    split; [rewrite Hproject; vm_compute; reflexivity |].
    rewrite Hadded. vm_compute. reflexivity.
Defined.

Lemma createProject_reads_witness :
  access Demo.worldDojorc "package.json" = true
  ∧ access Demo.worldDojorc "tsconfig.json" = true
  ∧ access Demo.worldDojorc ".dojorc" = true
  ∧ createProject Demo.hostStrict Demo.worldDojorc Demo.state0
    = (Ok (ProjectJson.mk (ProjectJson.mkDependencies [] []) [] [] EmptyString
             Demo.projectManifest
             (Tsconfig.mk (Some (Tsconfig.mkOptions None None)) None)
             (Some "{}")),
       Demo.state0).
Proof.
  split; [reflexivity |]. split; [reflexivity |]. split; [reflexivity |].
  destruct (createProject_reads Demo.hostStrict Demo.worldDojorc Demo.state0
              Demo.projectManifest
              (Tsconfig.mk (Some (Tsconfig.mkOptions None None)) None))
    as (_ & Hdojorc & _).
  - reflexivity.
  - reflexivity.
  - exists "manifest of the project". split; vm_compute; reflexivity.
  - exists "plain". split; vm_compute; reflexivity.
  - rewrite (Hdojorc "{}"); [reflexivity | reflexivity |].
    exists "{}". split; vm_compute; reflexivity.
Defined.

Lemma configuration_failure_aborts_witness :
  let e := "SyntaxError: Unexpected token in JSON" +:+ JS.newline
           +:+ "    at JSON.parse" in
  access Demo.worldDojorcBroken ".dojorc" = true
  ∧ readFails Demo.worldDojorcBroken (parseJson Demo.hostStrict) ".dojorc" e
  ∧ ∃ st',
      exportProject Demo.hostStrict Demo.worldDojorcBroken Demo.args0 Demo.state0
        = (Ok tt, st')
      ∧ written st' = []
      ∧ ∃ before, console st' = before ++ erroredLines Demo.hostStrict e.
Proof.
  cbv zeta.
  assert (readFails Demo.worldDojorcBroken (parseJson Demo.hostStrict) ".dojorc"
            ("SyntaxError: Unexpected token in JSON" +:+ JS.newline
             +:+ "    at JSON.parse")) as Hfails.
  { right. exists "{ not json". split; vm_compute; reflexivity. }
  split; [reflexivity |]. split; [exact Hfails |].
  destruct (configuration_failure_aborts Demo.hostStrict Demo.worldDojorcBroken
              Demo.args0 Demo.state0 Demo.root
              ("SyntaxError: Unexpected token in JSON" +:+ JS.newline
               +:+ "    at JSON.parse"))
    as (_ & Hexport).
  - reflexivity.
  - reflexivity.
  - reflexivity.
  - right. exists Demo.projectManifest. split.
    { exists "manifest of the project". split; vm_compute; reflexivity. }
    right. exists (Tsconfig.mk (Some (Tsconfig.mkOptions None None)) None).
    split.
    { exists "plain". split; vm_compute; reflexivity. }
    split; [reflexivity | exact Hfails].
  - exact Hexport.
Defined.

Lemma types_with_entry_point_witness :
  PackageJson.typings Demo.fooManifest = None
  ∧ PackageJson.types Demo.fooManifest = Some "foo.d.ts"
  ∧ ∃ st',
      addTypesFile Demo.hostMore Demo.worldFooTyped "foo" Demo.state0
        = (Ok tt, st')
      ∧ ProjectJson.environmentFiles (project st')
        = [ProjectFile.mk "node_modules/foo/package.json"
             (stringifyPackageJson Demo.hostMore Demo.fooManifest)
             ProjectFileType.JSON;
           ProjectFile.mk "node_modules/foo/foo.d.ts" "declare foo"
                          ProjectFileType.Definition_]
      ∧ console st' = [].
Proof.
  split; [reflexivity |]. split; [reflexivity |].
  destruct (types_with_entry_point Demo.hostMore Demo.worldFooTyped "foo"
              Demo.state0 (Demo.modulePath "foo/package.json")
              "manifest of foo" Demo.fooManifest "foo.d.ts"
              (Demo.modulePath "foo/foo.d.ts") "declare foo")
    as ((st' & Hrun & Henv & _ & Hconsole & _) & _);
    [vm_compute; reflexivity | vm_compute; reflexivity
    | vm_compute; reflexivity | reflexivity | vm_compute; reflexivity
    | vm_compute; reflexivity |].
  exists st'. split; [exact Hrun |]. rewrite Henv, Hconsole.
  split; vm_compute; reflexivity.
Defined.

Lemma types_manifest_failure_witness :
  let st := Demo.entered Demo.hostMore Demo.worldFooMissing Demo.args0 in
  enter Demo.hostMore Demo.worldFooMissing Demo.args0
        (started Demo.hostMore Demo.args0 Demo.state0)
    = (Ok Demo.root, st)
  ∧ Tsconfig.compilerOptions (ProjectJson.tsconfig (project st))
      ≫= Tsconfig.types = Some ["foo"]
  ∧ requireResolve Demo.worldFooMissing
      (path_join Demo.hostMore ["foo"; "package.json"])
    = Throws "Error: Cannot find module 'foo/package.json'"
  ∧ ∃ e' st',
      exportProject Demo.hostMore Demo.worldFooMissing Demo.args0 Demo.state0
        = (Ok tt, st')
      ∧ written st' = written Demo.state0
      ∧ ∃ before, console st' = before ++ erroredLines Demo.hostMore e'.
Proof.
  cbv zeta.
  assert (enter Demo.hostMore Demo.worldFooMissing Demo.args0
            (started Demo.hostMore Demo.args0 Demo.state0)
          = (Ok Demo.root,
             Demo.entered Demo.hostMore Demo.worldFooMissing Demo.args0))
    as Henter by (vm_compute; reflexivity).
  split; [exact Henter |]. split; [vm_compute; reflexivity |].
  split; [vm_compute; reflexivity |].
  destruct (types_manifest_failure Demo.hostMore Demo.worldFooMissing Demo.args0
              Demo.state0 _ Demo.root ["foo"] "foo"
              "Error: Cannot find module 'foo/package.json'" Henter)
    as (_ & _ & Hexport);
    [vm_compute; reflexivity | apply list_elem_of_here
    | left; vm_compute; reflexivity |].
  exact Hexport.
Defined.

Lemma visited_frontier_resolves_nothing_witness :
  (∀ x, x ∈ StringMap.keys [("A", "1.0.0")] → x ∈ ({["A"]} : gset string))
  ∧ manifestOf Demo.hostAB Demo.worldAB "A"
    = Returns (Demo.manifest (Some [("X", "1.0.0")]) None)
  ∧ ∃ st',
      getDependencies Demo.hostAB Demo.worldAB [("A", "1.0.0")] {["A"]}
                      Demo.state0
        = (Ok ([], {["A"]}), st')
      ∧ lookups st' = [] ∧ console st' = [].
Proof.
  assert (∀ x, x ∈ StringMap.keys [("A", "1.0.0")]
               → x ∈ ({["A"]} : gset string)) as Hall.
  { intros x ->%list_elem_of_singleton. by apply elem_of_singleton. }
  split; [exact Hall |]. split; [vm_compute; reflexivity |].
  destruct (visited_frontier_resolves_nothing Demo.hostAB Demo.worldAB
              [("A", "1.0.0")] {["A"]} Demo.state0 Hall)
    as (st' & Hrun & Hlook & Hconsole & _).
  exists st'. split; [exact Hrun |]. rewrite Hlook, Hconsole.
  split; reflexivity.
Defined.

Lemma resolved_version_replaces_own_witness :
  let st := Demo.entered Demo.hostMore Demo.worldApplication Demo.args0 in
  PackageJson.dependencies (ProjectJson.package (project st))
    = Some [("dep1", "1.0.0"); ("dep2", "1.0.0")]
  ∧ manifestOf Demo.hostMore Demo.worldApplication "dep2"
    = Returns (Demo.manifest (Some [("dep1", "2.0.0")]) None)
  ∧ "dep1" ≠ StringMap.proto
  ∧ StringMap.get "dep1"
      (ProjectJson.production
         (ProjectJson.dependencies
            (project (addDependencies Demo.hostMore Demo.worldApplication st).2)))
    = Some "2.0.0"
  ∧ ∃ st' v name packageJson,
      addDependencies Demo.hostMore Demo.worldApplication st = (Ok tt, st')
      ∧ StringMap.get "dep1"
          (ProjectJson.production (ProjectJson.dependencies (project st')))
        = Some v
      ∧ manifestOf Demo.hostMore Demo.worldApplication name = Returns packageJson
      ∧ declares packageJson "dep1" v.
Proof.
  cbv zeta. split; [vm_compute; reflexivity |].
  split; [vm_compute; reflexivity |]. split; [discriminate |].
  split; [vm_compute; reflexivity |].
  destruct (resolved_version_replaces_own Demo.hostMore Demo.worldApplication
              (Demo.entered Demo.hostMore Demo.worldApplication Demo.args0)
              "dep1")
    as (st' & v & name & pj & Hrun & Hget & _ & Hm & Hdecl).
  - exists "dep2", (Demo.manifest (Some [("dep1", "2.0.0")]) None).
    split; [|split; [vm_compute; reflexivity |]].
    + apply reaches_frontier. vm_compute.
      apply list_elem_of_further, list_elem_of_here.
    + vm_compute. apply list_elem_of_here.
  - discriminate.
  - exists st', v, name, pj. split_and!; assumption.
Defined.

Lemma frontier_names_only_witness :
  (∀ x, x ∈ StringMap.keys [("A", "1.0.0"); ("B", "1.0.0")]
        ↔ x ∈ StringMap.keys [("B", "1.0.0"); ("A", "1.0.0")])
  ∧ (getDependencies Demo.hostAB Demo.worldAB [("A", "1.0.0"); ("B", "1.0.0")]
                     ∅ Demo.state0).1
    = Ok ([("X", "1.0.1")], {["X"; "B"; "A"]})
  ∧ (getDependencies Demo.hostAB Demo.worldAB [("B", "1.0.0"); ("A", "1.0.0")]
                     ∅ Demo.state0).1
    = Ok ([("X", "1.0.0")], {["X"; "A"; "B"]})
  ∧ ∃ result1 result2 parsedPackages' st1 st2,
      getDependencies Demo.hostAB Demo.worldAB [("A", "1.0.0"); ("B", "1.0.0")]
                      ∅ Demo.state0
        = (Ok (result1, parsedPackages'), st1)
      ∧ getDependencies Demo.hostAB Demo.worldAB
                        [("B", "1.0.0"); ("A", "1.0.0")] ∅ Demo.state0
        = (Ok (result2, parsedPackages'), st2)
      ∧ ∀ x, x ∈ StringMap.keys result1 ↔ x ∈ StringMap.keys result2.
Proof.
  assert (∀ x, x ∈ StringMap.keys [("A", "1.0.0"); ("B", "1.0.0")]
               ↔ x ∈ StringMap.keys [("B", "1.0.0"); ("A", "1.0.0")]) as Hkeys.
  { intros x. rewrite !elem_of_keys. cbn [fmap list_fmap fst].
    rewrite !elem_of_cons. naive_solver. }
  split; [exact Hkeys |]. split; [vm_compute; reflexivity |].
  split; [vm_compute; reflexivity |].
  destruct (frontier_names_only Demo.hostAB Demo.worldAB
              [("A", "1.0.0"); ("B", "1.0.0")] [("B", "1.0.0"); ("A", "1.0.0")]
              ∅ Demo.state0) as (_ & Horder).
  exact (Horder Hkeys).
Defined.

Lemma collector_failure_aborts_witness :
  let st := Demo.entered Demo.hostMore Demo.worldLibMissing Demo.args0 in
  enter Demo.hostMore Demo.worldLibMissing Demo.args0
        (started Demo.hostMore Demo.args0 Demo.state0)
    = (Ok Demo.root, st)
  ∧ fileData Demo.worldLibMissing !! libPath Demo.hostMore "dom" = None
  ∧ ∃ e st',
      exportProject Demo.hostMore Demo.worldLibMissing Demo.args0 Demo.state0
        = (Ok tt, st')
      ∧ written st' = written Demo.state0
      ∧ ∃ before, console st' = before ++ erroredLines Demo.hostMore e.
Proof.
  cbv zeta.
  assert (enter Demo.hostMore Demo.worldLibMissing Demo.args0
            (started Demo.hostMore Demo.args0 Demo.state0)
          = (Ok Demo.root,
             Demo.entered Demo.hostMore Demo.worldLibMissing Demo.args0))
    as Henter by (vm_compute; reflexivity).
  assert (fileData Demo.worldLibMissing !! libPath Demo.hostMore "dom" = None)
    as Hmissing by (vm_compute; reflexivity).
  split; [exact Henter |]. split; [exact Hmissing |].
  destruct (collector_failure_aborts Demo.hostMore Demo.worldLibMissing
              Demo.args0 Demo.state0 _ Demo.root Henter)
    as (_ & Hexport); [|exact Hexport].
  left. exists ["es6"; "dom"], "dom". split; [vm_compute; reflexivity |].
  split; [|exact Hmissing]. apply list_elem_of_further, list_elem_of_here.
Defined.

Lemma bundle_configuration_witness :
  let args := ExportArgs.mk None "." (Some "src/page.html") "." false in
  let contents :=
    "index=src/page.html;files=src/index.ts,src/page.html,typings/a.d.ts,"
    +:+ "src/index.ts;environmentFiles=;production={};development={}" in
  written (exportProject Demo.hostProject Demo.worldSources args Demo.state0).2
    = written Demo.state0 ++ [("test-package.project.json", contents)]
  ∧ ∃ p,
      contents = stringifyProject Demo.hostProject p
      ∧ readGives Demo.worldSources (parsePackageJson Demo.hostProject)
                  "package.json" (ProjectJson.package p)
      ∧ readGives Demo.worldSources (parseTsconfig Demo.hostProject)
                  "tsconfig.json" (ProjectJson.tsconfig p)
      ∧ (ProjectJson.index p = EmptyString
         ∨ ProjectJson.index p
           = default "./src/index.html" (ExportArgs.index args)
           ∧ ∃ f, f ∈ ProjectJson.files p
                  ∧ ProjectFile.name f = ProjectJson.index p).
Proof.
  cbv zeta. split; [vm_compute; reflexivity |].
  apply (bundle_configuration Demo.hostProject Demo.worldSources
           (ExportArgs.mk None "." (Some "src/page.html") "." false)
           Demo.state0 "test-package.project.json").
  vm_compute. reflexivity.
Defined.
